(** * protodex: source parsing, fetching, dependency cache and protoc
      argument assembly

    A shallow embedding of the Go packages
    [internal/manager/fetcher], [internal/manager/dependency],
    [internal/manager] (plugin merging) and [internal/protoc]
    (plugin manager, generator, executor), together with the properties
    the design document states about them.

    Conventions.
    - Go strings are [string]; a Go [int] index is a [Z] ([-1] for
      "not found", as [strings.LastIndex] returns it).
    - A Go [error] is an [error] value: a message, possibly wrapping a
      cause (the [%w] verb of [fmt.Errorf]).
    - Code that touches the file system, the network or the process
      table is a state transformer over a [World], reading the answers
      of the outside (HTTP responses, executables on the search path)
      from an [Env]. *)

From Stdlib Require Import ZArith Ascii String List Bool Lia.
From stdpp Require Import gmap strings list pretty.

Local Open Scope string_scope.
Local Open Scope Z_scope.
Local Open Scope list_scope.

(* ===================================================================== *)
(** * Go's [strings] package, as far as the program uses it               *)
(* ===================================================================== *)

Module strings.

(** [strip pre s] is [Some r] exactly when [s = pre ++ r]. *)
Fixpoint strip (pre s : string) : option string :=
  match pre with
  | EmptyString => Some s
  | String a pre' =>
      match s with
      | EmptyString => None
      | String b s' => if Ascii.eqb a b then strip pre' s' else None
      end
  end.

Definition HasPrefix (s pre : string) : bool :=
  match strip pre s with Some _ => true | None => false end.

Definition TrimPrefix (s pre : string) : string :=
  match strip pre s with Some r => r | None => s end.

Fixpoint take (n : nat) (s : string) : string :=
  match n, s with
  | S n', String a s' => String a (take n' s')
  | _, _ => EmptyString
  end.

Fixpoint drop (n : nat) (s : string) : string :=
  match n, s with
  | S n', String _ s' => drop n' s'
  | _, _ => s
  end.

(** [s[:i]] and [s[i:]] for an index the program has already checked. *)
Definition slice_to (s : string) (i : Z) : string := take (Z.to_nat i) s.
Definition slice_from (s : string) (i : Z) : string := drop (Z.to_nat i) s.

Definition HasSuffix (s suf : string) : bool :=
  (String.length suf <=? String.length s)%nat &&
  String.eqb (drop (String.length s - String.length suf) s) suf.

Definition TrimSuffix (s suf : string) : string :=
  if HasSuffix s suf then take (String.length s - String.length suf) s else s.

(** Byte index of the first occurrence of [sub] in [s], or [-1]. *)
Fixpoint Index (s sub : string) : Z :=
  if HasPrefix s sub then 0
  else match s with
       | EmptyString => -1
       | String _ s' =>
           let i := Index s' sub in if i =? -1 then -1 else i + 1
       end.

(** Byte index of the last occurrence of [sub] in [s], or [-1]. *)
Fixpoint LastIndex (s sub : string) : Z :=
  match s with
  | EmptyString => if HasPrefix s sub then 0 else -1
  | String _ s' =>
      let i := LastIndex s' sub in
      if i =? -1 then (if HasPrefix s sub then 0 else -1) else i + 1
  end.

Definition Contains (s sub : string) : bool := negb (Index s sub =? -1).

Definition lower_ascii (c : ascii) : ascii :=
  let n := nat_of_ascii c in
  if ((65 <=? n) && (n <=? 90))%nat then ascii_of_nat (n + 32) else c.

Fixpoint ToLower (s : string) : string :=
  match s with
  | EmptyString => EmptyString
  | String c s' => String (lower_ascii c) (ToLower s')
  end.

(** [strings.Split s sep] for a one-byte separator. *)
Fixpoint Split (s : string) (sep : ascii) : list string :=
  match s with
  | EmptyString => [EmptyString]
  | String c s' =>
      if Ascii.eqb c sep then EmptyString :: Split s' sep
      else match Split s' sep with
           | h :: t => String c h :: t
           | [] => [String c EmptyString]
           end
  end.

Fixpoint Join (elems : list string) (sep : string) : string :=
  match elems with
  | [] => EmptyString
  | [e] => e
  | e :: rest => e +:+ sep +:+ Join rest sep
  end.

(** [strings.Replace s old new 1]: the first occurrence only. *)
Definition Replace1 (s old new : string) : string :=
  let i := Index s old in
  if i =? -1 then s
  else slice_to s i +:+ new +:+ slice_from s (i + Z.of_nat (String.length old)).

End strings.

(* ===================================================================== *)
(** * Errors                                                              *)
(* ===================================================================== *)

(** [New msg] is [fmt.Errorf(msg)] or an error of the runtime;
    [Wrap msg cause] is [fmt.Errorf(msg + ": %w", cause)]. *)
Inductive error : Type :=
| New (msg : string)
| Wrap (msg : string) (cause : error).

Inductive result (A : Type) : Type :=
| Ok (a : A)
| Err (e : error).
Arguments Ok {A} a.
Arguments Err {A} e.

Definition is_ok {A} (r : result A) : bool :=
  match r with Ok _ => true | Err _ => false end.

(** The text [err.Error()] prints. *)
Fixpoint Error (e : error) : string :=
  match e with
  | New msg => msg
  | Wrap msg cause => msg +:+ ": " +:+ Error cause
  end.

(* ===================================================================== *)
(** * Go's [net/url.Parse], as far as source references exercise it       *)
(* ===================================================================== *)

(** Percent-escapes (in host, path and fragment) are not decoded or
    checked, and a bracketed IPv6 host is not treated specially; the
    rest of [Parse] is followed step by step. *)
Module url.

Record URL : Type := mkURL {
  Scheme : string;
  Opaque : string;
  Host : string;
  Path : string;
  RawQuery : string
}.

Definition is_letter (c : ascii) : bool :=
  let n := nat_of_ascii c in
  (((97 <=? n) && (n <=? 122)) || ((65 <=? n) && (n <=? 90)))%nat.

Definition is_digit (c : ascii) : bool :=
  let n := nat_of_ascii c in ((48 <=? n) && (n <=? 57))%nat.

Definition is_scheme_extra (c : ascii) : bool :=
  is_digit c || Ascii.eqb c "+" || Ascii.eqb c "-" || Ascii.eqb c ".".

(** [getScheme]: the loop over [rawURL[i:]], with the bytes already
    accepted in [seen] (in order). *)
Fixpoint getScheme_from (rawURL : string) (seen : string) (rest : string)
  : result (string * string) :=
  match rest with
  | EmptyString => Ok (EmptyString, rawURL)
  | String c rest' =>
      if is_letter c then getScheme_from rawURL (seen +:+ String c EmptyString) rest'
      else if is_scheme_extra c then
        match seen with
        | EmptyString => Ok (EmptyString, rawURL)
        | _ => getScheme_from rawURL (seen +:+ String c EmptyString) rest'
        end
      else if Ascii.eqb c ":" then
        match seen with
        | EmptyString => Err (New "missing protocol scheme")
        | _ => Ok (seen, rest')
        end
      else Ok (EmptyString, rawURL)
  end.

Definition getScheme (rawURL : string) : result (string * string) :=
  getScheme_from rawURL EmptyString rawURL.

Fixpoint stringContainsCTLByte (s : string) : bool :=
  match s with
  | EmptyString => false
  | String c s' =>
      let n := nat_of_ascii c in
      ((n <? 32) || (n =? 127))%nat || stringContainsCTLByte s'
  end.

(** [strings.Cut s sep]: the text before and after the first [sep]. *)
Definition Cut (s sep : string) : string * string :=
  let i := strings.Index s sep in
  if i =? -1 then (s, EmptyString)
  else (strings.slice_to s i,
        strings.slice_from s (i + Z.of_nat (String.length sep))).

Fixpoint all_digits (s : string) : bool :=
  match s with
  | EmptyString => true
  | String c s' => is_digit c && all_digits s'
  end.

Definition validOptionalPort (port : string) : bool :=
  match port with
  | EmptyString => true
  | String c rest => Ascii.eqb c ":" && all_digits rest
  end.

(** [parseAuthority] then [parseHost], for a host that is a name or an
    IPv4 address: the user information before the last [@] is dropped
    and an optional port is checked.  Percent-escapes, bracketed IPv6
    literals and the character checks of host and user information are
    not modelled; the references of this development use none. *)
Definition parseAuthority (authority : string) : result string :=
  let i := strings.LastIndex authority "@" in
  let host := if i =? -1 then authority else strings.slice_from authority (i + 1) in
  let j := strings.LastIndex host ":" in
  if negb (j =? -1) && negb (validOptionalPort (strings.slice_from host j))
  then Err (New "invalid port after host")
  else Ok host.

Definition parse (rawURL : string) : result URL :=
  if stringContainsCTLByte rawURL then
    Err (New "net/url: invalid control character in URL")
  else if String.eqb rawURL "*" then
    Ok (mkURL EmptyString EmptyString EmptyString "*" EmptyString)
  else
    match getScheme rawURL with
    | Err e => Err e
    | Ok (scheme0, rest0) =>
        let scheme := strings.ToLower scheme0 in
        let '(rest, query) := Cut rest0 "?" in
        if negb (strings.HasPrefix rest "/") && negb (String.eqb scheme EmptyString) then
          Ok (mkURL scheme rest EmptyString EmptyString query)
        else if negb (strings.HasPrefix rest "/")
                && strings.Contains (fst (Cut rest "/")) ":" then
          Err (New "first path segment in URL cannot contain colon")
        else if (negb (String.eqb scheme EmptyString)
                 || negb (strings.HasPrefix rest "///"))
                && strings.HasPrefix rest "//" then
          let authority0 := strings.slice_from rest 2 in
          let i := strings.Index authority0 "/" in
          let '(authority, rest') :=
            if 0 <=? i then (strings.slice_to authority0 i, strings.slice_from authority0 i)
            else (authority0, EmptyString) in
          match parseAuthority authority with
          | Err e => Err e
          | Ok host => Ok (mkURL scheme EmptyString host rest' query)
          end
        else Ok (mkURL scheme EmptyString EmptyString rest query)
    end.

(** [url.Parse]: the fragment after the first [#] is cut off first. *)
Definition Parse (rawURL : string) : result URL :=
  match parse (fst (Cut rawURL "#")) with
  | Err e => Err (Wrap ("parse " +:+ fst (Cut rawURL "#")) e)
  | Ok u => Ok u
  end.

End url.

(* ===================================================================== *)
(** * Package [fetcher]: source references ([parser.go])                  *)
(* ===================================================================== *)

(** [type SourceType string]: any string can stand where a source type
    is expected (the type arrives from YAML); five are named. *)
Definition SourceType : Type := string.
Definition SourceGitHub : SourceType := "github".
Definition SourceHTTP : SourceType := "http".
Definition SourceGoogleWellKnown : SourceType := "google-well-known".
Definition SourceLocal : SourceType := "local".
Definition SourceProtodex : SourceType := "protodex".

Record SourceInfo : Type := mkSourceInfo {
  Typ : SourceType;
  Source : string;
  Version : string;
  Raw : string
}.

Definition isLocalPath (input : string) : bool :=
  strings.HasPrefix input "./" ||
  strings.HasPrefix input "../" ||
  strings.HasPrefix input "/" ||
  (negb (strings.Contains input "://") && negb (strings.Contains input "@")).

Definition getDefaultVersion (sourceType : SourceType) : string :=
  if String.eqb sourceType SourceGitHub then "main"
  else if String.eqb sourceType SourceProtodex then "latest"
  else "".

Section ParseSource.

(** The URI parser of the Go library.  [url.Parse] above is the instance
    the examples run on. *)
Variable url_Parse : string -> result url.URL.

Definition ParseSource (input : string) : result SourceInfo :=
  if String.eqb input "" then Err (New "empty source")
  else if strings.HasPrefix input "file://" then
    Ok (mkSourceInfo SourceLocal (strings.TrimPrefix input "file://") "" input)
  else if isLocalPath input then
    Ok (mkSourceInfo SourceLocal input "" input)
  else
    let atIndex := strings.LastIndex input "@" in
    let '(baseInput, version) :=
      if negb (atIndex =? -1)
      then (strings.slice_to input atIndex, strings.slice_from input (atIndex + 1))
      else (input, "") in
    match url_Parse baseInput with
    | Err e => Err (Wrap "invalid source format" e)
    | Ok parsedURL =>
        if String.eqb (url.Scheme parsedURL) "" then
          Err (New "missing scheme in source")
        else
          let scheme := strings.ToLower (url.Scheme parsedURL) in
          let finish (sourceType : SourceType) : result SourceInfo :=
            Ok (mkSourceInfo sourceType
                  (url.Host parsedURL +:+ url.Path parsedURL)
                  (if negb (String.eqb version "") then version
                   else getDefaultVersion sourceType)
                  input) in
          if String.eqb scheme "http" || String.eqb scheme "https" then finish SourceHTTP
          else if String.eqb scheme "github" then finish SourceGitHub
          else if String.eqb scheme "google-well-known" then finish SourceGoogleWellKnown
          else if String.eqb scheme "protodex" then finish SourceProtodex
          else if String.eqb scheme "file" then finish SourceLocal
          else Err (New ("unsupported source type: " +:+ url.Scheme parsedURL))
    end.

End ParseSource.

(* ===================================================================== *)
(** * Go's [path/filepath]                                                *)
(* ===================================================================== *)

Module filepath.

(** The element stack of [Clean], newest first. *)
Fixpoint clean_segs (rooted : bool) (acc : list string) (segs : list string)
  : list string :=
  match segs with
  | [] => rev acc
  | seg :: rest =>
      if String.eqb seg "" || String.eqb seg "." then clean_segs rooted acc rest
      else if String.eqb seg ".." then
        match acc with
        | top :: acc' =>
            if String.eqb top ".." then clean_segs rooted (seg :: acc) rest
            else clean_segs rooted acc' rest
        | [] =>
            if rooted then clean_segs rooted acc rest
            else clean_segs rooted (seg :: acc) rest
        end
      else clean_segs rooted (seg :: acc) rest
  end.

Definition IsAbs (p : string) : bool := strings.HasPrefix p "/".

Definition Clean (p : string) : string :=
  let segs := clean_segs (IsAbs p) [] (strings.Split p "/") in
  if IsAbs p then "/" +:+ strings.Join segs "/"
  else match segs with
       | [] => "."
       | _ => strings.Join segs "/"
       end.

(** [filepath.Join a b]: empty elements are ignored, the result is
    cleaned, and joining nothing gives the empty string. *)
Definition Join (a b : string) : string :=
  if String.eqb a "" then (if String.eqb b "" then "" else Clean b)
  else if String.eqb b "" then Clean a
  else Clean (a +:+ "/" +:+ b).

(** [filepath.Dir p]: everything up to the last separator, cleaned. *)
Definition Dir (p : string) : string :=
  Clean (strings.slice_to p (strings.LastIndex p "/" + 1)).

(** [filepath.Base p], for a cleaned path. *)
Definition Base (p : string) : string :=
  strings.slice_from p (strings.LastIndex p "/" + 1).

End filepath.

(* ===================================================================== *)
(** * The outside world: files, links, the network, processes             *)
(* ===================================================================== *)

(** One member of a zip archive.  [FileInfo().IsDir()] holds when the
    external attributes say so or when the name ends in a slash;
    [Corrupt] members are those [Open] rejects. *)
Module zip.

Record File : Type := mkFile {
  Name : string;
  DirAttr : bool;
  Content : string;
  Corrupt : bool
}.

Definition IsDir (f : File) : bool :=
  DirAttr f || strings.HasSuffix (Name f) "/".

(** [file.Open()]. *)
Definition Open (f : File) : result string :=
  if Corrupt f then Err (New "zip: unsupported compression algorithm")
  else Ok (Content f).

End zip.

(** What a file holds: bytes that are not an archive, or an archive. *)
Inductive data : Type :=
| Bytes (b : string)
| Archive (files : list zip.File).

Inductive node : Type :=
| File (d : data)
| Directory
| Symlink (target : string).


(** An HTTP response.  [BodyFails] says that reading the body breaks
    off before its end. *)
Record Response : Type := mkResponse {
  StatusCode : Z;
  ContentType : string;
  ContentDisposition : string;
  Body : data;
  BodyFails : bool
}.

(** The state the program changes.  [fs] maps absolute, cleaned paths
    to what is there; links are leaves, no operation follows them.
    [requests] lists the URLs asked for, oldest first; [execs] the
    argument vectors of the processes run; [executables] the names
    [exec.LookPath] finds. *)
Record World : Type := mkWorld {
  fs : gmap string node;
  requests : list string;
  stdout : list string;
  execs : list (list string);
  executables : gset string
}.

(** What the program only reads. *)
Record Env : Type := mkEnv {
  cwd : option string;
  TempDir : string;
  http_Get : string -> option Response;
  registry : string;
  GOOS : string;
  GOARCH : string;
  (** an install command: [None] when it exits non-zero, otherwise the
      executables it puts on the search path *)
  install : list string -> option (gset string);
  (** does the compiler exit with status 0 on these arguments? *)
  protoc_ok : list string -> bool
}.

Definition set_fs (w : World) (m : gmap string node) : World :=
  mkWorld m (requests w) (stdout w) (execs w) (executables w).

(** ** Programs over the world *)

Definition M (A : Type) : Type := World -> result A * World.

Definition ret {A} (a : A) : M A := fun w => (Ok a, w).
Definition throw {A} (e : error) : M A := fun w => (Err e, w).
Definition bind {A B} (c : M A) (k : A -> M B) : M B :=
  fun w => match c w with
           | (Ok a, w') => k a w'
           | (Err e, w') => (Err e, w')
           end.

Notation "x <- c ;; k" := (bind c (fun x => k))
  (at level 100, c at next level, right associativity).
Notation "c ;;; k" := (bind c (fun _ => k))
  (at level 100, right associativity).

(** [try c]: run [c] and hand its outcome to the caller as a value. *)
Definition try {A} (c : M A) : M (result A) :=
  fun w => let '(r, w') := c w in (Ok r, w').

(** [defer cleanup] before [body]: the cleanup runs when the body
    returns, whatever it returns. *)
Definition defer {A} (cleanup : M unit) (body : M A) : M A :=
  fun w => let '(r, w1) := body w in (r, snd (cleanup w1)).

(** [fmt.Errorf(msg + ": %w", err)] on the error path of [c]. *)
Definition wrap {A} (msg : string) (c : M A) : M A :=
  fun w => match c w with
           | (Ok a, w') => (Ok a, w')
           | (Err e, w') => (Err (Wrap msg e), w')
           end.

Definition lift {A} (r : result A) : M A := fun w => (r, w).

Definition Printf (line : string) : M unit :=
  fun w => (Ok tt, mkWorld (fs w) (requests w) (stdout w ++ [line]) (execs w) (executables w)).

Section os.

Variable env : Env.

(** [filepath.Abs]: fails only when the working directory is needed and
    cannot be had. *)
Definition Abs (p : string) : result string :=
  if filepath.IsAbs p then Ok (filepath.Clean p)
  else match cwd env with
       | Some d => Ok (filepath.Join d p)
       | None => Err (New "getwd: no such file or directory")
       end.

Inductive stat : Type :=
| Found (n : node)
| NotExist.

(** [os.Stat] followed by [os.IsNotExist(err)]. *)
Definition Stat (p : string) (w : World) : stat :=
  match Abs p with
  | Ok a => match fs w !! a with Some n => Found n | None => NotExist end
  | Err _ => NotExist
  end.

Fixpoint insert_by_name (e : string * node) (l : list (string * node))
  : list (string * node) :=
  match l with
  | [] => [e]
  | x :: l' => if String.leb (fst e) (fst x) then e :: l else x :: insert_by_name e l'
  end.

(** The entries directly under the directory [a], sorted by name. *)
Definition children (a : string) (m : gmap string node) : list (string * node) :=
  foldr insert_by_name []
    (omap (fun kv : string * node =>
             if negb (String.eqb (fst kv) a) && String.eqb (filepath.Dir (fst kv)) a
             then Some (filepath.Base (fst kv), snd kv) else None)
          (map_to_list m)).

Definition ReadDir (p : string) (w : World) : result (list (string * node)) :=
  match Abs p with
  | Err e => Err e
  | Ok a =>
      match fs w !! a with
      | None => Err (New ("open " +:+ p +:+ ": no such file or directory"))
      | Some Directory => Ok (children a (fs w))
      | Some _ => Err (New ("readdir " +:+ p +:+ ": not a directory"))
      end
  end.


(** The path itself and the directories above it, outermost first. *)
Fixpoint prefixes (base : string) (segs : list string) : list string :=
  match segs with
  | [] => []
  | seg :: rest =>
      let next := if String.eqb base "/" then "/" +:+ seg else base +:+ "/" +:+ seg in
      next :: prefixes next rest
  end.

Definition ancestors (a : string) : list string :=
  "/" :: prefixes "/" (filepath.clean_segs true [] (strings.Split a "/")).

Fixpoint mkdirs (dirs : list string) (m : gmap string node)
  : result (gmap string node) :=
  match dirs with
  | [] => Ok m
  | d :: rest =>
      match m !! d with
      | None => mkdirs rest (<[d := Directory]> m)
      | Some Directory => mkdirs rest m
      | Some _ => Err (New ("mkdir " +:+ d +:+ ": not a directory"))
      end
  end.

Definition MkdirAll (p : string) : M unit :=
  fun w => match Abs p with
           | Err e => (Err e, w)
           | Ok a => match mkdirs (ancestors a) (fs w) with
                     | Ok m => (Ok tt, set_fs w m)
                     | Err e => (Err e, w)
                     end
           end.

(** [os.Create] followed by writing [d] and closing, and [os.WriteFile]:
    the directory above must be there, and the name must not be taken by
    a directory or a link. *)
Definition WriteFile (p : string) (d : data) : M unit :=
  fun w => match Abs p with
           | Err e => (Err e, w)
           | Ok a =>
               match fs w !! filepath.Dir a, fs w !! a with
               | Some Directory, None
               | Some Directory, Some (File _) =>
                   if String.eqb a "/" then (Err (New ("open " +:+ p +:+ ": is a directory")), w)
                   else (Ok tt, set_fs w (<[a := File d]> (fs w)))
               | Some Directory, Some _ =>
                   (Err (New ("open " +:+ p +:+ ": is a directory")), w)
               | _, _ => (Err (New ("open " +:+ p +:+ ": no such file or directory")), w)
               end
           end.

Definition os_Symlink (oldname newname : string) : M unit :=
  fun w => match Abs newname with
           | Err e => (Err e, w)
           | Ok a =>
               match fs w !! a, fs w !! filepath.Dir a with
               | Some _, _ =>
                   (Err (New ("symlink " +:+ oldname +:+ " " +:+ newname +:+ ": file exists")), w)
               | None, Some Directory =>
                   (Ok tt, set_fs w (<[a := Symlink oldname]> (fs w)))
               | None, _ =>
                   (Err (New ("symlink " +:+ oldname +:+ " " +:+ newname
                              +:+ ": no such file or directory")), w)
               end
           end.

(** [os.Remove] of a file or link. *)
Definition Remove (p : string) : M unit :=
  fun w => match Abs p with
           | Err e => (Err e, w)
           | Ok a =>
               match fs w !! a with
               | Some (File _) | Some (Symlink _) => (Ok tt, set_fs w (delete a (fs w)))
               | Some Directory =>
                   match children a (fs w) with
                   | [] => (Ok tt, set_fs w (delete a (fs w)))
                   | _ => (Err (New ("remove " +:+ p +:+ ": directory not empty")), w)
                   end
               | None => (Err (New ("remove " +:+ p +:+ ": no such file or directory")), w)
               end
           end.

(** [os.CreateTemp("", pattern)]: a new, empty file in the temporary
    directory, named by the pattern with its [*] replaced.  The
    replacement is drawn again while the name is taken; [fuel] bounds
    the draws as the library does. *)
Fixpoint CreateTemp_from (fuel n : nat) (pre suf : string) (w : World)
  : result string * World :=
  match fuel with
  | O => (Err (New "createtemp: file exists"), w)
  | S fuel' =>
      let name := filepath.Join (TempDir env) (pre +:+ pretty n +:+ suf) in
      match Abs name with
      | Err e => (Err e, w)
      | Ok a =>
          match fs w !! a with
          | Some _ => CreateTemp_from fuel' (S n) pre suf w
          | None =>
              match fs w !! filepath.Dir a with
              | Some Directory => (Ok name, set_fs w (<[a := File (Bytes "")]> (fs w)))
              | _ => (Err (New ("open " +:+ name +:+ ": no such file or directory")), w)
              end
          end
      end
  end.

Definition CreateTemp (pre suf : string) : M string :=
  CreateTemp_from (Z.to_nat 10000) 0 pre suf.

(** [client.Get]: the request is issued, then answered or not. *)
Definition Get (u : string) : M Response :=
  fun w =>
    let w' := mkWorld (fs w) (requests w ++ [u]) (stdout w) (execs w) (executables w) in
    match http_Get env u with
    | Some resp => (Ok resp, w')
    | None => (Err (New ("Get " +:+ u +:+ ": connection failed")), w')
    end.

(** [io.Copy(tempFile, resp.Body)]: what arrived is written; a body
    that breaks off leaves the file with the bytes before the break. *)
Definition Copy_body (name : string) (resp : Response) : M unit :=
  fun w =>
    match Abs name with
    | Err e => (Err e, w)
    | Ok a =>
        if BodyFails resp then
          (Err (New "unexpected EOF"), set_fs w (<[a := File (Bytes "")]> (fs w)))
        else (Ok tt, set_fs w (<[a := File (Body resp)]> (fs w)))
    end.

(** [zip.OpenReader]. *)
Definition zip_OpenReader (p : string) (w : World) : result (list zip.File) :=
  match Abs p with
  | Err e => Err e
  | Ok a =>
      match fs w !! a with
      | Some (File (Archive files)) => Ok files
      | Some _ => Err (New "zip: not a valid zip file")
      | None => Err (New ("open " +:+ p +:+ ": no such file or directory"))
      end
  end.

Definition LookPath (file : string) (w : World) : bool :=
  bool_decide (file ∈ executables w).

End os.

(* ===================================================================== *)
(** * Package [fetcher]: acquiring a source                               *)
(* ===================================================================== *)

Module Fetcher.
Record t : Type := mk {
  SourceType : string;
  Source : string;
  Version : string;
  Dest : string
}.
End Fetcher.

Definition FetchedMarkerFile : string := ".protodex_fetched".

(** [cmp.Or(dest, source)] picks the first non-empty string. *)
Definition NewFetcher (sourceType : SourceType) (source version dest : string)
  : result Fetcher.t :=
  let dest :=
    if String.eqb sourceType SourceLocal
    then (if String.eqb dest "" then source else dest)
    else dest in
  Ok (Fetcher.mk sourceType source version dest).

Section fetcher.

Variable env : Env.
Variable url_Parse : string -> result url.URL.

Definition NewFetcherFromURL (sourceURL dest : string) : result Fetcher.t :=
  match ParseSource url_Parse sourceURL with
  | Err e => Err (Wrap "failed to parse source URL" e)
  | Ok sourceInfo => NewFetcher (Typ sourceInfo) (Source sourceInfo) (Version sourceInfo) dest
  end.

Definition localFetch (f : Fetcher.t) : M unit :=
  fun w =>
    match Abs env (Fetcher.Source f) with
    | Err e => (Err (Wrap "failed to get absolute path of source" e), w)
    | Ok absSourcePath =>
        match Stat env absSourcePath w with
        | NotExist => (Err (New ("source path does not exist: " +:+ absSourcePath)), w)
        | Found _ =>
            match Abs env (Fetcher.Dest f) with
            | Err e => (Err (Wrap "failed to get absolute path of destination" e), w)
            | Ok destAbsolute =>
                if String.eqb absSourcePath destAbsolute then (Ok tt, w)
                else wrap ("failed to create symlink from " +:+ absSourcePath
                           +:+ " to " +:+ Fetcher.Dest f)
                          (os_Symlink env absSourcePath (Fetcher.Dest f)) w
            end
        end
    end.

Definition isFetched (path : string) (w : World) : bool :=
  match Stat env path w with
  | NotExist => false
  | Found _ =>
      match ReadDir env path w with
      | Err _ => false
      | Ok entries =>
          match entries with
          | [] => false
          | _ =>
              match Stat env (filepath.Join path FetchedMarkerFile) w with
              | NotExist => false
              | Found _ => true
              end
          end
      end
  end.

(** Closing the response body and the temporary file does not fail
    in this model. *)
Definition download (u : string) : M string :=
  resp <- Get env u ;;
  if negb (StatusCode resp =? 200) then throw (New ("HTTP " +:+ pretty (StatusCode resp)))
  else
    tempFile <- CreateTemp env "protodex-download-" ".zip" ;;
    Copy_body env tempFile resp ;;;
    ret tempFile.

Definition markAsFetched (f : Fetcher.t) : M unit :=
  wrap "failed to create fetched marker"
       (WriteFile env (filepath.Join (Fetcher.Dest f) FetchedMarkerFile) (Bytes "")).

Fixpoint extractZip_files (files : list zip.File) (destPath : string) : M unit :=
  match files with
  | [] => ret tt
  | file :: rest =>
      if zip.IsDir file then extractZip_files rest destPath
      else
        rc <- lift (zip.Open file) ;;
        let destFile := filepath.Join destPath (zip.Name file) in
        MkdirAll env (filepath.Dir destFile) ;;;
        WriteFile env destFile (Bytes rc) ;;;
        extractZip_files rest destPath
  end.

Definition extractZip (zipPath destPath : string) : M unit :=
  fun w => match zip_OpenReader env zipPath w with
           | Err e => (Err e, w)
           | Ok files => extractZip_files files destPath w
           end.

(** The deferred removal of the downloaded archive. *)
Definition remove_temp (zipPath : string) : M unit :=
  fun w => match Remove env zipPath w with
           | (Err e, w') =>
               Printf ("Warning: failed to remove temp file: " +:+ Error e) w'
           | (Ok _, w') => (Ok tt, w')
           end.

Definition downloadAndExtract (f : Fetcher.t) : M unit :=
  zipPath <- wrap "failed to download from URL" (download (Fetcher.Source f)) ;;
  defer (remove_temp zipPath)
        (wrap "failed to extract zip" (extractZip zipPath (Fetcher.Dest f))).

Definition urlFetch (f : Fetcher.t) : M unit :=
  match url_Parse (Fetcher.Source f) with
  | Err e => throw (Wrap "invalid URL" e)
  | Ok parsedURL =>
      if negb (String.eqb (url.Scheme parsedURL) "http")
         && negb (String.eqb (url.Scheme parsedURL) "https")
      then throw (New ("unsupported URL scheme: " +:+ url.Scheme parsedURL))
      else fun w =>
        if isFetched (Fetcher.Dest f) w
        then Printf ("Source already fetched to " +:+ Fetcher.Dest f) w
        else (Printf ("Downloading from " +:+ Fetcher.Source f +:+ "...") ;;;
              wrap "failed to fetch from URL" (downloadAndExtract f) ;;;
              _ <- try (markAsFetched f) ;;
              ret tt) w
  end.

(** [extractFile] of [github.go]. *)
Definition extractFile (file : zip.File) (targetPath : string) : M unit :=
  rc <- lift (zip.Open file) ;;
  WriteFile env targetPath (Bytes rc).

(** The first loop of [extractGitHubZip]: the first member that is not
    a directory names the top-level directory. *)
Fixpoint rootPrefix_of (files : list zip.File) : string :=
  match files with
  | [] => ""
  | file :: rest =>
      if negb (zip.IsDir file) then
        match strings.Split (zip.Name file) "/" with
        | part0 :: _ => part0 +:+ "/"
        | [] => rootPrefix_of rest
        end
      else rootPrefix_of rest
  end.

(** The second loop, with the running count of extracted files. *)
Fixpoint extractGitHubZip_files (files : list zip.File)
  (rootPrefix targetDir subDir : string) (extracted : Z) : M Z :=
  match files with
  | [] => ret extracted
  | file :: rest =>
      if zip.IsDir file then
        extractGitHubZip_files rest rootPrefix targetDir subDir extracted
      else
        let relativePath := strings.TrimPrefix (zip.Name file) rootPrefix in
        if negb (String.eqb subDir "")
           && negb (strings.HasPrefix relativePath (subDir +:+ "/"))
        then extractGitHubZip_files rest rootPrefix targetDir subDir extracted
        else
          let relativePath :=
            if negb (String.eqb subDir "")
            then strings.TrimPrefix relativePath (subDir +:+ "/")
            else relativePath in
          if String.eqb relativePath "" then
            extractGitHubZip_files rest rootPrefix targetDir subDir extracted
          else
            let targetPath := filepath.Join targetDir relativePath in
            MkdirAll env (filepath.Dir targetPath) ;;;
            wrap ("failed to extract " +:+ relativePath) (extractFile file targetPath) ;;;
            extractGitHubZip_files rest rootPrefix targetDir subDir (extracted + 1)
  end.

Definition extractGitHubZip (zipPath targetDir subDir : string) : M unit :=
  fun w => match zip_OpenReader env zipPath w with
           | Err e => (Err e, w)
           | Ok files =>
               (extracted <- extractGitHubZip_files files (rootPrefix_of files)
                                                    targetDir subDir 0 ;;
                Printf ("Extracted " +:+ pretty extracted
                        +:+ " files from GitHub repository")) w
           end.

Definition downloadAndExtractGithub (f : Fetcher.t) (githubURL branch : string)
  : M unit :=
  Printf ("Downloading " +:+ githubURL +:+ " from GitHub...") ;;;
  let githubURL := strings.TrimPrefix githubURL "https://" in
  let githubURL := strings.TrimPrefix githubURL "http://" in
  let githubURL := strings.TrimPrefix githubURL "git@" in
  let githubURL := strings.TrimSuffix githubURL ".git" in
  let githubURL :=
    if strings.HasPrefix githubURL "github.com:"
    then strings.Replace1 githubURL "github.com:" "github.com/"
    else githubURL in
  if negb (strings.HasPrefix githubURL "github.com/") then
    throw (New ("invalid GitHub URL: " +:+ githubURL))
  else
    match strings.Split (strings.TrimPrefix githubURL "github.com/") "/" with
    | owner :: repo :: more =>
        let subDir := strings.Join more "/" in
        let version := if String.eqb branch "" then "main" else branch in
        let downloadVersion := strings.TrimPrefix version "v" in
        let u :=
          if strings.HasPrefix version "v"
          then "https://github.com/" +:+ owner +:+ "/" +:+ repo
               +:+ "/archive/refs/tags/" +:+ version +:+ ".zip"
          else "https://github.com/" +:+ owner +:+ "/" +:+ repo
               +:+ "/archive/refs/heads/" +:+ downloadVersion +:+ ".zip" in
        Printf ("Downloading from " +:+ u +:+ "...") ;;;
        zipPath <- download u ;;
        defer (remove_temp zipPath) (extractGitHubZip zipPath (Fetcher.Dest f) subDir)
    | _ => throw (New ("invalid GitHub source format: " +:+ githubURL))
    end.

Definition githubFetch (f : Fetcher.t) : M unit :=
  let ref := if String.eqb (Fetcher.Version f) "" then "main" else Fetcher.Version f in
  let gitURL := Fetcher.Source f in
  if String.eqb gitURL "" then throw (New "github source URL is required")
  else
    (fun w => if isFetched (Fetcher.Dest f) w
              then Printf ("Source already fetched to " +:+ Fetcher.Dest f) w
              else (Ok tt, w)) ;;;
    let gitURL := "github.com/" +:+ gitURL in
    wrap "failed to fetch from GitHub" (downloadAndExtractGithub f gitURL ref) ;;;
    wrap "failed to mark as fetched" (markAsFetched f).

End fetcher.

(* ===================================================================== *)
(** * Package [client]: pulling a version from the registry               *)
(* ===================================================================== *)

Section client.

Variable env : Env.

Definition quote : string := String (ascii_of_nat 34) EmptyString.

(** [strings.Trim(s, quote)]. *)
Definition Trim_quotes (s : string) : string :=
  let fix trim_left (n : nat) (s : string) : string :=
    match n with
    | O => s
    | S n' => match strings.strip quote s with
              | Some r => trim_left n' r
              | None => s
              end
    end in
  let fix trim_right (n : nat) (s : string) : string :=
    match n with
    | O => s
    | S n' => if strings.HasSuffix s quote
              then trim_right n' (strings.TrimSuffix s quote) else s
    end in
  trim_right (String.length s) (trim_left (String.length s) s).

Fixpoint extractZipArchive_files (files : list zip.File) (outputDir : string)
  : M unit :=
  match files with
  | [] => ret tt
  | file :: rest =>
      let filePath := filepath.Join outputDir (zip.Name file) in
      wrap ("failed to create directory for " +:+ filePath)
           (MkdirAll env (filepath.Dir filePath)) ;;;
      if zip.IsDir file then extractZipArchive_files rest outputDir
      else
        fileContent <- wrap ("failed to open zip entry " +:+ zip.Name file)
                            (lift (zip.Open file)) ;;
        wrap ("failed to write file " +:+ filePath)
             (WriteFile env filePath (Bytes fileContent)) ;;;
        extractZipArchive_files rest outputDir
  end.

Definition extractZipArchive (content : data) (outputDir : string) : M unit :=
  match content with
  | Archive files => extractZipArchive_files files outputDir
  | Bytes _ => throw (Wrap "failed to create zip reader" (New "zip: not a valid zip file"))
  end.

Definition PullVersion (packageName version outputDir : string) : M unit :=
  let u := registry env +:+ "/api/packages/" +:+ packageName
           +:+ "/versions/" +:+ version +:+ "/files" in
  resp <- wrap "request failed" (Get env u) ;;
  if negb (StatusCode resp =? 200) then
    throw (New ("pull failed: " +:+ pretty (StatusCode resp)))
  else
    wrap "failed to create output directory" (MkdirAll env outputDir) ;;;
    if BodyFails resp then throw (Wrap "failed to read response" (New "unexpected EOF"))
    else
      let content := Body resp in
      if String.eqb (ContentType resp) "application/zip"
         || strings.HasSuffix (ContentDisposition resp) ".zip"
      then extractZipArchive content outputDir
      else
        let filename := packageName +:+ "-" +:+ version +:+ ".proto" in
        let disposition := ContentDisposition resp in
        let filename :=
          if negb (String.eqb disposition "")
             && strings.Contains disposition "filename="
          then Trim_quotes (fst (url.Cut (snd (url.Cut disposition "filename=")) "filename="))
          else filename in
        wrap "failed to write file"
             (WriteFile env (filepath.Join outputDir filename) content).

End client.

Section Fetch.

Variable env : Env.
Variable url_Parse : string -> result url.URL.

Definition protodexFetch (f : Fetcher.t) : M unit :=
  PullVersion env (Fetcher.Source f) (Fetcher.Version f) (Fetcher.Dest f).

Definition Fetch (f : Fetcher.t) : M unit :=
  if String.eqb (Fetcher.SourceType f) SourceLocal then localFetch env f
  else if String.eqb (Fetcher.SourceType f) SourceGitHub then githubFetch env f
  else if String.eqb (Fetcher.SourceType f) SourceProtodex then protodexFetch f
  else if String.eqb (Fetcher.SourceType f) SourceHTTP then urlFetch env url_Parse f
  else if String.eqb (Fetcher.SourceType f) SourceGoogleWellKnown then urlFetch env url_Parse f
  else throw (New ("unsupported source type: " +:+ Fetcher.SourceType f)).

End Fetch.

(* ===================================================================== *)
(** * Package [dependency]: the cache of resolved dependencies            *)
(* ===================================================================== *)

Module Config.
Record t : Type := mk {
  Name : string;
  Typ : SourceType;
  Source : string;
  Version : string;
  Path : string
}.
End Config.

Module Resolver.
Record t : Type := mk { outputPath : string }.
End Resolver.

Definition googleProtocVersion : string := "v32.0".

Section dependency.

Variable env : Env.
Variable url_Parse : string -> result url.URL.

Definition isCached (path : string) (w : World) : bool :=
  match Stat env path w with
  | NotExist => false
  | Found _ =>
      match ReadDir env path w with
      | Err _ => false
      | Ok entries => match entries with [] => false | _ => true end
      end
  end.

(** [extractFile] of [google.go]. *)
Definition extractFile_includes (file : zip.File) (targetPath : string) : M unit :=
  rc <- lift (zip.Open file) ;;
  WriteFile env targetPath (Bytes rc).

Fixpoint extractIncludes_files (files : list zip.File) (targetDir : string)
  (extracted : Z) : M Z :=
  match files with
  | [] => ret extracted
  | file :: rest =>
      if negb (strings.HasPrefix (zip.Name file) "include/") then
        extractIncludes_files rest targetDir extracted
      else if zip.IsDir file then
        extractIncludes_files rest targetDir extracted
      else
        let relativePath := strings.TrimPrefix (zip.Name file) "include/" in
        let relativePath := strings.TrimPrefix relativePath "google/protobuf/" in
        let targetPath := filepath.Join targetDir relativePath in
        MkdirAll env (filepath.Dir targetPath) ;;;
        extractFile_includes file targetPath ;;;
        extractIncludes_files rest targetDir (extracted + 1)
  end.

Definition extractIncludes (zipPath targetDir : string) : M unit :=
  fun w => match zip_OpenReader env zipPath w with
           | Err e => (Err e, w)
           | Ok files =>
               (extracted <- extractIncludes_files files targetDir 0 ;;
                Printf ("Extracted " +:+ pretty extracted +:+ " include files")) w
           end.

Definition resolveGoogleWellKnownProtos (dc : Resolver.t) (dep : Config.t) : M unit :=
  let targetDir := filepath.Join (Resolver.outputPath dc) (Config.Name dep) in
  fun w =>
    if isCached targetDir w then (Ok tt, w)
    else
      (Printf ("Downloading " +:+ Config.Name dep +:+ " from GitHub...") ;;;
       let version :=
         if String.eqb (Config.Version dep) "" then googleProtocVersion
         else Config.Version dep in
       let versionWithoutPrefix := strings.TrimPrefix version "v" in
       let u := "https://github.com/protocolbuffers/protobuf/releases/download/"
                +:+ version +:+ "/protoc-" +:+ versionWithoutPrefix
                +:+ "-linux-x86_64.zip" in
       Printf ("Downloading from " +:+ u +:+ "...") ;;;
       resp <- wrap "failed to download includes" (Get env u) ;;
       if negb (StatusCode resp =? 200) then
         throw (New ("failed to download includes: HTTP " +:+ pretty (StatusCode resp)))
       else
         tempFile <- CreateTemp env "protoc-includes-" ".zip" ;;
         defer (_ <- try (Remove env tempFile) ;; ret tt)
               (Copy_body env tempFile resp ;;;
                extractIncludes tempFile targetDir ;;;
                WriteFile env (filepath.Join targetDir ".protodex-complete")
                          (Bytes googleProtocVersion) ;;;
                Printf ("Protobuf includes cached to " +:+ targetDir))) w.

Definition _resolveDependency (dc : Resolver.t) (dep : Config.t) : M unit :=
  let targetDir := filepath.Join (Resolver.outputPath dc) (Config.Name dep) in
  match NewFetcher (Config.Typ dep) (Config.Source dep) (Config.Version dep) targetDir with
  | Err e => throw (Wrap "failed to create fetcher" e)
  | Ok fch => Fetch env url_Parse fch
  end.

Definition resolveDependency (dc : Resolver.t) (dep : Config.t) : M unit :=
  if String.eqb (Config.Typ dep) SourceGoogleWellKnown
  then resolveGoogleWellKnownProtos dc dep
  else _resolveDependency dc dep.

Fixpoint ResolveDependencies (dc : Resolver.t) (deps : list Config.t) : M unit :=
  match deps with
  | [] => ret tt
  | dep :: rest =>
      wrap ("failed to resolve dependency " +:+ Config.Name dep)
           (resolveDependency dc dep) ;;;
      ResolveDependencies dc rest
  end.

Definition GetDependencyPath (dc : Resolver.t) : string := Resolver.outputPath dc.



End dependency.

(* ===================================================================== *)
(** * Package [protoc]: plugins, the compiler, the generation call        *)
(* ===================================================================== *)

(** A Go [map[string]string] that is ranged over: its entries in the
    order the range visits them, which the language leaves open. *)
Definition strmap : Type := list (string * string).

Module CustomPlugin.
Record t : Type := mk {
  Name : string;
  Command : string;
  OutputDir : string;
  Options : strmap;
  Required : bool
}.
End CustomPlugin.

(** [Info]; [CheckCmd] is left out, no [Info] of the program sets it. *)
Module Info.
Record t : Type := mk {
  Name : string;
  DownloadCmd : option (list string);
  Filename : string
}.
End Info.

Module Executor.
Record t : Type := mk {
  version : string;
  protocPath : string;
  depsPath : string
}.
End Executor.

Module GenerateOptions.
Record t : Type := mk {
  ProjectPath : string;
  Options : strmap;
  CustomPlugins : list CustomPlugin.t
}.
End GenerateOptions.

Section protoc.

Variable env : Env.

(** [cmd.Run()] of an install command. *)
Definition run_install (argv : list string) : M unit :=
  fun w =>
    let logged := execs w ++ [argv] in
    match install env argv with
    | None =>
        (Err (New "exit status 1"),
         mkWorld (fs w) (requests w) (stdout w) logged (executables w))
    | Some added =>
        (Ok tt, mkWorld (fs w) (requests w) (stdout w) logged (executables w ∪ added))
    end.

Definition installPlugin (plugin : Info.t) : M unit :=
  match Info.DownloadCmd plugin with
  | Some argv =>
      Printf ("Installing " +:+ Info.Name plugin +:+ " using command: "
              +:+ strings.Join argv " ") ;;;
      wrap ("failed to run install command for " +:+ Info.Name plugin) (run_install argv)
  | None => throw (New ("no download method for plugin " +:+ Info.Name plugin))
  end.

Definition ensurePlugin (plugin : Info.t) : M unit :=
  fun w =>
    if LookPath (Info.Name plugin) w then (Ok tt, w)
    else (Printf ("Downloading " +:+ Info.Name plugin +:+ "...") ;;;
          wrap ("failed to download and install " +:+ Info.Name plugin)
               (installPlugin plugin)) w.

Definition ensure_named (name : string) (argv : list string) : M unit :=
  wrap ("failed to ensure " +:+ name) (ensurePlugin (Info.mk name (Some argv) name)).

Definition ensureGoPlugins : M unit :=
  ensure_named "protoc-gen-go"
    ["go"; "install"; "google.golang.org/protobuf/cmd/protoc-gen-go@latest"].
Definition ensureDartPlugins : M unit :=
  ensure_named "protoc-gen-dart" ["dart"; "pub"; "global"; "activate"; "protoc_plugin"].
Definition ensureRustPlugins : M unit :=
  ensure_named "protoc-gen-rs" ["cargo"; "install"; "protobuf-codegen"].
Definition ensureSwiftPlugins : M unit :=
  ensure_named "protoc-gen-swift" ["brew"; "install"; "swift-protobuf"].
Definition ensureTypeScriptPlugins : M unit :=
  ensure_named "protoc-gen-ts" ["npm"; "install"; "-g"; "ts-proto"].
Definition ensureJavaScriptPlugins : M unit :=
  ensure_named "protoc-gen-es" ["npm"; "install"; "-g"; "@bufbuild/protoc-gen-es"].

Definition ensureLanguagePlugins (language : string) : M unit :=
  let l := strings.ToLower language in
  if String.eqb l "go" then ensureGoPlugins
  else if String.eqb l "dart" then ensureDartPlugins
  else if String.eqb l "rust" then ensureRustPlugins
  else if String.eqb l "swift" then ensureSwiftPlugins
  else if String.eqb l "ts" then ensureTypeScriptPlugins
  else if String.eqb l "js" then ensureJavaScriptPlugins
  else ret tt.

Definition ensureCustomPlugin (plugin : CustomPlugin.t) (w : World) : result unit :=
  if LookPath (CustomPlugin.Command plugin) w then Ok tt
  else Err (Wrap ("plugin command '" +:+ CustomPlugin.Command plugin
                  +:+ "' not found in PATH")
                 (New "executable file not found in $PATH")).

Definition option_flags (options : strmap) : list string :=
  map (fun kv => "--" +:+ fst kv +:+ "=" +:+ snd kv) options.

(** The loop of [Process] over the custom plugins. *)
Fixpoint Process_plugins (customPlugins : list CustomPlugin.t)
  (outputDir : string) (args : list string) : M (list string) :=
  match customPlugins with
  | [] => ret args
  | plugin :: rest =>
      fun w =>
        match ensureCustomPlugin plugin w with
        | Err e =>
            if CustomPlugin.Required plugin then
              (Err (Wrap ("failed to ensure custom plugin " +:+ CustomPlugin.Name plugin) e), w)
            else
              (Printf ("Warning: Skipping optional plugin " +:+ CustomPlugin.Name plugin
                       +:+ ": " +:+ Error e) ;;;
               Process_plugins rest outputDir args) w
        | Ok _ =>
            let pluginOutputDir :=
              if String.eqb (CustomPlugin.OutputDir plugin) "" then outputDir
              else CustomPlugin.OutputDir plugin in
            let args := args ++ ["--" +:+ CustomPlugin.Name plugin +:+ "_out="
                                 +:+ pluginOutputDir] in
            let args := args ++ option_flags (CustomPlugin.Options plugin) in
            Process_plugins rest outputDir args w
        end
  end.

Definition Process (language outputDir : string) (customPlugins : list CustomPlugin.t)
  : M (list string) :=
  wrap ("failed to ensure language plugins for " +:+ language)
       (ensureLanguagePlugins language) ;;;
  let args := ["--" +:+ language +:+ "_out=" +:+ outputDir] in
  Process_plugins customPlugins outputDir args.

(** ** [downloader.go] *)

Definition getCurrentPlatform : string :=
  let arch := GOARCH env in
  if String.eqb arch "amd64" || String.eqb arch "arm64" then
    let arch := if String.eqb arch "amd64" then "x86_64" else "aarch_64" in
    if String.eqb (GOOS env) "linux" then "linux-" +:+ arch
    else if String.eqb (GOOS env) "darwin" then "osx-" +:+ arch
    else if String.eqb (GOOS env) "windows" then
      (if String.eqb arch "x86_64" then "win64" else "")
    else ""
  else "".

Definition getBinaryName (platform : string) : string :=
  if String.eqb platform "linux-x86_64" then "protoc-linux-amd64"
  else if String.eqb platform "linux-aarch_64" then "protoc-linux-arm64"
  else if String.eqb platform "osx-x86_64" then "protoc-darwin-amd64"
  else if String.eqb platform "osx-aarch_64" then "protoc-darwin-arm64"
  else if String.eqb platform "win64" then "protoc-windows-amd64.exe"
  else "".

Fixpoint find_protoc (files : list zip.File) : option zip.File :=
  match files with
  | [] => None
  | file :: rest =>
      if strings.HasSuffix (zip.Name file) "bin/protoc"
         || strings.HasSuffix (zip.Name file) "bin/protoc.exe"
      then Some file else find_protoc rest
  end.

Definition extractProtocFromZip (zipPath outputPath : string) : M unit :=
  fun w =>
    match zip_OpenReader env zipPath w with
    | Err e => (Err (Wrap "failed to open zip" e), w)
    | Ok files =>
        match find_protoc files with
        | None => (Err (New "protoc binary not found in zip"), w)
        | Some protocFile =>
            (src <- wrap "failed to open protoc in zip" (lift (zip.Open protocFile)) ;;
             wrap "failed to create output file" (WriteFile env outputPath (Bytes src))) w
        end
    end.

Definition protoc_downloadAndExtract (platform outputPath version : string) : M unit :=
  let filename := "protoc-" +:+ version +:+ "-" +:+ platform +:+ ".zip" in
  let u := "https://github.com/protocolbuffers/protobuf/releases/download/v"
           +:+ version +:+ "/" +:+ filename in
  resp <- wrap "failed to download" (Get env u) ;;
  if negb (StatusCode resp =? 200) then
    throw (New ("download failed with status: " +:+ pretty (StatusCode resp)))
  else
    tempFile <- wrap "failed to create temp file" (CreateTemp env "protoc-" ".zip") ;;
    defer (fun w => match Remove env tempFile w with
                    | (Err e, w') =>
                        Printf ("Warning: failed to remove temp file " +:+ tempFile
                                +:+ ": " +:+ Error e) w'
                    | (Ok _, w') => (Ok tt, w')
                    end)
          (wrap "failed to write download" (Copy_body env tempFile resp) ;;;
           wrap "failed to extract" (extractProtocFromZip tempFile outputPath)).

(** [os.Chmod(path, 0755)]: the file becomes one [LookPath] accepts. *)
Definition Chmod_exec (p : string) : M unit :=
  fun w => match Stat env p w with
           | NotExist => (Err (New ("chmod " +:+ p +:+ ": no such file or directory")), w)
           | Found _ =>
               (Ok tt, mkWorld (fs w) (requests w) (stdout w) (execs w)
                               (executables w ∪ {[p]}))
           end.

Definition downloadProtoc (e : Executor.t) : M unit :=
  let platform := getCurrentPlatform in
  if String.eqb platform "" then
    throw (New ("unsupported platform: " +:+ GOOS env +:+ "/" +:+ GOARCH env))
  else if String.eqb (getBinaryName platform) "" then
    throw (New ("failed to get binary name for platform: " +:+ platform))
  else
    wrap "failed to create directory"
         (MkdirAll env (filepath.Dir (Executor.protocPath e))) ;;;
    wrap ("failed to download protoc for " +:+ platform)
         (protoc_downloadAndExtract platform (Executor.protocPath e) (Executor.version e)) ;;;
    wrap "failed to make protoc executable" (Chmod_exec (Executor.protocPath e)).

(** ** [protoc.go] and [generator.go] *)

Definition ensureProtoc (e : Executor.t) : M unit :=
  if String.eqb (Executor.protocPath e) "" then
    throw (New "protoc binary path is not set")
  else fun w =>
    if LookPath (Executor.protocPath e) w then (Ok tt, w)
    else
      (Printf ("protoc binary not found in " +:+ filepath.Dir (Executor.protocPath e)
               +:+ ", downloading...") ;;;
       wrap "protoc not found and download failed" (downloadProtoc e) ;;;
       fun w' =>
         if LookPath (Executor.protocPath e) w' then (Ok tt, w')
         else (Err (Wrap "protoc still not executable after download"
                         (New "executable file not found in $PATH")), w')) w.

(** [exec.Command(e.protocPath, protocArgs...)] and [cmd.Run()]. *)
Definition run_protoc (e : Executor.t) (protocArgs : list string) : M unit :=
  fun w =>
    let w' := mkWorld (fs w) (requests w) (stdout w)
                      (execs w ++ [Executor.protocPath e :: protocArgs])
                      (executables w) in
    if protoc_ok env protocArgs then (Ok tt, w') else (Err (New "exit status 1"), w').

Definition Run (e : Executor.t) (protoFiles : list string) (args : list string) : M unit :=
  ensureProtoc e ;;;
  let protocArgs : list string := [] in
  let protocArgs :=
    if negb (String.eqb (Executor.depsPath e) "")
    then protocArgs ++ ["--proto_path=" +:+ Executor.depsPath e]
    else protocArgs in
  let protocArgs := protocArgs ++ args in
  let protocArgs := protocArgs ++ protoFiles in
  run_protoc e protocArgs.

Definition GenerateCode (e : Executor.t) (language : string) (protoFiles : list string)
  (outputDir : string) (options : GenerateOptions.t) : M unit :=
  ensureProtoc e ;;;
  let args : list string := [] in
  pluginArgs <- wrap "failed to process plugins"
                     (Process language outputDir (GenerateOptions.CustomPlugins options)) ;;
  let args := args ++ pluginArgs in
  let args := args ++ ["--proto_path=" +:+ GenerateOptions.ProjectPath options] in
  let args := args ++ option_flags (GenerateOptions.Options options) in
  Run e protoFiles args.

End protoc.

(* ===================================================================== *)
(** * Package [manager]: the project configuration ([config.go])          *)
(* ===================================================================== *)

Module PluginConfig.
Record t : Type := mk {
  Name : string;
  Command : string;
  Options : strmap;
  OutputDir : string;
  Required : bool
}.
End PluginConfig.

Module LanguageConfig.
Record t : Type := mk {
  Name : string;
  OutputDir : string;
  Options : strmap;
  Plugins : list PluginConfig.t
}.
End LanguageConfig.

Module ProjectConfig.
Record t : Type := mk {
  Languages : list LanguageConfig.t;
  Dependencies : list Config.t;
  Plugins : list PluginConfig.t
}.
End ProjectConfig.

Fixpoint GetLanguage_in (languages : list LanguageConfig.t) (lang : string)
  : option LanguageConfig.t :=
  match languages with
  | [] => None
  | l :: rest =>
      if String.eqb (LanguageConfig.Name l) lang then Some l
      else GetLanguage_in rest lang
  end.

Definition GetLanguage (pc : ProjectConfig.t) (lang : string) : option LanguageConfig.t :=
  GetLanguage_in (ProjectConfig.Languages pc) lang.

Definition GetAllPlugins (pc : ProjectConfig.t) (lang : string) : list PluginConfig.t :=
  let allPlugins : list PluginConfig.t := [] in
  let allPlugins := allPlugins ++ ProjectConfig.Plugins pc in
  match GetLanguage pc lang with
  | Some langConfig => allPlugins ++ LanguageConfig.Plugins langConfig
  | None => allPlugins
  end.

(** The conversion loop of [Manager.Generate]. *)
Definition toCustomPlugin (plugin : PluginConfig.t) : CustomPlugin.t :=
  CustomPlugin.mk (PluginConfig.Name plugin) (PluginConfig.Command plugin)
                  (PluginConfig.OutputDir plugin) (PluginConfig.Options plugin)
                  (PluginConfig.Required plugin).

Definition customPlugins_of (pc : ProjectConfig.t) (lang : string) : list CustomPlugin.t :=
  map toCustomPlugin (GetAllPlugins pc lang).

(* ===================================================================== *)
(** * The design document's own tables and predicates                     *)
(* ===================================================================== *)

(** The scheme table of the design document: [http]/[https] give HTTP,
    [github], [google-well-known], [protodex] and [file] their own
    type; any other scheme has no entry. *)
Definition scheme_table (scheme : string) : option SourceType :=
  if String.eqb scheme "http" then Some SourceHTTP
  else if String.eqb scheme "https" then Some SourceHTTP
  else if String.eqb scheme "github" then Some SourceGitHub
  else if String.eqb scheme "google-well-known" then Some SourceGoogleWellKnown
  else if String.eqb scheme "protodex" then Some SourceProtodex
  else if String.eqb scheme "file" then Some SourceLocal
  else None.


(* ===================================================================== *)
(** * Sample environments and worlds                                      *)
(* ===================================================================== *)

(** A small GitHub-style archive: one top-level directory, a file at
    its root, a [proto] directory with a nested one, and a sibling
    whose name merely starts with [proto]. *)
Definition sample_files : list zip.File :=
  [ zip.mkFile "repo-v1/" false "" false;
    zip.mkFile "repo-v1/README.md" false "readme" false;
    zip.mkFile "repo-v1/proto/a.proto" false "A" false;
    zip.mkFile "repo-v1/proto/sub/b.proto" false "B" false;
    zip.mkFile "repo-v1/protoX/c.proto" false "C" false ].

Definition sample_archive : data := Archive sample_files.

Definition sample_Get (u : string) : option Response :=
  if String.eqb u "https://github.com/acme/schemas/archive/refs/tags/v1.zip"
  then Some (mkResponse 200 "application/zip" "" sample_archive false)
  else if String.eqb u "https://example.com/a.zip"
  then Some (mkResponse 200 "application/zip" "" sample_archive false)
  else if String.eqb u "https://example.com/broken.zip"
  then Some (mkResponse 200 "application/zip" "" sample_archive true)
  else if String.eqb u "https://github.com/acme/broken/archive/refs/heads/main.zip"
  then Some (mkResponse 200 "application/zip" "" sample_archive true)
  else if String.eqb u ("https://github.com/protocolbuffers/protobuf/releases/download/"
                        +:+ "v32.0/protoc-32.0-linux-x86_64.zip")
  then Some (mkResponse 200 "application/zip" "" sample_archive true)
  else Some (mkResponse 404 "" "" (Bytes "") false).

Definition sample_env : Env :=
  mkEnv (Some "/work") "/tmp" sample_Get "http://localhost:8080" "linux" "amd64"
        (fun _ => None) (fun _ => true).

(** A cache with one dependency that is already fetched. *)
Definition sample_fs : gmap string node :=
  list_to_map [ ("/", Directory); ("/tmp", Directory); ("/src", Directory);
                ("/src/x.proto", File (Bytes "x"));
                ("/cache", Directory); ("/cache/dep", Directory);
                ("/cache/stray.txt", File (Bytes "s"));
                ("/cache/dep/x.proto", File (Bytes "x"));
                ("/cache/dep/.protodex_fetched", File (Bytes "")) ].

Definition sample_world : World :=
  mkWorld sample_fs [] [] [] {[ "protoc"; "protoc-gen-go"; "protoc-gen-twirp" ]}.

(** ** Plugin flags, as the design document describes them *)

(** The world with further lines printed. *)
Definition with_stdout (w : World) (lines : list string) : World :=
  mkWorld (fs w) (requests w) (stdout w ++ lines) (execs w) (executables w).

(** A plugin is present when its command is on the search path. *)
Definition present (w : World) (plugin : CustomPlugin.t) : bool :=
  LookPath (CustomPlugin.Command plugin) w.

(** What a present plugin contributes: [--<Name>_out=<OutputDir>], with
    the language's output directory standing in for an empty
    [OutputDir], then [--<key>=<value>] for every option. *)
Definition plugin_flags (outputDir : string) (plugin : CustomPlugin.t) : list string :=
  ("--" +:+ CustomPlugin.Name plugin +:+ "_out="
   +:+ (if String.eqb (CustomPlugin.OutputDir plugin) "" then outputDir
        else CustomPlugin.OutputDir plugin))
  :: map (fun kv => "--" +:+ fst kv +:+ "=" +:+ snd kv) (CustomPlugin.Options plugin).

(** The error of a command that is not on the search path, and the
    warning printed when the plugin is optional and skipped. *)
Definition missing_error (plugin : CustomPlugin.t) : error :=
  Wrap ("plugin command '" +:+ CustomPlugin.Command plugin +:+ "' not found in PATH")
       (New "executable file not found in $PATH").

Definition skip_warning (plugin : CustomPlugin.t) : string :=
  "Warning: Skipping optional plugin " +:+ CustomPlugin.Name plugin
  +:+ ": " +:+ Error (missing_error plugin).

(** "The flag [--proto_path=<projectPath>] is placed ahead of all plugin
    output flags": some position holds it, and every plugin flag sits
    at a later one. *)
Definition project_path_ahead_of (pluginArgs : list string) (projectPath : string)
  (argv : list string) : Prop :=
  exists i : nat,
    argv !! i = Some ("--proto_path=" +:+ projectPath) /\
    forall (j : nat) (a : string),
      argv !! j = Some a -> In a pluginArgs -> (i < j)%nat.

(** A project with one global plugin and one plugin for Go, and the
    executor and options of a generation call. *)
Definition sample_project : ProjectConfig.t :=
  ProjectConfig.mk
    [ LanguageConfig.mk "go" "./gen/go" []
        [ PluginConfig.mk "gw" "protoc-gen-gw" [] "./gen/gw" false ] ]
    []
    [ PluginConfig.mk "twirp" "protoc-gen-twirp"
        [("twirp_opt", "paths=source_relative")] "" false ].

Definition sample_executor : Executor.t := Executor.mk "32.0" "protoc" "/deps".

Definition sample_options : GenerateOptions.t :=
  GenerateOptions.mk "/proj" [] (customPlugins_of sample_project "go").

(** ** Relating the world before and after a program *)

(** [keeps R c]: whatever [c] returns, the world it leaves is related
    by [R] to the world it found. *)
Definition keeps (R : World -> World -> Prop) {A} (c : M A) : Prop :=
  forall w, R w (snd (c w)).

(** No request was issued. *)
Definition same_requests (w w' : World) : Prop := requests w' = requests w.

(** Every path that was there is still there. *)
Definition fs_grows (w w' : World) : Prop :=
  forall p : string, is_Some (fs w !! p) -> is_Some (fs w' !! p).

(** "Fetch returns success without issuing any network request and
    without modifying the destination". *)
Definition fetch_is_noop (r : result unit * World) (w : World) : Prop :=
  fst r = Ok tt /\ requests (snd r) = requests w /\ fs (snd r) = fs w.

(** ** GitHub archives, as the design document describes them *)




(* ===================================================================== *)
(** * Package [client]: package references ([packages.go])                *)
(* ===================================================================== *)

(** [strings.Split(ref, ":")] must give exactly two parts. *)
Definition ParsePackageRef (ref : string) : result (string * string) :=
  match strings.Split ref ":" with
  | [pkg; version] => Ok (pkg, version)
  | _ => Err (New "expected format package:version")
  end.

(* ===================================================================== *)
(** * Clearing the cache ([Resolver.Clear])                               *)
(* ===================================================================== *)





(* ===================================================================== *)
(** * Package [manager]: the project manager                              *)
(* ===================================================================== *)

Module Manager.
Record t : Type := mk {
  projectPath : string;
  configFile : string;
  config : ProjectConfig.t;
  executor : Executor.t;
  resolver : Resolver.t
}.
End Manager.

Definition with_dependencies (m : Manager.t) (deps : list Config.t) : Manager.t :=
  Manager.mk (Manager.projectPath m) (Manager.configFile m)
             (ProjectConfig.mk (ProjectConfig.Languages (Manager.config m)) deps
                               (ProjectConfig.Plugins (Manager.config m)))
             (Manager.executor m) (Manager.resolver m).

(** The loop of [AddDependency] that looks for the name. *)
Fixpoint find_dependency (deps : list Config.t) (name : string) : option Config.t :=
  match deps with
  | [] => None
  | dep :: rest =>
      if String.eqb (Config.Name dep) name then Some dep else find_dependency rest name
  end.


Section manager.

Variable env : Env.
Variable url_Parse : string -> result url.URL.
(** [yaml.Marshal] of the project configuration. *)
Variable yaml_Marshal : ProjectConfig.t -> result string.


Definition Generate (m : Manager.t) (protoFiles : list string)
  (options : LanguageConfig.t) : M unit :=
  match protoFiles with
  | [] => throw (New "no proto files to generate")
  | _ =>
      let cfg := Manager.config m in
      match GetLanguage cfg (LanguageConfig.Name options) with
      | None => throw (New "no language configured")
      | Some opt0 =>
          let opt :=
            LanguageConfig.mk
              (LanguageConfig.Name opt0)
              (if negb (String.eqb (LanguageConfig.OutputDir options) "")
               then LanguageConfig.OutputDir options else LanguageConfig.OutputDir opt0)
              (match LanguageConfig.Options options with
               | [] => LanguageConfig.Options opt0
               | _ => LanguageConfig.Options options
               end)
              (match LanguageConfig.Plugins options with
               | [] => LanguageConfig.Plugins opt0
               | _ => LanguageConfig.Plugins options
               end) in
          if String.eqb (LanguageConfig.OutputDir opt) "" then
            throw (New ("output directory is required for language "
                        +:+ LanguageConfig.Name opt))
          else if String.eqb (LanguageConfig.Name opt) "" then
            throw (New "language name is required")
          else
            wrap ("failed to create output directory " +:+ LanguageConfig.OutputDir opt)
                 (MkdirAll env (LanguageConfig.OutputDir opt)) ;;;
            let customPlugins :=
              map toCustomPlugin (GetAllPlugins (Manager.config m) (LanguageConfig.Name opt)) in
            let generateOptions :=
              GenerateOptions.mk (Manager.projectPath m) (LanguageConfig.Options opt)
                                 customPlugins in
            wrap ("failed to generate code for language " +:+ LanguageConfig.Name opt)
                 (GenerateCode env (Manager.executor m) (LanguageConfig.Name opt) protoFiles
                               (LanguageConfig.OutputDir opt) generateOptions)
      end
  end.




Definition Save (m : Manager.t) (config : ProjectConfig.t) : M unit :=
  match yaml_Marshal config with
  | Err e => throw (Wrap "failed to marshal project config" e)
  | Ok data =>
      wrap "failed to write project config"
           (WriteFile env (Manager.configFile m) (Bytes data))
  end.

(** [AddDependency] changes the manager it is called on: the outcome
    comes with the manager as it is afterwards. *)
Definition AddDependency (m : Manager.t) (name source : string) (resolve : bool)
  (w : World) : result unit * Manager.t * World :=
  match ParseSource url_Parse source with
  | Err e => (Err (Wrap "failed to parse dependency source" e), m, w)
  | Ok sourceInfo =>
      match find_dependency (ProjectConfig.Dependencies (Manager.config m)) name with
      | Some dep =>
          (Err (New ("dependency " +:+ Config.Name dep +:+ " already exists")), m, w)
      | None =>
          let depConfig :=
            Config.mk name (Typ sourceInfo) (Source sourceInfo) (Version sourceInfo) "" in
          let m' :=
            with_dependencies m
              (ProjectConfig.Dependencies (Manager.config m) ++ [depConfig]) in
          match Save m' (Manager.config m') w with
          | (Err e, w1) => (Err (Wrap "failed to save project config" e), m', w1)
          | (Ok _, w1) =>
              if resolve then
                match ResolveDependencies env url_Parse (Manager.resolver m') [depConfig] w1 with
                | (Err e, w2) =>
                    (Err (Wrap ("failed to resolve dependency " +:+ name) e), m', w2)
                | (Ok _, w2) => (Ok tt, m', w2)
                end
              else (Ok tt, m', w1)
          end
      end
  end.

End manager.

(** ** More relations between worlds *)


(* ===================================================================== *)
(** * Properties                                                          *)
(* ===================================================================== *)

(** ** Strings *)

Lemma strip_Some (pre s r : string) :
  strings.strip pre s = Some r <-> s = pre +:+ r.
Proof.
  revert s. induction pre as [|a pre IH]; intros s; simpl.
  - split; [intros [= ->] | intros ->]; reflexivity.
  - destruct s as [|b s]; [split; discriminate|].
    destruct (Ascii.eqb a b) eqn:E.
    + apply Ascii.eqb_eq in E as ->. rewrite IH. split; [intros -> | intros [= ->]]; reflexivity.
    + apply Ascii.eqb_neq in E. split; [discriminate | intros [= <- _]; contradiction].
Qed.

Lemma HasPrefix_char (c : ascii) (s : string) :
  strings.HasPrefix s (String c EmptyString) = true <-> exists r, s = String c r.
Proof.
  unfold strings.HasPrefix. destruct (strings.strip _ s) as [r|] eqn:E.
  - apply strip_Some in E. split; [eauto | reflexivity].
  - split; [discriminate | intros [r ->]]. simpl in E. rewrite Ascii.eqb_refl in E. discriminate.
Qed.

Lemma Index_ge (s sub : string) : -1 <= strings.Index s sub.
Proof.
  induction s as [|a s IH]; simpl.
  - destruct (strings.HasPrefix _ _); lia.
  - destruct (strings.HasPrefix _ _); [lia|].
    destruct (Z.eqb_spec (strings.Index s sub) (-1)); lia.
Qed.

Lemma LastIndex_ge (s sub : string) : -1 <= strings.LastIndex s sub.
Proof.
  induction s as [|a s IH]; simpl.
  - destruct (strings.HasPrefix _ _); lia.
  - destruct (Z.eqb_spec (strings.LastIndex s sub) (-1)).
    + destruct (strings.HasPrefix _ _); lia.
    + lia.
Qed.

(** [LastIndex] finds the rightmost occurrence of a byte: the text after
    it holds no further one, and [-1] means there is none at all. *)
Lemma LastIndex_char (c : ascii) (s : string) :
  let i := strings.LastIndex s (String c EmptyString) in
  (i = -1 /\ strings.Index s (String c EmptyString) = -1) \/
  (0 <= i /\
   s = strings.slice_to s i +:+ String c (strings.slice_from s (i + 1)) /\
   strings.Index (strings.slice_from s (i + 1)) (String c EmptyString) = -1).
Proof.
  induction s as [|a s IH]; cbn zeta.
  - left. split; reflexivity.
  - cbn [strings.LastIndex]. cbn zeta in IH.
    destruct IH as [[Hi Hn] | (Hi & Hs & Hn)].
    + rewrite Hi. cbn [Z.eqb Pos.eqb].
      destruct (strings.HasPrefix (String a s) (String c EmptyString)) eqn:Hp.
      * right. apply HasPrefix_char in Hp as [r [= -> ->]].
        split; [lia|]. split; [reflexivity | exact Hn].
      * left. split; [reflexivity|]. cbn [strings.Index]. rewrite Hp, Hn. reflexivity.
    + destruct (Z.eqb_spec (strings.LastIndex s (String c EmptyString)) (-1)) as [E|_]; [lia|].
      right. split; [lia|].
      unfold strings.slice_to, strings.slice_from in *.
      replace (Z.to_nat (strings.LastIndex s (String c EmptyString) + 1))
        with (S (Z.to_nat (strings.LastIndex s (String c EmptyString)))) by lia.
      replace (Z.to_nat (strings.LastIndex s (String c EmptyString) + 1 + 1))
        with (S (Z.to_nat (strings.LastIndex s (String c EmptyString) + 1))) by lia.
      cbn [strings.take strings.drop]. split; [|exact Hn].
      change (String a ?x +:+ ?y) with (String a (x +:+ y)). f_equal. exact Hs.
Qed.


(** ** The source parser *)

Lemma scheme_table_finish (url_Parse : string -> result url.URL)
  (u : url.URL) (version input : string) :
  (let scheme := strings.ToLower (url.Scheme u) in
   let finish (sourceType : SourceType) : result SourceInfo :=
     Ok (mkSourceInfo sourceType (url.Host u +:+ url.Path u)
           (if negb (String.eqb version "") then version
            else getDefaultVersion sourceType) input) in
   if String.eqb scheme "http" || String.eqb scheme "https" then finish SourceHTTP
   else if String.eqb scheme "github" then finish SourceGitHub
   else if String.eqb scheme "google-well-known" then finish SourceGoogleWellKnown
   else if String.eqb scheme "protodex" then finish SourceProtodex
   else if String.eqb scheme "file" then finish SourceLocal
   else Err (New ("unsupported source type: " +:+ url.Scheme u)))
  = match scheme_table (strings.ToLower (url.Scheme u)) with
    | Some ty =>
        Ok (mkSourceInfo ty (url.Host u +:+ url.Path u)
              (if String.eqb version "" then getDefaultVersion ty else version) input)
    | None => Err (New ("unsupported source type: " +:+ url.Scheme u))
    end.
Proof.
  cbn zeta. unfold scheme_table.
  repeat (match goal with
          | |- context [String.eqb ?a ?b] =>
              lazymatch b with
              | "" => fail
              | _ => destruct (String.eqb a b); cbn [orb]
              end
          end);
    try reflexivity; destruct (String.eqb version ""); reflexivity.
Qed.

(** C5.  For a reference that is neither empty, nor a [file://]
    reference, nor a local path: the version is what follows the
    rightmost [@] (and nothing when there is none); parsing succeeds
    exactly when the part before it parses as a URI whose scheme is in
    the table, and then the type is the table's, the locator is host
    followed by path, and the version is the explicit one or, when that
    is empty, the default of the type.  [github://acme/schemas@v1.2.0]
    gives a GitHub source [acme/schemas] at [v1.2.0]; without a version
    a GitHub source gets [main], a registry source [latest], and every
    other type the empty string. *)
Theorem ParseSource_version_scheme_locator :
  (forall (url_Parse : string -> result url.URL) (input : string),
      input <> "" ->
      strings.HasPrefix input "file://" = false ->
      isLocalPath input = false ->
      exists base version : string,
        ((input = base +:+ "@" +:+ version /\ strings.Contains version "@" = false)
         \/ (strings.Contains input "@" = false /\ base = input /\ version = "")) /\
        forall info : SourceInfo,
          ParseSource url_Parse input = Ok info <->
          exists (u : url.URL) (ty : SourceType),
            url_Parse base = Ok u /\ url.Scheme u <> "" /\
            scheme_table (strings.ToLower (url.Scheme u)) = Some ty /\
            info = mkSourceInfo ty (url.Host u +:+ url.Path u)
                     (if String.eqb version "" then getDefaultVersion ty else version)
                     input) /\
  ParseSource url.Parse "github://acme/schemas@v1.2.0"
    = Ok (mkSourceInfo SourceGitHub "acme/schemas" "v1.2.0" "github://acme/schemas@v1.2.0") /\
  ParseSource url.Parse "github://acme/schemas"
    = Ok (mkSourceInfo SourceGitHub "acme/schemas" "main" "github://acme/schemas") /\
  ParseSource url.Parse "protodex://svc"
    = Ok (mkSourceInfo SourceProtodex "svc" "latest" "protodex://svc") /\
  getDefaultVersion SourceGitHub = "main" /\
  getDefaultVersion SourceProtodex = "latest" /\
  (forall ty : SourceType,
      ty <> SourceGitHub -> ty <> SourceProtodex -> getDefaultVersion ty = "").
Proof.
  split; [|split; [vm_compute; reflexivity|];
             split; [vm_compute; reflexivity|];
             split; [vm_compute; reflexivity|];
             split; [reflexivity|]; split; [reflexivity|]].
  - intros url_Parse input Hne Hfile Hlocal.
    pose proof (LastIndex_char "@" input) as Hat. cbn zeta in Hat.
    assert (Hbody : forall base version,
               (let '(baseInput, v) := (base, version) in
                match url_Parse baseInput with
                | Err e => Err (Wrap "invalid source format" e)
                | Ok parsedURL =>
                    if String.eqb (url.Scheme parsedURL) "" then
                      Err (New "missing scheme in source")
                    else
                      match scheme_table (strings.ToLower (url.Scheme parsedURL)) with
                      | Some ty =>
                          Ok (mkSourceInfo ty (url.Host parsedURL +:+ url.Path parsedURL)
                                (if String.eqb v "" then getDefaultVersion ty else v) input)
                      | None =>
                          Err (New ("unsupported source type: " +:+ url.Scheme parsedURL))
                      end
                end) = ParseSource url_Parse input ->
               forall info : SourceInfo,
                 ParseSource url_Parse input = Ok info <->
                 exists (u : url.URL) (ty : SourceType),
                   url_Parse base = Ok u /\ url.Scheme u <> "" /\
                   scheme_table (strings.ToLower (url.Scheme u)) = Some ty /\
                   info = mkSourceInfo ty (url.Host u +:+ url.Path u)
                            (if String.eqb version "" then getDefaultVersion ty else version)
                            input).
    { intros base version <- info. cbn beta iota.
      destruct (url_Parse base) as [u|e].
      - destruct (String.eqb_spec (url.Scheme u) "") as [E|E].
        + split; [discriminate | intros (u' & ty & [= <-] & H & _); contradiction].
        + destruct (scheme_table (strings.ToLower (url.Scheme u))) as [ty|] eqn:Et.
          * split.
            -- intros [= <-]. exists u, ty. repeat split; try reflexivity; assumption.
            -- intros (u' & ty' & [= <-] & _ & Hty & ->).
               rewrite Et in Hty. injection Hty as <-. reflexivity.
          * split; [discriminate|].
            intros (u' & ty' & [= <-] & _ & Hn & _). rewrite Et in Hn. discriminate.
      - split; [discriminate | intros (u' & ty' & Hn & _); discriminate]. }
    assert (Hunfold : ParseSource url_Parse input =
              let atIndex := strings.LastIndex input "@" in
              let '(baseInput, version) :=
                if negb (atIndex =? -1)
                then (strings.slice_to input atIndex, strings.slice_from input (atIndex + 1))
                else (input, "") in
              match url_Parse baseInput with
              | Err e => Err (Wrap "invalid source format" e)
              | Ok parsedURL =>
                  if String.eqb (url.Scheme parsedURL) "" then
                    Err (New "missing scheme in source")
                  else
                    match scheme_table (strings.ToLower (url.Scheme parsedURL)) with
                    | Some ty =>
                        Ok (mkSourceInfo ty (url.Host parsedURL +:+ url.Path parsedURL)
                              (if String.eqb version "" then getDefaultVersion ty
                               else version) input)
                    | None =>
                        Err (New ("unsupported source type: " +:+ url.Scheme parsedURL))
                    end
              end).
    { unfold ParseSource. rewrite Hfile, Hlocal.
      destruct (String.eqb_spec input "") as [E|_]; [contradiction|].
      cbn zeta.
      destruct (negb (strings.LastIndex input "@" =? -1));
        (destruct (url_Parse _) as [u|e]; [|reflexivity];
         destruct (String.eqb (url.Scheme u) ""); [reflexivity|];
         apply (scheme_table_finish url_Parse)). }
    destruct Hat as [[Hi Hn] | (Hi & Hs & Hn)].
    + exists input, "". split.
      * right. unfold strings.Contains. rewrite Hn. repeat split; reflexivity.
      * apply Hbody. rewrite Hunfold. cbn zeta. rewrite Hi. reflexivity.
    + exists (strings.slice_to input (strings.LastIndex input "@")),
             (strings.slice_from input (strings.LastIndex input "@" + 1)).
      split.
      * left. split; [exact Hs|]. unfold strings.Contains. rewrite Hn. reflexivity.
      * apply Hbody. rewrite Hunfold. cbn zeta.
        destruct (Z.eqb_spec (strings.LastIndex input "@") (-1)) as [E|_]; [lia|].
        reflexivity.
  - intros ty Hg Hp. unfold getDefaultVersion.
    destruct (String.eqb_spec ty SourceGitHub); [contradiction|].
    destruct (String.eqb_spec ty SourceProtodex); [contradiction|]. reflexivity.
Qed.

Lemma ParseSource_version_scheme_locator_witness :
  exists base version : string,
    ("https://example.com/a.zip@v2" = base +:+ "@" +:+ version
     /\ strings.Contains version "@" = false) /\
    forall info : SourceInfo,
      ParseSource url.Parse "https://example.com/a.zip@v2" = Ok info <->
      exists (u : url.URL) (ty : SourceType),
        url.Parse base = Ok u /\ url.Scheme u <> "" /\
        scheme_table (strings.ToLower (url.Scheme u)) = Some ty /\
        info = mkSourceInfo ty (url.Host u +:+ url.Path u)
                 (if String.eqb version "" then getDefaultVersion ty else version)
                 "https://example.com/a.zip@v2".
Proof.
  destruct ParseSource_version_scheme_locator as [H _].
  destruct (H url.Parse "https://example.com/a.zip@v2") as (base & version & Hsplit & Hiff);
    [discriminate | vm_compute; reflexivity | vm_compute; reflexivity |].
  exists base, version. split; [|exact Hiff].
  destruct Hsplit as [Hs | (Hc & _)]; [exact Hs | vm_compute in Hc; discriminate Hc].
Defined.

(** ** Building a fetcher, fetching a local source *)

(** C9.  A local fetcher built with an empty destination has the source
    as its destination, and fetching with it changes nothing and
    succeeds whenever the source exists; a fetcher of any other type
    keeps the destination it was given. *)
Theorem NewFetcher_local_empty_dest :
  (forall source version : string,
      NewFetcher SourceLocal source version ""
      = Ok (Fetcher.mk SourceLocal source version source)) /\
  (forall (env : Env) (url_Parse : string -> result url.URL)
          (source version absSource : string) (f : Fetcher.t) (w : World) (n : node),
      NewFetcher SourceLocal source version "" = Ok f ->
      Abs env source = Ok absSource ->
      Stat env absSource w = Found n ->
      Fetch env url_Parse f w = (Ok tt, w)) /\
  (forall (sourceType : SourceType) (source version dest : string),
      sourceType <> SourceLocal ->
      NewFetcher sourceType source version dest
      = Ok (Fetcher.mk sourceType source version dest)).
Proof.
  split; [|split].
  - intros source version. reflexivity.
  - intros env url_Parse source version a f w n [= <-] Ha Hs.
    unfold Fetch, localFetch. cbn [Fetcher.SourceType Fetcher.Source Fetcher.Dest].
    change (String.eqb SourceLocal SourceLocal) with true. cbn iota.
    rewrite Ha, Hs, String.eqb_refl. reflexivity.
  - intros ty source version dest Hty. unfold NewFetcher.
    destruct (String.eqb_spec ty SourceLocal); [contradiction | reflexivity].
Qed.

Lemma NewFetcher_local_empty_dest_witness :
  Fetch sample_env url.Parse (Fetcher.mk SourceLocal "/src" "" "/src") sample_world
  = (Ok tt, sample_world).
Proof.
  destruct NewFetcher_local_empty_dest as (_ & H & _).
  apply (H sample_env url.Parse "/src" "" "/src" _ sample_world Directory).
  - reflexivity.
  - vm_compute. reflexivity.
  - vm_compute. reflexivity.
Defined.




(** ** Listing the cache *)







(** ** Plugin arguments *)

Lemma with_stdout_nil (w : World) : with_stdout w [] = w.
Proof. destruct w. unfold with_stdout. simpl. rewrite app_nil_r. reflexivity. Qed.

Lemma with_stdout_app (w : World) (l1 l2 : list string) :
  with_stdout (with_stdout w l1) l2 = with_stdout w (l1 ++ l2).
Proof. unfold with_stdout. simpl. rewrite app_assoc. reflexivity. Qed.

Lemma present_with_stdout (w : World) (lines : list string) (plugin : CustomPlugin.t) :
  present (with_stdout w lines) plugin = present w plugin.
Proof. reflexivity. Qed.

(** The loop over the custom plugins when no required plugin is
    missing. *)
Lemma Process_plugins_ok (outputDir : string)
  (plugins : list CustomPlugin.t) (args : list string) (w : World) :
  (forall p, In p plugins -> present w p = false -> CustomPlugin.Required p = false) ->
  Process_plugins plugins outputDir args w
  = (Ok (args ++ flat_map (plugin_flags outputDir) (List.filter (present w) plugins)),
     with_stdout w (map skip_warning
                        (List.filter (fun p => negb (present w p)) plugins))).
Proof.
  revert args w. induction plugins as [|p rest IH]; intros args w Hopt.
  - simpl. rewrite app_nil_r, with_stdout_nil. reflexivity.
  - cbn [Process_plugins]. unfold ensureCustomPlugin.
    change (LookPath (CustomPlugin.Command p) w) with (present w p).
    cbn [List.filter]. destruct (present w p) eqn:Hp; cbn [negb flat_map map].
    + rewrite IH by (intros q Hq; apply Hopt; right; exact Hq).
      unfold plugin_flags, option_flags. rewrite <- !app_assoc. reflexivity.
    + rewrite (Hopt p (or_introl eq_refl) Hp).
      unfold bind, Printf. cbn [Error].
      change (mkWorld (fs w) (requests w) (stdout w ++ [?l]) (execs w) (executables w))
        with (with_stdout w [l]).
      rewrite IH by (intros q Hq; apply Hopt; right; exact Hq).
      rewrite with_stdout_app. reflexivity.
Qed.

(** The loop stops at the first required plugin that is missing. *)
Lemma Process_plugins_required_missing (outputDir : string)
  (pre post : list CustomPlugin.t) (p : CustomPlugin.t) (args : list string) (w : World) :
  (forall q, In q pre -> present w q = false -> CustomPlugin.Required q = false) ->
  present w p = false -> CustomPlugin.Required p = true ->
  Process_plugins (pre ++ p :: post) outputDir args w
  = (Err (Wrap ("failed to ensure custom plugin " +:+ CustomPlugin.Name p)
               (missing_error p)),
     with_stdout w (map skip_warning
                        (List.filter (fun q => negb (present w q)) pre))).
Proof.
  revert args w. induction pre as [|q pre IH]; intros args w Hopt Hp Hreq.
  - cbn [app Process_plugins]. unfold ensureCustomPlugin.
    change (LookPath (CustomPlugin.Command p) w) with (present w p).
    rewrite Hp, Hreq. simpl. rewrite with_stdout_nil. reflexivity.
  - cbn [app Process_plugins]. unfold ensureCustomPlugin.
    change (LookPath (CustomPlugin.Command q) w) with (present w q).
    cbn [List.filter]. destruct (present w q) eqn:Hq; cbn [negb map].
    + apply IH; [intros r Hr; apply Hopt; right; exact Hr | exact Hp | exact Hreq].
    + rewrite (Hopt q (or_introl eq_refl) Hq).
      unfold bind, Printf. cbn [Error].
      change (mkWorld (fs w) (requests w) (stdout w ++ [?l]) (execs w) (executables w))
        with (with_stdout w [l]).
      rewrite IH; [| intros r Hr; apply Hopt; right; exact Hr | exact Hp | exact Hreq].
      rewrite with_stdout_app. reflexivity.
Qed.

(** C4.  The plugins of a language are the global ones followed by the
    language's own.  Once the language's base plugin is ensured: if no
    required plugin is missing, the argument vector is the language's
    output flag followed, plugin by plugin in that order, by the flags
    of the plugins that are present (output flag with the language's
    directory for an empty [OutputDir], then one flag per option),
    the missing ones contribute nothing and only leave a warning; and
    the first missing plugin that is required makes the call fail. *)
Theorem Process_custom_plugins
  (env : Env) (language outputDir : string) (plugins : list CustomPlugin.t)
  (w w1 : World)
  (Hlang : ensureLanguagePlugins env language w = (Ok tt, w1)) :
  (forall pc : ProjectConfig.t,
      customPlugins_of pc language
      = map toCustomPlugin (ProjectConfig.Plugins pc)
        ++ map toCustomPlugin
             (match GetLanguage pc language with
              | Some langConfig => LanguageConfig.Plugins langConfig
              | None => []
              end)) /\
  ((forall p, In p plugins -> present w1 p = false -> CustomPlugin.Required p = false) ->
   Process env language outputDir plugins w
   = (Ok (("--" +:+ language +:+ "_out=" +:+ outputDir)
          :: flat_map (plugin_flags outputDir) (List.filter (present w1) plugins)),
      with_stdout w1 (map skip_warning
                          (List.filter (fun p => negb (present w1 p)) plugins)))) /\
  (forall (pre post : list CustomPlugin.t) (p : CustomPlugin.t),
      plugins = pre ++ p :: post ->
      (forall q, In q pre -> present w1 q = false -> CustomPlugin.Required q = false) ->
      present w1 p = false -> CustomPlugin.Required p = true ->
      Process env language outputDir plugins w
      = (Err (Wrap ("failed to ensure custom plugin " +:+ CustomPlugin.Name p)
                   (missing_error p)),
         with_stdout w1 (map skip_warning
                             (List.filter (fun q => negb (present w1 q)) pre)))).
Proof.
  split; [|split].
  - intros pc. unfold customPlugins_of, GetAllPlugins. cbn [app].
    destruct (GetLanguage pc language); [apply map_app|].
    cbn [map]. rewrite app_nil_r. reflexivity.
  - intros Hopt. unfold Process, bind, wrap. rewrite Hlang.
    rewrite Process_plugins_ok by exact Hopt. reflexivity.
  - intros pre post p -> Hopt Hp Hreq. unfold Process, bind, wrap. rewrite Hlang.
    apply Process_plugins_required_missing; assumption.
Qed.

Lemma Process_custom_plugins_witness :
  customPlugins_of sample_project "go"
  = [ CustomPlugin.mk "twirp" "protoc-gen-twirp" "" [("twirp_opt", "paths=source_relative")]
        false;
      CustomPlugin.mk "gw" "protoc-gen-gw" "./gen/gw" [] false ] /\
  Process sample_env "go" "./gen/go" (customPlugins_of sample_project "go") sample_world
  = (Ok ["--go_out=./gen/go"; "--twirp_out=./gen/go"; "--twirp_opt=paths=source_relative"],
     with_stdout sample_world
       ["Warning: Skipping optional plugin gw: plugin command 'protoc-gen-gw' not found in PATH: executable file not found in $PATH"]).
Proof.
  assert (Hlang : ensureLanguagePlugins sample_env "go" sample_world = (Ok tt, sample_world))
    by (vm_compute; reflexivity).
  destruct (Process_custom_plugins sample_env "go" "./gen/go"
              (customPlugins_of sample_project "go") sample_world sample_world Hlang)
    as (Hall & Hok & _).
  split.
  - rewrite Hall. vm_compute. reflexivity.
  - rewrite Hok.
    + vm_compute. reflexivity.
    + intros p Hin _. vm_compute in Hin.
      destruct Hin as [<- | [<- | []]]; reflexivity.
Defined.

(** ** The generation call *)

(** The argument vector [GenerateCode] and [Run] assemble. *)
Lemma GenerateCode_steps (env : Env) (e : Executor.t) (language : string)
  (protoFiles : list string) (outputDir : string) (options : GenerateOptions.t)
  (w : World) :
  GenerateCode env e language protoFiles outputDir options w
  = match ensureProtoc env e w with
    | (Err err, w1) => (Err err, w1)
    | (Ok _, w1) =>
        match Process env language outputDir (GenerateOptions.CustomPlugins options) w1 with
        | (Err err, w2) => (Err (Wrap "failed to process plugins" err), w2)
        | (Ok pluginArgs, w2) =>
            match ensureProtoc env e w2 with
            | (Err err, w3) => (Err err, w3)
            | (Ok _, w3) =>
                run_protoc env e
                  ((if negb (String.eqb (Executor.depsPath e) "")
                    then ["--proto_path=" +:+ Executor.depsPath e] else [])
                   ++ (pluginArgs
                       ++ ["--proto_path=" +:+ GenerateOptions.ProjectPath options]
                       ++ option_flags (GenerateOptions.Options options))
                   ++ protoFiles) w3
            end
        end
    end.
Proof.
  unfold GenerateCode, Run, bind, wrap.
  destruct (ensureProtoc env e w) as [[[]|err] w1]; [|reflexivity].
  destruct (Process env language outputDir _ w1) as [[pluginArgs|err] w2]; [|reflexivity].
  destruct (ensureProtoc env e w2) as [[[]|err] w3]; [|reflexivity].
  cbn [app]. rewrite <- !app_assoc.
  destruct (negb (String.eqb (Executor.depsPath e) "")); reflexivity.
Qed.

(** C2, as the design document words it, fails: in the vector of the
    sample call [--proto_path=/proj] comes after [--go_out=./gen/go]. *)
Lemma GenerateCode_project_path_not_ahead :
  Process sample_env "go" "./gen/go" (GenerateOptions.CustomPlugins sample_options)
          sample_world
  = (Ok ["--go_out=./gen/go"; "--twirp_out=./gen/go"; "--twirp_opt=paths=source_relative"],
     with_stdout sample_world [skip_warning (CustomPlugin.mk "gw" "protoc-gen-gw" "./gen/gw" [] false)]) /\
  execs (snd (GenerateCode sample_env sample_executor "go" ["a.proto"] "./gen/go"
                           sample_options sample_world))
  = [["protoc"; "--proto_path=/deps"; "--go_out=./gen/go"; "--twirp_out=./gen/go";
      "--twirp_opt=paths=source_relative"; "--proto_path=/proj"; "a.proto"]] /\
  ~ project_path_ahead_of
      ["--go_out=./gen/go"; "--twirp_out=./gen/go"; "--twirp_opt=paths=source_relative"]
      "/proj"
      ["--proto_path=/deps"; "--go_out=./gen/go"; "--twirp_out=./gen/go";
       "--twirp_opt=paths=source_relative"; "--proto_path=/proj"; "a.proto"].
Proof.
  split; [vm_compute; reflexivity|]. split; [vm_compute; reflexivity|].
  intros (i & Hi & Hlt).
  specialize (Hlt 1%nat "--go_out=./gen/go" eq_refl (or_introl eq_refl)).
  do 5 (destruct i as [|i]; [try lia; vm_compute in Hi; discriminate Hi|]).
  destruct i; vm_compute in Hi; discriminate Hi.
Qed.

(** C2, amended.  A generation call that gets as far as running the
    compiler runs it on: the cache path flag first when the cache path
    is not empty, then the plugin flags, then [--proto_path=<projectPath>],
    then the option flags, and the proto files last. *)
Theorem GenerateCode_argument_vector
  (env : Env) (e : Executor.t) (language : string) (protoFiles : list string)
  (outputDir : string) (options : GenerateOptions.t)
  (w w1 w2 w3 : World) (pluginArgs : list string)
  (Hprotoc : ensureProtoc env e w = (Ok tt, w1))
  (Hplugins : Process env language outputDir (GenerateOptions.CustomPlugins options) w1
              = (Ok pluginArgs, w2))
  (Hagain : ensureProtoc env e w2 = (Ok tt, w3)) :
  let cacheFlag :=
    if String.eqb (Executor.depsPath e) "" then []
    else ["--proto_path=" +:+ Executor.depsPath e] in
  let argv :=
    cacheFlag ++ pluginArgs
    ++ ["--proto_path=" +:+ GenerateOptions.ProjectPath options]
    ++ option_flags (GenerateOptions.Options options)
    ++ protoFiles in
  GenerateCode env e language protoFiles outputDir options w = run_protoc env e argv w3 /\
  execs (snd (GenerateCode env e language protoFiles outputDir options w))
  = execs w3 ++ [Executor.protocPath e :: argv] /\
  argv !! (length cacheFlag + length pluginArgs)%nat
  = Some ("--proto_path=" +:+ GenerateOptions.ProjectPath options) /\
  (forall (j : nat) (a : string),
      pluginArgs !! j = Some a -> argv !! (length cacheFlag + j)%nat = Some a).
Proof.
  cbn zeta.
  assert (Hrun : GenerateCode env e language protoFiles outputDir options w
                 = run_protoc env e
                     ((if String.eqb (Executor.depsPath e) "" then []
                       else ["--proto_path=" +:+ Executor.depsPath e])
                      ++ pluginArgs
                      ++ ["--proto_path=" +:+ GenerateOptions.ProjectPath options]
                      ++ option_flags (GenerateOptions.Options options)
                      ++ protoFiles) w3).
  { rewrite GenerateCode_steps, Hprotoc, Hplugins, Hagain.
    rewrite <- !app_assoc.
    destruct (String.eqb (Executor.depsPath e) ""); reflexivity. }
  split; [exact Hrun|]. split; [|split].
  - rewrite Hrun. unfold run_protoc. destruct (protoc_ok env _); reflexivity.
  - rewrite lookup_app_r by lia.
    replace (_ + _ - _)%nat with (length pluginArgs) by lia.
    rewrite lookup_app_r by lia. rewrite Nat.sub_diag. reflexivity.
  - intros j a Hj. rewrite lookup_app_r by lia.
    replace (_ + j - _)%nat with j by lia.
    apply lookup_app_l_Some. exact Hj.
Qed.

Lemma GenerateCode_argument_vector_witness :
  execs (snd (GenerateCode sample_env sample_executor "go" ["a.proto"] "./gen/go"
                           sample_options sample_world))
  = execs sample_world
    ++ [["protoc"; "--proto_path=/deps"; "--go_out=./gen/go"; "--twirp_out=./gen/go";
         "--twirp_opt=paths=source_relative"; "--proto_path=/proj"; "a.proto"]].
Proof.
  pose (w2 := with_stdout sample_world
                [skip_warning (CustomPlugin.mk "gw" "protoc-gen-gw" "./gen/gw" [] false)]).
  assert (H1 : ensureProtoc sample_env sample_executor sample_world = (Ok tt, sample_world))
    by (vm_compute; reflexivity).
  assert (H2 : Process sample_env "go" "./gen/go" (GenerateOptions.CustomPlugins sample_options)
                 sample_world
               = (Ok ["--go_out=./gen/go"; "--twirp_out=./gen/go";
                      "--twirp_opt=paths=source_relative"], w2))
    by (vm_compute; reflexivity).
  assert (H3 : ensureProtoc sample_env sample_executor w2 = (Ok tt, w2))
    by (vm_compute; reflexivity).
  destruct (GenerateCode_argument_vector sample_env sample_executor "go" ["a.proto"]
              "./gen/go" sample_options sample_world sample_world w2 w2 _ H1 H2 H3)
    as (_ & H & _).
  rewrite H. vm_compute. reflexivity.
Defined.

(** ** Frames: what a program leaves alone *)

Section keeps.

Variable R : World -> World -> Prop.
Hypothesis R_refl : forall w, R w w.
Hypothesis R_trans : forall w1 w2 w3, R w1 w2 -> R w2 w3 -> R w1 w3.

Lemma keeps_ret {A} (a : A) : keeps R (ret a).
Proof. intros w. apply R_refl. Qed.

Lemma keeps_throw {A} (e : error) : keeps R (@throw A e).
Proof. intros w. apply R_refl. Qed.

Lemma keeps_lift {A} (r : result A) : keeps R (lift r).
Proof. intros w. apply R_refl. Qed.

Lemma keeps_bind {A B} (c : M A) (k : A -> M B) :
  keeps R c -> (forall a, keeps R (k a)) -> keeps R (bind c k).
Proof.
  intros Hc Hk w. unfold bind. specialize (Hc w).
  destruct (c w) as [[a|e] w1]; simpl in *; [|exact Hc].
  eapply R_trans; [exact Hc | apply Hk].
Qed.

Lemma keeps_wrap {A} (msg : string) (c : M A) : keeps R c -> keeps R (wrap msg c).
Proof.
  intros Hc w. unfold wrap. specialize (Hc w).
  destruct (c w) as [[a|e] w1]; exact Hc.
Qed.

Lemma keeps_try {A} (c : M A) : keeps R c -> keeps R (try c).
Proof.
  intros Hc w. unfold try. specialize (Hc w). destruct (c w) as [r w1]. exact Hc.
Qed.

Lemma keeps_defer {A} (cleanup : M unit) (body : M A) :
  keeps R body -> keeps R cleanup -> keeps R (defer cleanup body).
Proof.
  intros Hb Hc w. unfold defer. specialize (Hb w).
  destruct (body w) as [r w1]. simpl in *.
  eapply R_trans; [exact Hb | apply Hc].
Qed.

End keeps.

Lemma same_requests_refl (w : World) : same_requests w w.
Proof. reflexivity. Qed.

Lemma same_requests_trans (w1 w2 w3 : World) :
  same_requests w1 w2 -> same_requests w2 w3 -> same_requests w1 w3.
Proof. unfold same_requests. congruence. Qed.

Lemma fs_grows_refl (w : World) : fs_grows w w.
Proof. intros p H. exact H. Qed.

Lemma fs_grows_trans (w1 w2 w3 : World) :
  fs_grows w1 w2 -> fs_grows w2 w3 -> fs_grows w1 w3.
Proof. unfold fs_grows. auto. Qed.

(** Composite programs are taken apart by structure. *)
Ltac keeps_step R_refl R_trans :=
  first
    [ apply (keeps_ret _ R_refl)
    | apply (keeps_throw _ R_refl)
    | apply (keeps_lift _ R_refl)
    | apply (keeps_wrap _)
    | apply (keeps_try _)
    | apply (keeps_bind _ R_trans); [|intros ?]
    | apply (keeps_defer _ R_trans)
    | match goal with
      | |- keeps _ (if ?b then _ else _) => destruct b
      | |- keeps _ (match ?x with _ => _ end) => destruct x
      end ].

(** *** Requests *)

Lemma Printf_requests (line : string) : keeps same_requests (Printf line).
Proof. intros w. reflexivity. Qed.

Lemma MkdirAll_requests (env : Env) (p : string) : keeps same_requests (MkdirAll env p).
Proof.
  intros w. unfold MkdirAll. destruct (Abs env p); [|reflexivity].
  destruct (mkdirs _ _); reflexivity.
Qed.

Lemma WriteFile_requests (env : Env) (p : string) (d : data) :
  keeps same_requests (WriteFile env p d).
Proof.
  intros w. unfold WriteFile. destruct (Abs env p) as [a|]; [|reflexivity].
  destruct (fs w !! filepath.Dir a) as [[]|]; try reflexivity;
    destruct (fs w !! a) as [[]|]; try reflexivity;
    destruct (String.eqb a "/"); reflexivity.
Qed.

Lemma Remove_requests (env : Env) (p : string) : keeps same_requests (Remove env p).
Proof.
  intros w. unfold Remove. destruct (Abs env p) as [a|]; [|reflexivity].
  destruct (fs w !! a) as [[]|]; try reflexivity.
  destruct (children a (fs w)); reflexivity.
Qed.

Lemma Copy_body_requests (env : Env) (name : string) (resp : Response) :
  keeps same_requests (Copy_body env name resp).
Proof.
  intros w. unfold Copy_body. destruct (Abs env name); [|reflexivity].
  destruct (BodyFails resp); reflexivity.
Qed.

Lemma CreateTemp_from_requests (env : Env) (fuel n : nat) (pre suf : string) :
  keeps same_requests (CreateTemp_from env fuel n pre suf).
Proof.
  revert n. induction fuel as [|fuel IH]; intros n w; cbn [CreateTemp_from].
  - reflexivity.
  - destruct (Abs env _) as [a|]; [|reflexivity].
    destruct (fs w !! a); [apply IH|].
    destruct (fs w !! filepath.Dir a) as [[]|]; reflexivity.
Qed.

Lemma remove_temp_requests (env : Env) (zipPath : string) :
  keeps same_requests (remove_temp env zipPath).
Proof.
  intros w. unfold remove_temp. pose proof (Remove_requests env zipPath w) as H.
  destruct (Remove env zipPath w) as [[|e] w1]; exact H.
Qed.

Lemma markAsFetched_requests (env : Env) (f : Fetcher.t) :
  keeps same_requests (markAsFetched env f).
Proof. apply keeps_wrap, WriteFile_requests. Qed.

Lemma extractFile_requests (env : Env) (file : zip.File) (targetPath : string) :
  keeps same_requests (extractFile env file targetPath).
Proof.
  unfold extractFile. apply (keeps_bind _ same_requests_trans).
  - apply (keeps_lift _ same_requests_refl).
  - intros rc. apply WriteFile_requests.
Qed.

Lemma extractGitHubZip_files_requests (env : Env) (files : list zip.File)
  (rootPrefix targetDir subDir : string) (extracted : Z) :
  keeps same_requests
        (extractGitHubZip_files env files rootPrefix targetDir subDir extracted).
Proof.
  revert extracted. induction files as [|file rest IH]; intros extracted;
    cbn [extractGitHubZip_files].
  - apply (keeps_ret _ same_requests_refl).
  - repeat first
      [ apply IH
      | apply MkdirAll_requests
      | apply extractFile_requests
      | keeps_step same_requests_refl same_requests_trans ].
Qed.

Lemma extractGitHubZip_requests (env : Env) (zipPath targetDir subDir : string) :
  keeps same_requests (extractGitHubZip env zipPath targetDir subDir).
Proof.
  intros w. unfold extractGitHubZip. destruct (zip_OpenReader env zipPath w); [|reflexivity].
  apply (keeps_bind _ same_requests_trans).
  - apply extractGitHubZip_files_requests.
  - intros n. apply Printf_requests.
Qed.

(** A download issues exactly one request, whatever comes of it. *)
Lemma download_requests (env : Env) (u : string) (w : World) :
  requests (snd (download env u w)) = requests w ++ [u].
Proof.
  unfold download, bind, Get.
  destruct (http_Get env u) as [resp|]; [|reflexivity].
  destruct (negb (StatusCode resp =? 200)); [reflexivity|].
  match goal with
  | |- context [CreateTemp env ?a ?b ?w0] =>
      pose proof (CreateTemp_from_requests env (Z.to_nat 10000) 0 a b w0) as Ht;
      change (CreateTemp_from env (Z.to_nat 10000) 0 a b w0)
        with (CreateTemp env a b w0) in Ht;
      destruct (CreateTemp env a b w0) as [[tmp|e] w1]
  end; [|exact Ht].
  pose proof (Copy_body_requests env tmp resp w1) as Hc.
  destruct (Copy_body env tmp resp w1) as [[|e] w2]; unfold same_requests in *;
    simpl in *; congruence.
Qed.

(** ** Fetching again what was fetched *)

(** An HTTP source with an accepted scheme whose destination is marked
    as fetched is left alone: success, no request, the same files. *)
Lemma urlFetch_fetched_noop (env : Env) (url_Parse : string -> result url.URL)
  (f : Fetcher.t) (w : World) (u : url.URL) :
  url_Parse (Fetcher.Source f) = Ok u ->
  url.Scheme u = "http" \/ url.Scheme u = "https" ->
  isFetched env (Fetcher.Dest f) w = true ->
  urlFetch env url_Parse f w
  = (Ok tt, with_stdout w ["Source already fetched to " +:+ Fetcher.Dest f]).
Proof.
  intros Hu Hs Hf. unfold urlFetch. rewrite Hu.
  destruct Hs as [-> | ->]; cbn [String.eqb Ascii.eqb Bool.eqb negb andb];
    rewrite Hf; reflexivity.
Qed.

Lemma downloadAndExtractGithub_requests (env : Env) (f : Fetcher.t)
  (githubURL branch : string) (w w' : World) :
  downloadAndExtractGithub env f githubURL branch w = (Ok tt, w') ->
  exists u : string, requests w' = requests w ++ [u].
Proof.
  unfold downloadAndExtractGithub. cbn zeta.
  unfold bind at 1. unfold Printf at 1. cbn iota beta.
  match goal with |- context [if negb ?b then _ else _] => destruct (negb b) end;
    [discriminate|].
  match goal with |- context [match strings.Split ?s ?c with _ => _ end] =>
    destruct (strings.Split s c) as [|owner [|repo more]] end;
    [discriminate | discriminate |].
  unfold bind at 1. unfold Printf at 1. cbn iota beta. unfold bind.
  match goal with |- context [download env ?u ?w0] =>
    intros Hok; exists u; revert Hok; pose proof (download_requests env u w0) as Hd;
    destruct (download env u w0) as [[zipPath|e] w1]
  end; [|discriminate].
  cbn [snd requests] in Hd.
  match goal with |- defer ?c ?b w1 = _ -> _ =>
    assert (Hk : keeps same_requests (defer c b))
      by (apply (keeps_defer _ same_requests_trans);
          [apply extractGitHubZip_requests | apply remove_temp_requests]);
    specialize (Hk w1); intros Hok; rewrite Hok in Hk
  end.
  cbn [snd] in Hk. unfold same_requests in Hk. rewrite Hk. exact Hd.
Qed.

(** A GitHub fetch that succeeds has issued a request, marked or not:
    the check of the marker only prints. *)
Lemma githubFetch_success_requests (env : Env) (f : Fetcher.t) (w w' : World) :
  githubFetch env f w = (Ok tt, w') ->
  exists u : string, requests w' = requests w ++ [u].
Proof.
  unfold githubFetch. cbn zeta.
  destruct (String.eqb (Fetcher.Source f) ""); [discriminate|].
  unfold bind at 1.
  assert (Hpre : exists w0, requests w0 = requests w /\
            (if isFetched env (Fetcher.Dest f) w
             then Printf ("Source already fetched to " +:+ Fetcher.Dest f) w
             else (Ok tt, w)) = (Ok tt, w0)).
  { destruct (isFetched env (Fetcher.Dest f) w);
      [exists (with_stdout w ["Source already fetched to " +:+ Fetcher.Dest f])
      | exists w]; split; reflexivity. }
  destruct Hpre as (w0 & Hw0 & ->). rewrite <- Hw0.
  unfold bind, wrap.
  match goal with |- context [downloadAndExtractGithub env f ?g ?b w0] =>
    pose proof (downloadAndExtractGithub_requests env f g b w0) as Hd;
    destruct (downloadAndExtractGithub env f g b w0) as [[[]|e] w1]
  end; [|discriminate].
  destruct (Hd w1 eq_refl) as (u & Hu).
  intros Hok. exists u. rewrite <- Hu.
  pose proof (markAsFetched_requests env f w1) as Hm. unfold markAsFetched, wrap in *.
  destruct (WriteFile env _ _ w1) as [[|e] w2]; [|discriminate].
  injection Hok as _ <-. exact Hm.
Qed.

(** C1 at a destination that is marked as fetched.  The GitHub fetch
    asks the network again and writes into the destination; the HTTP
    fetch of the same destination does neither. *)
Theorem githubFetch_refetches_fetched_destination :
  let github := Fetcher.mk SourceGitHub "acme/schemas/proto" "v1" "/cache/dep" in
  let http := Fetcher.mk SourceHTTP "https://example.com/a.zip" "" "/cache/dep" in
  isFetched sample_env "/cache/dep" sample_world = true /\
  fst (Fetch sample_env url.Parse github sample_world) = Ok tt /\
  requests (snd (Fetch sample_env url.Parse github sample_world))
  = ["https://github.com/acme/schemas/archive/refs/tags/v1.zip"] /\
  In "Source already fetched to /cache/dep"
     (stdout (snd (Fetch sample_env url.Parse github sample_world))) /\
  fs sample_world !! "/cache/dep/a.proto" = None /\
  fs (snd (Fetch sample_env url.Parse github sample_world)) !! "/cache/dep/a.proto"
  = Some (File (Bytes "A")) /\
  ~ fetch_is_noop (Fetch sample_env url.Parse github sample_world) sample_world /\
  fetch_is_noop (Fetch sample_env url.Parse http sample_world) sample_world.
Proof.
  cbn zeta.
  assert (Hreq : requests (snd (Fetch sample_env url.Parse
                   (Fetcher.mk SourceGitHub "acme/schemas/proto" "v1" "/cache/dep")
                   sample_world))
                 = ["https://github.com/acme/schemas/archive/refs/tags/v1.zip"])
    by (vm_compute; reflexivity).
  split; [vm_compute; reflexivity|].
  split; [vm_compute; reflexivity|].
  split; [exact Hreq|].
  split; [vm_compute; left; reflexivity|].
  split; [vm_compute; reflexivity|].
  split; [vm_compute; reflexivity|].
  split.
  - intros (_ & Hn & _). rewrite Hreq in Hn. discriminate Hn.
  - unfold fetch_is_noop.
    split; [vm_compute; reflexivity|].
    split; vm_compute; reflexivity.
Qed.

(** ** The downloaded archive *)

(** When the body of the response breaks off, [download] returns the
    error with the temporary file still in place: nothing removes it,
    and the caller installs its cleanup only after a download that
    succeeded. *)
Lemma download_copy_failure (env : Env) (u : string) (w w1 : World)
  (resp : Response) (tmp a : string) :
  http_Get env u = Some resp ->
  StatusCode resp = 200 ->
  BodyFails resp = true ->
  CreateTemp env "protodex-download-" ".zip" (snd (Get env u w)) = (Ok tmp, w1) ->
  Abs env tmp = Ok a ->
  download env u w
  = (Err (New "unexpected EOF"), set_fs w1 (<[a := File (Bytes "")]> (fs w1))) /\
  fs (snd (download env u w)) !! a = Some (File (Bytes "")).
Proof.
  intros Hget Hst Hfail Htmp Ha.
  assert (Hd : download env u w
               = (Err (New "unexpected EOF"), set_fs w1 (<[a := File (Bytes "")]> (fs w1)))).
  { unfold download, bind. unfold Get in *. rewrite Hget in *. cbn [snd] in Htmp.
    rewrite Hst. cbn [Z.eqb Pos.eqb negb]. rewrite Htmp.
    unfold Copy_body. rewrite Ha, Hfail. reflexivity. }
  split; [exact Hd|]. rewrite Hd. cbn [snd set_fs fs]. apply lookup_insert_eq.
Qed.

(** C8 where the response body breaks off.  The HTTP, GitHub and
    well-known fetches through [download] return their error and leave
    the temporary file behind; the resolver of the well-known protos
    and a fetch that succeeds leave none. *)
Theorem download_leaves_temp_file_when_copy_fails :
  let tmp := "/tmp/protodex-download-0.zip" in
  let http := Fetcher.mk SourceHTTP "https://example.com/broken.zip" "" "/cache/new" in
  let wellknown :=
    Fetcher.mk SourceGoogleWellKnown "https://example.com/broken.zip" "" "/cache/new" in
  let github := Fetcher.mk SourceGitHub "acme/broken" "" "/cache/new" in
  let good := Fetcher.mk SourceHTTP "https://example.com/a.zip" "" "/cache/new" in
  fs sample_world !! tmp = None /\
  fst (Fetch sample_env url.Parse http sample_world)
  = Err (Wrap "failed to fetch from URL"
           (Wrap "failed to download from URL" (New "unexpected EOF"))) /\
  fs (snd (Fetch sample_env url.Parse http sample_world)) !! tmp = Some (File (Bytes "")) /\
  fs (snd (Fetch sample_env url.Parse wellknown sample_world)) !! tmp
  = Some (File (Bytes "")) /\
  fst (Fetch sample_env url.Parse github sample_world)
  = Err (Wrap "failed to fetch from GitHub" (New "unexpected EOF")) /\
  fs (snd (Fetch sample_env url.Parse github sample_world)) !! tmp = Some (File (Bytes "")) /\
  fst (Fetch sample_env url.Parse good sample_world) = Ok tt /\
  fs (snd (Fetch sample_env url.Parse good sample_world)) !! tmp = None /\
  fst (resolveGoogleWellKnownProtos sample_env (Resolver.mk "/cache")
         (Config.mk "google/protobuf" SourceGoogleWellKnown "" "" "") sample_world)
  = Err (New "unexpected EOF") /\
  fs (snd (resolveGoogleWellKnownProtos sample_env (Resolver.mk "/cache")
             (Config.mk "google/protobuf" SourceGoogleWellKnown "" "" "") sample_world))
     !! "/tmp/protoc-includes-0.zip" = None.
Proof.
  cbn zeta.
  split; [vm_compute; reflexivity|].
  split; [vm_compute; reflexivity|].
  split; [vm_compute; reflexivity|].
  split; [vm_compute; reflexivity|].
  split; [vm_compute; reflexivity|].
  split; [vm_compute; reflexivity|].
  split; [vm_compute; reflexivity|].
  split; [vm_compute; reflexivity|].
  split; vm_compute; reflexivity.
Qed.

(** ** Extracting a GitHub archive *)


Lemma strip_app (pre r : string) : strings.strip pre (pre +:+ r) = Some r.
Proof. apply strip_Some. reflexivity. Qed.

Lemma TrimPrefix_app (pre r : string) : strings.TrimPrefix (pre +:+ r) pre = r.
Proof. unfold strings.TrimPrefix. rewrite strip_app. reflexivity. Qed.







(** ** What fetching leaves in place *)

Lemma fs_grows_insert (w : World) (k : string) (n : node) :
  fs_grows w (set_fs w (<[k := n]> (fs w))).
Proof.
  intros p Hp. cbn [set_fs fs]. destruct (decide (k = p)) as [->|Hne].
  - rewrite lookup_insert_eq. eauto.
  - rewrite lookup_insert_ne by exact Hne. exact Hp.
Qed.

Lemma mkdirs_grows (dirs : list string) (m m' : gmap string node) :
  mkdirs dirs m = Ok m' -> forall p, is_Some (m !! p) -> is_Some (m' !! p).
Proof.
  revert m. induction dirs as [|d rest IH]; intros m Hm p Hp; cbn [mkdirs] in Hm.
  - injection Hm as <-. exact Hp.
  - destruct (m !! d) as [[]|] eqn:Hd; try discriminate.
    + apply (IH m Hm p Hp).
    + apply (IH _ Hm p). destruct (decide (d = p)) as [->|Hne].
      * rewrite lookup_insert_eq. eauto.
      * rewrite lookup_insert_ne by exact Hne. exact Hp.
Qed.

Lemma Printf_grows (line : string) : keeps fs_grows (Printf line).
Proof. intros w p Hp. exact Hp. Qed.

Lemma Get_grows (env : Env) (u : string) : keeps fs_grows (Get env u).
Proof. intros w p Hp. unfold Get. destruct (http_Get env u); exact Hp. Qed.

Lemma MkdirAll_grows (env : Env) (p : string) : keeps fs_grows (MkdirAll env p).
Proof.
  intros w. unfold MkdirAll. destruct (Abs env p) as [a|]; [|apply fs_grows_refl].
  destruct (mkdirs (ancestors a) (fs w)) as [m|] eqn:Hm; [|apply fs_grows_refl].
  intros q Hq. apply (mkdirs_grows _ _ _ Hm q Hq).
Qed.

Lemma WriteFile_grows (env : Env) (p : string) (d : data) :
  keeps fs_grows (WriteFile env p d).
Proof.
  intros w. unfold WriteFile. destruct (Abs env p) as [a|]; [|apply fs_grows_refl].
  destruct (fs w !! filepath.Dir a) as [[]|]; try apply fs_grows_refl;
    destruct (fs w !! a) as [[]|]; try apply fs_grows_refl;
    destruct (String.eqb a "/"); try apply fs_grows_refl; apply fs_grows_insert.
Qed.

Lemma os_Symlink_grows (env : Env) (oldname newname : string) :
  keeps fs_grows (os_Symlink env oldname newname).
Proof.
  intros w. unfold os_Symlink. destruct (Abs env newname) as [a|]; [|apply fs_grows_refl].
  destruct (fs w !! a); [apply fs_grows_refl|].
  destruct (fs w !! filepath.Dir a) as [[]|]; try apply fs_grows_refl.
  apply fs_grows_insert.
Qed.

Lemma Copy_body_grows (env : Env) (name : string) (resp : Response) :
  keeps fs_grows (Copy_body env name resp).
Proof.
  intros w. unfold Copy_body. destruct (Abs env name); [|apply fs_grows_refl].
  destruct (BodyFails resp); apply fs_grows_insert.
Qed.

(** A temporary file is new: its path was free, and nothing else
    changed. *)
Lemma CreateTemp_from_fresh (env : Env) (fuel n : nat) (pre suf : string)
  (w w1 : World) (tmp : string) :
  CreateTemp_from env fuel n pre suf w = (Ok tmp, w1) ->
  exists a : string, Abs env tmp = Ok a /\ fs w !! a = None /\ fs_grows w w1.
Proof.
  revert n. induction fuel as [|fuel IH]; intros n; cbn [CreateTemp_from].
  - discriminate.
  - match goal with |- context [match Abs env ?x with _ => _ end] =>
      destruct (Abs env x) as [a|] eqn:Ha end; [|discriminate].
    destruct (fs w !! a) eqn:Hfree; [apply IH|].
    destruct (fs w !! filepath.Dir a) as [[]|]; try discriminate.
    intros [= <- <-]. exists a. split; [exact Ha|]. split; [exact Hfree|].
    apply fs_grows_insert.
Qed.

Lemma CreateTemp_from_grows (env : Env) (fuel n : nat) (pre suf : string) :
  keeps fs_grows (CreateTemp_from env fuel n pre suf).
Proof.
  revert n. induction fuel as [|fuel IH]; intros n w; cbn [CreateTemp_from].
  - apply fs_grows_refl.
  - destruct (Abs env _) as [a|]; [|apply fs_grows_refl].
    destruct (fs w !! a); [apply IH|].
    destruct (fs w !! filepath.Dir a) as [[]|]; try apply fs_grows_refl.
    apply fs_grows_insert.
Qed.

(** Removing a path that was free at the start leaves everything that
    was there at the start. *)
Lemma Remove_fresh_grows (env : Env) (tmp a : string) (w0 w : World) :
  Abs env tmp = Ok a -> fs w0 !! a = None -> fs_grows w0 w ->
  fs_grows w0 (snd (Remove env tmp w)).
Proof.
  intros Ha Hfree Hg. unfold Remove. rewrite Ha.
  assert (Hdel : fs_grows w0 (set_fs w (delete a (fs w)))).
  { intros p Hp. cbn [set_fs fs]. destruct (decide (a = p)) as [->|Hne].
    - rewrite Hfree in Hp. destruct Hp as [? [=]].
    - rewrite lookup_delete_ne by exact Hne. apply Hg, Hp. }
  destruct (fs w !! a) as [[]|]; try exact Hg; try exact Hdel.
  destruct (children a (fs w)); [exact Hdel | exact Hg].
Qed.

Lemma remove_temp_fresh_grows (env : Env) (tmp a : string) (w0 w : World) :
  Abs env tmp = Ok a -> fs w0 !! a = None -> fs_grows w0 w ->
  fs_grows w0 (snd (remove_temp env tmp w)).
Proof.
  intros Ha Hfree Hg. unfold remove_temp.
  pose proof (Remove_fresh_grows env tmp a w0 w Ha Hfree Hg) as Hr.
  destruct (Remove env tmp w) as [[|e] w1]; exact Hr.
Qed.

(** The body runs, then the fresh file is removed. *)
Lemma defer_remove_temp_grows {A} (env : Env) (tmp a : string) (body : M A)
  (w0 w1 : World) :
  Abs env tmp = Ok a -> fs w0 !! a = None -> fs_grows w0 w1 ->
  keeps fs_grows body ->
  fs_grows w0 (snd (defer (remove_temp env tmp) body w1)).
Proof.
  intros Ha Hfree Hg Hb. unfold defer. specialize (Hb w1).
  destruct (body w1) as [r w2]. cbn [snd] in *.
  apply (remove_temp_fresh_grows env tmp a); [exact Ha | exact Hfree |].
  eapply fs_grows_trans; [exact Hg | exact Hb].
Qed.

Ltac grows_step :=
  first
    [ assumption
    | apply Printf_grows
    | apply Get_grows
    | apply MkdirAll_grows
    | apply WriteFile_grows
    | apply os_Symlink_grows
    | apply Copy_body_grows
    | apply CreateTemp_from_grows
    | keeps_step fs_grows_refl fs_grows_trans ].

Ltac grows := repeat grows_step.

Lemma download_grows (env : Env) (u : string) : keeps fs_grows (download env u).
Proof. unfold download, CreateTemp. grows. Qed.

Lemma download_fresh (env : Env) (u : string) (w w1 : World) (tmp : string) :
  download env u w = (Ok tmp, w1) ->
  exists a : string, Abs env tmp = Ok a /\ fs w !! a = None /\ fs_grows w w1.
Proof.
  intros Hd. pose proof (download_grows env u w) as Hg. rewrite Hd in Hg.
  revert Hd. unfold download, bind, Get, CreateTemp.
  destruct (http_Get env u) as [resp|]; [|discriminate].
  destruct (negb (StatusCode resp =? 200)); [discriminate|].
  match goal with |- context [CreateTemp_from env ?f ?n ?a ?b ?w0] =>
    destruct (CreateTemp_from env f n a b w0) as [[t|e] w2] eqn:Ht end; [|discriminate].
  apply CreateTemp_from_fresh in Ht as (a & Ha & Hfree & _).
  destruct (Copy_body env t resp w2) as [[|e] w3]; [|discriminate].
  unfold ret. intros [= <- <-]. exists a. auto.
Qed.

Lemma markAsFetched_grows (env : Env) (f : Fetcher.t) : keeps fs_grows (markAsFetched env f).
Proof. unfold markAsFetched. grows. Qed.

Lemma extractZip_files_grows (env : Env) (files : list zip.File) (destPath : string) :
  keeps fs_grows (extractZip_files env files destPath).
Proof.
  induction files as [|file rest IH]; cbn [extractZip_files]; grows.
Qed.

Lemma extractZip_grows (env : Env) (zipPath destPath : string) :
  keeps fs_grows (extractZip env zipPath destPath).
Proof.
  intros w. unfold extractZip. destruct (zip_OpenReader env zipPath w).
  - apply extractZip_files_grows.
  - apply fs_grows_refl.
Qed.

Lemma downloadAndExtract_grows (env : Env) (f : Fetcher.t) :
  keeps fs_grows (downloadAndExtract env f).
Proof.
  intros w. unfold downloadAndExtract, bind, wrap at 1.
  pose proof (download_grows env (Fetcher.Source f) w) as Hg.
  destruct (download env (Fetcher.Source f) w) as [[tmp|e] w1] eqn:Hd; [|exact Hg].
  apply download_fresh in Hd as (a & Ha & Hfree & Hgrow).
  apply (defer_remove_temp_grows env tmp a); try assumption.
  apply keeps_wrap, extractZip_grows.
Qed.

Lemma urlFetch_grows (env : Env) (url_Parse : string -> result url.URL) (f : Fetcher.t) :
  keeps fs_grows (urlFetch env url_Parse f).
Proof.
  unfold urlFetch. destruct (url_Parse (Fetcher.Source f)) as [u|e]; [|grows].
  destruct (_ && _); [grows|].
  intros w. destruct (isFetched env (Fetcher.Dest f) w); [apply Printf_grows|].
  revert w. pose proof (downloadAndExtract_grows env f).
  pose proof (markAsFetched_grows env f). grows.
Qed.

Lemma extractFile_grows (env : Env) (file : zip.File) (targetPath : string) :
  keeps fs_grows (extractFile env file targetPath).
Proof. unfold extractFile. grows. Qed.

Lemma extractGitHubZip_files_grows (env : Env) (files : list zip.File)
  (rootPrefix targetDir subDir : string) (extracted : Z) :
  keeps fs_grows (extractGitHubZip_files env files rootPrefix targetDir subDir extracted).
Proof.
  revert extracted. induction files as [|file rest IH]; intros extracted;
    cbn [extractGitHubZip_files].
  - grows.
  - repeat first [ apply IH | apply extractFile_grows | grows_step ].
Qed.

Lemma extractGitHubZip_grows (env : Env) (zipPath targetDir subDir : string) :
  keeps fs_grows (extractGitHubZip env zipPath targetDir subDir).
Proof.
  intros w. unfold extractGitHubZip.
  destruct (zip_OpenReader env zipPath w); [|apply fs_grows_refl].
  revert w. repeat first [ apply extractGitHubZip_files_grows | grows_step ].
Qed.

Lemma downloadAndExtractGithub_grows (env : Env) (f : Fetcher.t) (githubURL branch : string) :
  keeps fs_grows (downloadAndExtractGithub env f githubURL branch).
Proof.
  unfold downloadAndExtractGithub. cbn zeta.
  apply (keeps_bind _ fs_grows_trans); [apply Printf_grows | intros _].
  match goal with |- context [if negb ?b then _ else _] => destruct (negb b) end; [grows|].
  match goal with |- context [match strings.Split ?s ?c with _ => _ end] =>
    destruct (strings.Split s c) as [|owner [|repo more]] end; [grows | grows |].
  apply (keeps_bind _ fs_grows_trans); [apply Printf_grows | intros _].
  intros w. unfold bind.
  match goal with |- context [download env ?u w] =>
    pose proof (download_grows env u w) as Hg;
    destruct (download env u w) as [[tmp|e] w1] eqn:Hd
  end; [|exact Hg].
  apply download_fresh in Hd as (a & Ha & Hfree & Hgrow).
  apply (defer_remove_temp_grows env tmp a); try assumption.
  apply extractGitHubZip_grows.
Qed.

Lemma githubFetch_grows (env : Env) (f : Fetcher.t) : keeps fs_grows (githubFetch env f).
Proof.
  unfold githubFetch. cbn zeta.
  destruct (String.eqb (Fetcher.Source f) ""); [grows|].
  apply (keeps_bind _ fs_grows_trans).
  - intros w. destruct (isFetched env (Fetcher.Dest f) w);
      [apply Printf_grows | apply fs_grows_refl].
  - intros _.
    repeat first [ apply downloadAndExtractGithub_grows | apply markAsFetched_grows
                 | grows_step ].
Qed.

Lemma localFetch_grows (env : Env) (f : Fetcher.t) : keeps fs_grows (localFetch env f).
Proof.
  intros w. unfold localFetch.
  destruct (Abs env (Fetcher.Source f)) as [a|]; [|apply fs_grows_refl].
  destruct (Stat env a w); [|apply fs_grows_refl].
  destruct (Abs env (Fetcher.Dest f)) as [d|]; [|apply fs_grows_refl].
  destruct (String.eqb a d); [apply fs_grows_refl|].
  apply keeps_wrap, os_Symlink_grows.
Qed.

Lemma extractZipArchive_files_grows (env : Env) (files : list zip.File) (outputDir : string) :
  keeps fs_grows (extractZipArchive_files env files outputDir).
Proof.
  induction files as [|file rest IH]; cbn [extractZipArchive_files]; grows.
Qed.

Lemma PullVersion_grows (env : Env) (packageName version outputDir : string) :
  keeps fs_grows (PullVersion env packageName version outputDir).
Proof.
  unfold PullVersion, extractZipArchive. cbn zeta.
  repeat first [ apply extractZipArchive_files_grows | grows_step ].
Qed.

Lemma Fetch_grows (env : Env) (url_Parse : string -> result url.URL) (f : Fetcher.t) :
  keeps fs_grows (Fetch env url_Parse f).
Proof.
  unfold Fetch, protodexFetch.
  pose proof (localFetch_grows env f). pose proof (githubFetch_grows env f).
  pose proof (urlFetch_grows env url_Parse f).
  pose proof (PullVersion_grows env (Fetcher.Source f) (Fetcher.Version f) (Fetcher.Dest f)).
  grows.
Qed.

Lemma extractIncludes_files_grows (env : Env) (files : list zip.File)
  (targetDir : string) (extracted : Z) :
  keeps fs_grows (extractIncludes_files env files targetDir extracted).
Proof.
  revert extracted. induction files as [|file rest IH]; intros extracted;
    cbn [extractIncludes_files].
  - grows.
  - unfold extractFile_includes. repeat first [ apply IH | grows_step ].
Qed.

Lemma extractIncludes_grows (env : Env) (zipPath targetDir : string) :
  keeps fs_grows (extractIncludes env zipPath targetDir).
Proof.
  intros w. unfold extractIncludes.
  destruct (zip_OpenReader env zipPath w); [|apply fs_grows_refl].
  revert w. repeat first [ apply extractIncludes_files_grows | grows_step ].
Qed.

(** A temporary file that is created, used and removed. *)
Lemma temp_block_grows {A} (env : Env) (pre suf : string) (body : string -> M A) :
  (forall tmp, keeps fs_grows (body tmp)) ->
  keeps fs_grows (tempFile <- CreateTemp env pre suf ;;
                  defer (_ <- try (Remove env tempFile) ;; ret tt) (body tempFile)).
Proof.
  intros Hbody w. unfold bind at 1, CreateTemp.
  pose proof (CreateTemp_from_grows env (Z.to_nat 10000) 0 pre suf w) as Hg.
  destruct (CreateTemp_from env (Z.to_nat 10000) 0 pre suf w) as [[tmp|e] w1] eqn:Ht;
    [|exact Hg].
  apply CreateTemp_from_fresh in Ht as (a & Ha & Hfree & Hgrow).
  unfold defer. specialize (Hbody tmp w1). destruct (body tmp w1) as [r w2].
  cbn [snd] in *. unfold bind, try, ret.
  pose proof (Remove_fresh_grows env tmp a w w2 Ha Hfree
                (fs_grows_trans _ _ _ Hgrow Hbody)) as Hr.
  destruct (Remove env tmp w2) as [r' w3]. exact Hr.
Qed.

Ltac as_keeps :=
  match goal with
  | |- fs_grows ?w (snd (?c ?w)) => generalize w; change (keeps fs_grows c)
  end.

Lemma resolveGoogleWellKnownProtos_grows (env : Env) (dc : Resolver.t) (dep : Config.t) :
  keeps fs_grows (resolveGoogleWellKnownProtos env dc dep).
Proof.
  intros w. unfold resolveGoogleWellKnownProtos. cbn zeta.
  destruct (isCached env _ w); [apply fs_grows_refl|].
  as_keeps.
  repeat first [ apply temp_block_grows; intros ?
               | apply extractIncludes_grows
               | grows_step ].
Qed.

(** Resolving a dependency removes nothing that was there. *)
Lemma resolveDependency_grows (env : Env) (url_Parse : string -> result url.URL)
  (dc : Resolver.t) (dep : Config.t) :
  keeps fs_grows (resolveDependency env url_Parse dc dep).
Proof.
  unfold resolveDependency, _resolveDependency, NewFetcher.
  destruct (String.eqb (Config.Typ dep) SourceGoogleWellKnown).
  - apply resolveGoogleWellKnownProtos_grows.
  - apply Fetch_grows.
Qed.

(** ** Resolving a batch of dependencies *)

Lemma ResolveDependencies_grows (env : Env) (url_Parse : string -> result url.URL)
  (dc : Resolver.t) (deps : list Config.t) :
  keeps fs_grows (ResolveDependencies env url_Parse dc deps).
Proof.
  induction deps as [|dep rest IH]; cbn [ResolveDependencies].
  - grows.
  - repeat first [ apply resolveDependency_grows | grows_step ].
Qed.


(* ===================================================================== *)
(** * Further properties of the code                                      *)
(* ===================================================================== *)

(** ** The source parser: what every result satisfies, and every failure *)

(** The parser on a reference that is not local, with the scheme
    switch read as a table lookup. *)
Lemma ParseSource_nonlocal (url_Parse : string -> result url.URL) (input : string) :
  String.eqb input "" = false ->
  strings.HasPrefix input "file://" = false ->
  isLocalPath input = false ->
  ParseSource url_Parse input
  = match (if negb (strings.LastIndex input "@" =? -1)
           then (strings.slice_to input (strings.LastIndex input "@"),
                 strings.slice_from input (strings.LastIndex input "@" + 1))
           else (input, "")) with
    | (baseInput, version) =>
        match url_Parse baseInput with
        | Err e => Err (Wrap "invalid source format" e)
        | Ok parsedURL =>
            if String.eqb (url.Scheme parsedURL) "" then Err (New "missing scheme in source")
            else
              match scheme_table (strings.ToLower (url.Scheme parsedURL)) with
              | Some ty =>
                  Ok (mkSourceInfo ty (url.Host parsedURL +:+ url.Path parsedURL)
                        (if String.eqb version "" then getDefaultVersion ty else version)
                        input)
              | None => Err (New ("unsupported source type: " +:+ url.Scheme parsedURL))
              end
        end
    end.
Proof.
  intros Hne Hfile Hlocal. unfold ParseSource. rewrite Hne, Hfile, Hlocal. cbn zeta.
  destruct (negb (strings.LastIndex input "@" =? -1));
    (destruct (url_Parse _) as [u|e]; [|reflexivity];
     destruct (String.eqb (url.Scheme u) ""); [reflexivity|];
     apply (scheme_table_finish url_Parse)).
Qed.

(** X1.  Whatever the parser returns keeps the reference as given in
    [Raw], has one of the five named types, and, when the type is
    GitHub or the registry, a version that is not empty. *)
Theorem ParseSource_result_invariant
  (url_Parse : string -> result url.URL) (input : string) (info : SourceInfo)
  (Hok : ParseSource url_Parse input = Ok info) :
  Raw info = input /\
  In (Typ info) [SourceGitHub; SourceHTTP; SourceGoogleWellKnown; SourceLocal; SourceProtodex] /\
  (Typ info = SourceGitHub \/ Typ info = SourceProtodex -> Version info <> "").
Proof.
  revert Hok.
  destruct (String.eqb input "") eqn:Hne; [unfold ParseSource; rewrite Hne; discriminate|].
  destruct (strings.HasPrefix input "file://") eqn:Hfile.
  { unfold ParseSource. rewrite Hne, Hfile. intros [= <-]. cbn.
    split; [reflexivity|]. split; [tauto|]. intros [H|H]; discriminate H. }
  destruct (isLocalPath input) eqn:Hloc.
  { unfold ParseSource. rewrite Hne, Hfile, Hloc. intros [= <-]. cbn.
    split; [reflexivity|]. split; [tauto|]. intros [H|H]; discriminate H. }
  rewrite (ParseSource_nonlocal url_Parse input Hne Hfile Hloc).
  destruct (if negb (strings.LastIndex input "@" =? -1)
            then (strings.slice_to input (strings.LastIndex input "@"),
                  strings.slice_from input (strings.LastIndex input "@" + 1))
            else (input, "")) as [base version].
  destruct (url_Parse base) as [u|e]; [|discriminate].
  destruct (String.eqb (url.Scheme u) ""); [discriminate|].
  destruct (scheme_table (strings.ToLower (url.Scheme u))) as [ty|] eqn:Et; [|discriminate].
  intros [= <-]. cbn [Raw Typ Version].
  assert (Hty : In ty [SourceGitHub; SourceHTTP; SourceGoogleWellKnown; SourceLocal;
                       SourceProtodex]).
  { revert Et. unfold scheme_table.
    repeat (match goal with |- context [String.eqb ?a ?b] => destruct (String.eqb a b) end;
            [intros [= <-]; cbn; tauto|]).
    discriminate. }
  split; [reflexivity|]. split; [exact Hty|].
  destruct (String.eqb_spec version "") as [->|Hv]; [|intros _; exact Hv].
  intros [-> | ->]; discriminate.
Qed.

Lemma ParseSource_result_invariant_witness :
  Raw (mkSourceInfo SourceGitHub "acme/schemas" "main" "github://acme/schemas")
  = "github://acme/schemas" /\
  In SourceGitHub [SourceGitHub; SourceHTTP; SourceGoogleWellKnown; SourceLocal; SourceProtodex] /\
  (SourceGitHub = SourceGitHub \/ SourceGitHub = SourceProtodex -> "main" <> "").
Proof.
  apply (ParseSource_result_invariant url.Parse "github://acme/schemas"
           (mkSourceInfo SourceGitHub "acme/schemas" "main" "github://acme/schemas")).
  vm_compute. reflexivity.
Defined.

(** X2.  The parser fails in four ways only: on the empty reference;
    and, for a reference that is not local, when the part before the
    version does not parse as a URI, when it has no scheme, or when its
    scheme is not in the table. *)
Theorem ParseSource_failures
  (url_Parse : string -> result url.URL) (input : string) (e : error)
  (Hfail : ParseSource url_Parse input = Err e) :
  (input = "" /\ e = New "empty source") \/
  (input <> "" /\ strings.HasPrefix input "file://" = false /\ isLocalPath input = false /\
   exists base : string,
     (base = input \/ exists version, input = base +:+ "@" +:+ version) /\
     ((exists cause, url_Parse base = Err cause /\ e = Wrap "invalid source format" cause) \/
      (exists u, url_Parse base = Ok u /\ url.Scheme u = "" /\
                 e = New "missing scheme in source") \/
      (exists u, url_Parse base = Ok u /\ url.Scheme u <> "" /\
                 scheme_table (strings.ToLower (url.Scheme u)) = None /\
                 e = New ("unsupported source type: " +:+ url.Scheme u)))).
Proof.
  revert Hfail.
  destruct (String.eqb_spec input "") as [->|Hne]; [intros [= <-]; left; auto|].
  assert (Hneb : String.eqb input "" = false) by (apply String.eqb_neq; exact Hne).
  destruct (strings.HasPrefix input "file://") eqn:Hfile;
    [unfold ParseSource; rewrite Hneb, Hfile; discriminate|].
  destruct (isLocalPath input) eqn:Hloc;
    [unfold ParseSource; rewrite Hneb, Hfile, Hloc; discriminate|].
  rewrite (ParseSource_nonlocal url_Parse input Hneb Hfile Hloc).
  intros Hfail. right. split; [exact Hne|]. split; [reflexivity|].
  split; [reflexivity|].
  pose proof (LastIndex_char "@" input) as Hat. cbn zeta in Hat.
  assert (Hsplit : exists base version,
             (if negb (strings.LastIndex input "@" =? -1)
              then (strings.slice_to input (strings.LastIndex input "@"),
                    strings.slice_from input (strings.LastIndex input "@" + 1))
              else (input, "")) = (base, version) /\
             (base = input \/ exists v, input = base +:+ "@" +:+ v)).
  { destruct Hat as [[Hi _] | (Hi & Hs & _)].
    - rewrite Hi. cbn. eexists _, _. split; [reflexivity | left; reflexivity].
    - destruct (Z.eqb_spec (strings.LastIndex input "@") (-1)) as [E|_]; [lia|].
      cbn [negb]. eexists _, _. split; [reflexivity|]. right. eexists. exact Hs. }
  destruct Hsplit as (base & version & Heq & Hbase). rewrite Heq in Hfail.
  exists base. split; [exact Hbase|].
  destruct (url_Parse base) as [u|cause]; [|injection Hfail as <-; left; eauto].
  destruct (String.eqb_spec (url.Scheme u) "") as [Hs|Hs].
  - injection Hfail as <-. right. left. eauto.
  - destruct (scheme_table (strings.ToLower (url.Scheme u))) eqn:Et; [discriminate|].
    injection Hfail as <-. right. right. exists u. auto.
Qed.

Lemma ParseSource_failures_witness :
  exists base : string,
    (base = "ftp://x/y" \/ exists version, "ftp://x/y" = base +:+ "@" +:+ version) /\
    exists u, url.Parse base = Ok u /\ url.Scheme u <> "" /\
              scheme_table (strings.ToLower (url.Scheme u)) = None.
Proof.
  assert (Hfail : ParseSource url.Parse "ftp://x/y" = Err (New "unsupported source type: ftp"))
    by (vm_compute; reflexivity).
  destruct (ParseSource_failures url.Parse "ftp://x/y" _ Hfail)
    as [[H _] | (_ & _ & _ & base & Hb & Hcase)]; [discriminate H|].
  exists base. split; [exact Hb|].
  destruct Hcase as [(c & _ & H) | [(u & _ & _ & H) | (u & Hu & Hs & Ht & _)]];
    [discriminate H | discriminate H |].
  exists u. auto.
Defined.

(** X3.  A reference with the [file://] prefix, or one that looks like
    a path, is local whatever else it holds: its locator is the
    reference (without the prefix), its version is empty, it is never
    cut at an [@] and the URI parser is not asked. *)
Theorem ParseSource_local_references
  (url_Parse : string -> result url.URL) (input : string) (Hne : input <> "") :
  (strings.HasPrefix input "file://" = true ->
   ParseSource url_Parse input
   = Ok (mkSourceInfo SourceLocal (strings.TrimPrefix input "file://") "" input)) /\
  (strings.HasPrefix input "file://" = false ->
   (strings.HasPrefix input "./" = true \/ strings.HasPrefix input "../" = true \/
    strings.HasPrefix input "/" = true \/
    (strings.Contains input "://" = false /\ strings.Contains input "@" = false)) ->
   ParseSource url_Parse input = Ok (mkSourceInfo SourceLocal input "" input)).
Proof.
  unfold ParseSource. destruct (String.eqb_spec input "") as [|_]; [contradiction|].
  split.
  - intros ->. reflexivity.
  - intros -> Hloc. unfold isLocalPath.
    destruct Hloc as [-> | [-> | [-> | [-> ->]]]]; cbn [orb negb andb];
      repeat (match goal with |- context [strings.HasPrefix ?a ?b || _] =>
                destruct (strings.HasPrefix a b); cbn [orb] end);
      reflexivity.
Qed.

Lemma ParseSource_local_references_witness :
  ParseSource url.Parse "./schemas@v2" = Ok (mkSourceInfo SourceLocal "./schemas@v2" "" "./schemas@v2").
Proof.
  assert (Hne : "./schemas@v2" <> "") by discriminate.
  destruct (ParseSource_local_references url.Parse "./schemas@v2" Hne) as [_ H].
  apply H; [vm_compute; reflexivity | left; vm_compute; reflexivity].
Defined.

(** ** Fetching: what is refused, and what a download leaves *)

(** X4.  A fetcher built from an [http(s)://] reference carries host
    and path without the scheme; when that text does not itself parse
    with scheme [http] or [https], fetching is refused at the scheme
    check, with no request and nothing written. *)
Theorem NewFetcherFromURL_http_loses_scheme
  (env : Env) (url_Parse : string -> result url.URL) (input dest : string)
  (u u' : url.URL) (w : World)
  (Hne : input <> "")
  (Hfile : strings.HasPrefix input "file://" = false)
  (Hlocal : isLocalPath input = false)
  (Hat : strings.LastIndex input "@" = -1)
  (Hu : url_Parse input = Ok u)
  (Hscheme : strings.ToLower (url.Scheme u) = "http"
             \/ strings.ToLower (url.Scheme u) = "https")
  (Hu' : url_Parse (url.Host u +:+ url.Path u) = Ok u')
  (Hhttp : url.Scheme u' <> "http") (Hhttps : url.Scheme u' <> "https") :
  NewFetcherFromURL url_Parse input dest
  = Ok (Fetcher.mk SourceHTTP (url.Host u +:+ url.Path u) "" dest) /\
  Fetch env url_Parse (Fetcher.mk SourceHTTP (url.Host u +:+ url.Path u) "" dest) w
  = (Err (New ("unsupported URL scheme: " +:+ url.Scheme u')), w).
Proof.
  assert (Hneb : String.eqb input "" = false) by (apply String.eqb_neq; exact Hne).
  assert (Hs : String.eqb (url.Scheme u) "" = false).
  { apply String.eqb_neq. intros E. rewrite E in Hscheme.
    destruct Hscheme as [H|H]; discriminate H. }
  split.
  - unfold NewFetcherFromURL.
    rewrite (ParseSource_nonlocal url_Parse input Hneb Hfile Hlocal), Hat.
    cbn [Z.eqb Pos.eqb negb]. rewrite Hu, Hs.
    destruct Hscheme as [-> | ->]; reflexivity.
  - unfold Fetch, urlFetch. cbn [Fetcher.SourceType Fetcher.Source].
    change (String.eqb SourceHTTP SourceLocal) with false.
    change (String.eqb SourceHTTP SourceGitHub) with false.
    change (String.eqb SourceHTTP SourceProtodex) with false.
    change (String.eqb SourceHTTP SourceHTTP) with true. cbn iota.
    rewrite Hu'.
    destruct (String.eqb_spec (url.Scheme u') "http"); [contradiction|].
    destruct (String.eqb_spec (url.Scheme u') "https"); [contradiction|].
    reflexivity.
Qed.

Lemma NewFetcherFromURL_http_loses_scheme_witness :
  NewFetcherFromURL url.Parse "https://example.com/a.zip" "/cache/new"
  = Ok (Fetcher.mk SourceHTTP "example.com/a.zip" "" "/cache/new") /\
  Fetch sample_env url.Parse (Fetcher.mk SourceHTTP "example.com/a.zip" "" "/cache/new")
        sample_world
  = (Err (New "unsupported URL scheme: "), sample_world).
Proof.
  apply (NewFetcherFromURL_http_loses_scheme sample_env url.Parse
           "https://example.com/a.zip" "/cache/new"
           (url.mkURL "https" "" "example.com" "/a.zip" "")
           (url.mkURL "" "" "" "example.com/a.zip" "") sample_world).
  - discriminate.
  - vm_compute. reflexivity.
  - vm_compute. reflexivity.
  - vm_compute. reflexivity.
  - vm_compute. reflexivity.
  - right. vm_compute. reflexivity.
  - vm_compute. reflexivity.
  - discriminate.
  - discriminate.
Defined.

(** X5.  What [Fetch] refuses it refuses before doing anything: a type
    that is none of the five, a GitHub source with an empty locator, an
    HTTP or well-known source whose locator does not parse or has a
    scheme other than [http] and [https].  The world is as it was. *)
Theorem Fetch_refusals_change_nothing
  (env : Env) (url_Parse : string -> result url.URL) (f : Fetcher.t) (w : World) :
  (Fetcher.SourceType f <> SourceLocal -> Fetcher.SourceType f <> SourceGitHub ->
   Fetcher.SourceType f <> SourceProtodex -> Fetcher.SourceType f <> SourceHTTP ->
   Fetcher.SourceType f <> SourceGoogleWellKnown ->
   Fetch env url_Parse f w
   = (Err (New ("unsupported source type: " +:+ Fetcher.SourceType f)), w)) /\
  (Fetcher.SourceType f = SourceGitHub -> Fetcher.Source f = "" ->
   Fetch env url_Parse f w = (Err (New "github source URL is required"), w)) /\
  (Fetcher.SourceType f = SourceHTTP \/ Fetcher.SourceType f = SourceGoogleWellKnown ->
   (forall cause, url_Parse (Fetcher.Source f) = Err cause ->
                  Fetch env url_Parse f w = (Err (Wrap "invalid URL" cause), w)) /\
   (forall u, url_Parse (Fetcher.Source f) = Ok u ->
              url.Scheme u <> "http" -> url.Scheme u <> "https" ->
              Fetch env url_Parse f w
              = (Err (New ("unsupported URL scheme: " +:+ url.Scheme u)), w))).
Proof.
  split; [|split].
  - intros H1 H2 H3 H4 H5. unfold Fetch.
    destruct (String.eqb_spec (Fetcher.SourceType f) SourceLocal); [contradiction|].
    destruct (String.eqb_spec (Fetcher.SourceType f) SourceGitHub); [contradiction|].
    destruct (String.eqb_spec (Fetcher.SourceType f) SourceProtodex); [contradiction|].
    destruct (String.eqb_spec (Fetcher.SourceType f) SourceHTTP); [contradiction|].
    destruct (String.eqb_spec (Fetcher.SourceType f) SourceGoogleWellKnown); [contradiction|].
    reflexivity.
  - intros Hty Hsrc. unfold Fetch, githubFetch. rewrite Hty, Hsrc. reflexivity.
  - intros Hty.
    assert (Hf : Fetch env url_Parse f w = urlFetch env url_Parse f w)
      by (unfold Fetch; destruct Hty as [-> | ->]; reflexivity).
    rewrite Hf. unfold urlFetch. split.
    + intros cause ->. reflexivity.
    + intros u -> H1 H2.
      destruct (String.eqb_spec (url.Scheme u) "http"); [contradiction|].
      destruct (String.eqb_spec (url.Scheme u) "https"); [contradiction|].
      reflexivity.
Qed.

Lemma Fetch_refusals_change_nothing_witness :
  Fetch sample_env url.Parse (Fetcher.mk "unsupported" "test" "" "/tmp/test") sample_world
  = (Err (New "unsupported source type: unsupported"), sample_world) /\
  Fetch sample_env url.Parse (Fetcher.mk SourceHTTP "ftp://example.com/file.zip" "" "/cache/x")
        sample_world
  = (Err (New "unsupported URL scheme: ftp"), sample_world).
Proof.
  split.
  - destruct (Fetch_refusals_change_nothing sample_env url.Parse
                (Fetcher.mk "unsupported" "test" "" "/tmp/test") sample_world) as [H _].
    apply H; discriminate.
  - destruct (Fetch_refusals_change_nothing sample_env url.Parse
                (Fetcher.mk SourceHTTP "ftp://example.com/file.zip" "" "/cache/x")
                sample_world) as (_ & _ & H).
    destruct (H (or_introl eq_refl)) as [_ H2].
    apply (H2 (url.mkURL "ftp" "" "example.com" "/file.zip" ""));
      [vm_compute; reflexivity | discriminate | discriminate].
Defined.

Lemma WriteFile_ok (env : Env) (p : string) (d : data) (w w' : World) :
  WriteFile env p d w = (Ok tt, w') ->
  exists a : string, Abs env p = Ok a /\ w' = set_fs w (<[a := File d]> (fs w)).
Proof.
  unfold WriteFile. destruct (Abs env p) as [a|]; [|discriminate].
  intros H. exists a. split; [reflexivity|]. revert H.
  destruct (fs w !! filepath.Dir a) as [[]|]; try discriminate;
    destruct (fs w !! a) as [[]|]; try discriminate;
    destruct (String.eqb a "/"); try discriminate; intros [= <-]; reflexivity.
Qed.

(** X6.  For an HTTP source that is not yet fetched, the outcome of
    the fetch is the outcome of download-and-extract: an error comes
    back wrapped, and after a success the marker is attempted but its
    failure is not reported.  A GitHub fetch that succeeds has written
    its marker as an empty file. *)
Theorem marker_after_fetch
  (env : Env) (url_Parse : string -> result url.URL) (f : Fetcher.t) (w : World) :
  (forall u, url_Parse (Fetcher.Source f) = Ok u ->
             url.Scheme u = "http" \/ url.Scheme u = "https" ->
             isFetched env (Fetcher.Dest f) w = false ->
             let w0 := with_stdout w ["Downloading from " +:+ Fetcher.Source f +:+ "..."] in
             (forall w1, downloadAndExtract env f w0 = (Ok tt, w1) ->
                         urlFetch env url_Parse f w = (Ok tt, snd (markAsFetched env f w1))) /\
             (forall e w1, downloadAndExtract env f w0 = (Err e, w1) ->
                           urlFetch env url_Parse f w
                           = (Err (Wrap "failed to fetch from URL" e), w1))) /\
  (forall w', githubFetch env f w = (Ok tt, w') ->
              exists m : string,
                Abs env (filepath.Join (Fetcher.Dest f) FetchedMarkerFile) = Ok m /\
                fs w' !! m = Some (File (Bytes ""))).
Proof.
  split.
  - intros u Hu Hs Hnot. cbn zeta.
    assert (Hok : negb (String.eqb (url.Scheme u) "http")
                  && negb (String.eqb (url.Scheme u) "https") = false)
      by (destruct Hs as [-> | ->]; reflexivity).
    assert (Hrun : urlFetch env url_Parse f w
                   = match downloadAndExtract env f
                             (with_stdout w ["Downloading from " +:+ Fetcher.Source f
                                             +:+ "..."]) with
                     | (Ok _, w1) => (Ok tt, snd (markAsFetched env f w1))
                     | (Err e, w1) => (Err (Wrap "failed to fetch from URL" e), w1)
                     end).
    { unfold urlFetch. rewrite Hu, Hok, Hnot. unfold bind, wrap, try, ret, Printf.
      change (mkWorld (fs w) (requests w) (stdout w ++ [?l]) (execs w) (executables w))
        with (with_stdout w [l]).
      destruct (downloadAndExtract env f _) as [[[]|e] w1]; [|reflexivity].
      destruct (markAsFetched env f w1) as [r w2]. reflexivity. }
    rewrite Hrun. split.
    + intros w1 ->. reflexivity.
    + intros e w1 ->. reflexivity.
  - intros w'. unfold githubFetch. cbn zeta.
    destruct (String.eqb (Fetcher.Source f) ""); [discriminate|].
    unfold bind.
    destruct (if isFetched env (Fetcher.Dest f) w
              then Printf ("Source already fetched to " +:+ Fetcher.Dest f) w
              else (Ok tt, w)) as [[[]|e] w0]; [|discriminate].
    destruct (wrap "failed to fetch from GitHub" _ w0) as [[[]|e] w1]; [|discriminate].
    unfold markAsFetched, wrap.
    destruct (WriteFile env _ (Bytes "") w1) as [[[]|e] w2] eqn:Hw; [|discriminate].
    intros [= <-]. apply WriteFile_ok in Hw as (m & Hm & ->).
    exists m. split; [exact Hm|]. cbn [set_fs fs]. apply lookup_insert_eq.
Qed.

Lemma marker_after_fetch_witness :
  exists m : string,
    Abs sample_env (filepath.Join "/cache/dep" FetchedMarkerFile) = Ok m /\
    fs (snd (githubFetch sample_env (Fetcher.mk SourceGitHub "acme/schemas" "v1" "/cache/dep")
                         sample_world)) !! m = Some (File (Bytes "")).
Proof.
  destruct (marker_after_fetch sample_env url.Parse
              (Fetcher.mk SourceGitHub "acme/schemas" "v1" "/cache/dep") sample_world)
    as [_ H].
  destruct (githubFetch sample_env (Fetcher.mk SourceGitHub "acme/schemas" "v1" "/cache/dep")
              sample_world) as [r w'] eqn:Hg.
  assert (Hr : r = Ok tt) by (apply (f_equal fst) in Hg; vm_compute in Hg; congruence).
  subst r. apply (H w' eq_refl).
Defined.

Lemma CreateTemp_from_ok (env : Env) (fuel n : nat) (pre suf : string)
  (w w1 : World) (tmp : string) :
  CreateTemp_from env fuel n pre suf w = (Ok tmp, w1) ->
  exists a : string,
    Abs env tmp = Ok a /\ fs w !! a = None /\
    w1 = set_fs w (<[a := File (Bytes "")]> (fs w)).
Proof.
  revert n. induction fuel as [|fuel IH]; intros n; cbn [CreateTemp_from].
  - discriminate.
  - match goal with |- context [match Abs env ?x with _ => _ end] =>
      destruct (Abs env x) as [a|] eqn:Ha end; [|discriminate].
    destruct (fs w !! a) eqn:Hfree; [apply IH|].
    destruct (fs w !! filepath.Dir a) as [[]|]; try discriminate.
    intros [= <- <-]. exists a. auto.
Qed.

(** X7.  A download that is not answered, or answered with a status
    other than 200, fails having logged its one request and written
    nothing.  A download that succeeds has logged its one request and
    changed the file system by exactly one file, at a path that was
    free, holding the body of a 200 response. *)
Theorem download_outcomes (env : Env) (u : string) (w : World) :
  (http_Get env u = None \/
   (exists resp, http_Get env u = Some resp /\ StatusCode resp <> 200) ->
   exists e, fst (download env u w) = Err e /\
             fs (snd (download env u w)) = fs w /\
             requests (snd (download env u w)) = requests w ++ [u]) /\
  (forall (tmp : string) (w1 : World),
      download env u w = (Ok tmp, w1) ->
      exists (a : string) (resp : Response),
        Abs env tmp = Ok a /\ http_Get env u = Some resp /\
        StatusCode resp = 200 /\ BodyFails resp = false /\
        fs w !! a = None /\
        fs w1 = <[a := File (Body resp)]> (fs w) /\
        requests w1 = requests w ++ [u]).
Proof.
  split.
  - intros Hcase. unfold download, bind, Get.
    destruct Hcase as [-> | (resp & -> & Hst)].
    + eexists. cbn. auto.
    + destruct (Z.eqb_spec (StatusCode resp) 200) as [E|_]; [contradiction|].
      eexists. cbn. auto.
  - intros tmp w1 Hd.
    pose proof (download_requests env u w) as Hreq. rewrite Hd in Hreq. cbn [snd] in Hreq.
    revert Hd. unfold download, bind, Get, CreateTemp.
    destruct (http_Get env u) as [resp|]; [|discriminate].
    destruct (Z.eqb_spec (StatusCode resp) 200) as [Hst|_]; [|discriminate]. cbn [negb].
    match goal with |- context [CreateTemp_from env ?f ?n ?a ?b ?w0] =>
      destruct (CreateTemp_from env f n a b w0) as [[t|e] w2] eqn:Ht end; [|discriminate].
    apply CreateTemp_from_ok in Ht as (a & Ha & Hfree & ->).
    unfold Copy_body. rewrite Ha.
    destruct (BodyFails resp) eqn:Hb; [discriminate|].
    unfold ret. intros [= <- <-]. exists a, resp.
    repeat (split; [assumption || reflexivity|]).
    split; [|exact Hreq]. cbn [set_fs fs]. apply insert_insert_eq.
Qed.

Lemma download_outcomes_witness :
  exists e, fst (download sample_env "https://example.com/missing.zip" sample_world) = Err e /\
            fs (snd (download sample_env "https://example.com/missing.zip" sample_world))
            = fs sample_world /\
            requests (snd (download sample_env "https://example.com/missing.zip" sample_world))
            = requests sample_world ++ ["https://example.com/missing.zip"].
Proof.
  destruct (download_outcomes sample_env "https://example.com/missing.zip" sample_world)
    as [H _].
  apply H. right. exists (mkResponse 404 "" "" (Bytes "") false).
  split; [vm_compute; reflexivity | discriminate].
Defined.

(** *** A file stays a file *)



(** [mkdirs] makes directories where nothing was; what was there stays
    as it was. *)
Lemma mkdirs_preserves (dirs : list string) (m m' : gmap string node) :
  mkdirs dirs m = Ok m' -> forall p n, m !! p = Some n -> m' !! p = Some n.
Proof.
  revert m. induction dirs as [|d rest IH]; intros m Hm p n Hp; cbn [mkdirs] in Hm.
  - injection Hm as <-. exact Hp.
  - destruct (m !! d) as [[]|] eqn:Hd; try discriminate.
    + apply (IH m Hm p n Hp).
    + apply (IH _ Hm p n). rewrite lookup_insert_ne; [exact Hp|].
      intros ->. rewrite Hd in Hp. discriminate.
Qed.












(** ** Extracting an archive *)

Lemma MkdirAll_preserves (env : Env) (p : string) (w w' : World) (r : result unit)
  (k : string) (n : node) :
  MkdirAll env p w = (r, w') -> fs w !! k = Some n -> fs w' !! k = Some n.
Proof.
  unfold MkdirAll. destruct (Abs env p) as [a|]; [|intros [= _ <-] H; exact H].
  destruct (mkdirs (ancestors a) (fs w)) as [m|] eqn:Hm; intros [= _ <-] H; [|exact H].
  apply (mkdirs_preserves _ _ _ Hm k n H).
Qed.

(** The members after [file] that do not write to [a] leave what is
    at [a]. *)
Lemma extractZip_files_keeps_other (env : Env) (files : list zip.File) (destPath a : string)
  (w w' : World) (n : node) :
  extractZip_files env files destPath w = (Ok tt, w') ->
  (forall g, In g files -> zip.IsDir g = false ->
             Abs env (filepath.Join destPath (zip.Name g)) <> Ok a) ->
  fs w !! a = Some n -> fs w' !! a = Some n.
Proof.
  revert w. induction files as [|file rest IH]; intros w Hrun Hother Ha.
  - injection Hrun as <-. exact Ha.
  - cbn [extractZip_files] in Hrun.
    assert (Hrest : forall g, In g rest -> zip.IsDir g = false ->
                              Abs env (filepath.Join destPath (zip.Name g)) <> Ok a)
      by (intros g Hg; apply Hother; right; exact Hg).
    destruct (zip.IsDir file) eqn:Hdir; [apply (IH w Hrun Hrest Ha)|].
    unfold bind, lift in Hrun. destruct (zip.Open file) as [rc|]; [|discriminate].
    destruct (MkdirAll env _ w) as [[[]|] w1] eqn:Hm; [|discriminate].
    destruct (WriteFile env _ (Bytes rc) w1) as [[[]|] w2] eqn:Hw; [|discriminate].
    apply (IH w2 Hrun Hrest).
    apply WriteFile_ok in Hw as (k & Hk & ->). cbn [set_fs fs].
    rewrite lookup_insert_ne.
    + apply (MkdirAll_preserves _ _ _ _ _ _ _ Hm Ha).
    + intros ->. apply (Hother file (or_introl eq_refl) Hdir). exact Hk.
Qed.

(** X9.  Directory entries of an archive are of no effect on the
    extraction.  After an extraction that succeeded, every member that
    is not a directory entry is a file at its place under the
    destination with the member's content, unless a later member was
    written to the same place. *)
Theorem extractZip_files_contents (env : Env) (destPath : string) :
  (forall files : list zip.File,
      extractZip_files env files destPath
      = extractZip_files env (List.filter (fun file => negb (zip.IsDir file)) files)
                         destPath) /\
  (forall (pre post : list zip.File) (file : zip.File) (a : string) (w w' : World),
      extractZip_files env (pre ++ file :: post) destPath w = (Ok tt, w') ->
      zip.IsDir file = false ->
      Abs env (filepath.Join destPath (zip.Name file)) = Ok a ->
      (forall g, In g post -> zip.IsDir g = false ->
                 Abs env (filepath.Join destPath (zip.Name g)) <> Ok a) ->
      fs w' !! a = Some (File (Bytes (zip.Content file)))).
Proof.
  split.
  - induction files as [|file rest IH]; [reflexivity|].
    cbn [extractZip_files List.filter]. destruct (zip.IsDir file) eqn:Hd; cbn [negb].
    + exact IH.
    + cbn [extractZip_files]. rewrite Hd, IH. reflexivity.
  - induction pre as [|g pre IH]; intros post file a w w' Hrun Hdir Ha Hlater.
    + cbn [app extractZip_files] in Hrun. rewrite Hdir in Hrun.
      unfold bind, lift, zip.Open in Hrun.
      destruct (zip.Corrupt file); [discriminate|].
      destruct (MkdirAll env _ w) as [[[]|] w1]; [|discriminate].
      destruct (WriteFile env _ _ w1) as [[[]|] w2] eqn:Hw; [|discriminate].
      apply (extractZip_files_keeps_other env post destPath a w2 w' _ Hrun Hlater).
      apply WriteFile_ok in Hw as (k & Hk & ->).
      assert (k = a) as -> by congruence.
      cbn [set_fs fs]. apply lookup_insert_eq.
    + cbn [app extractZip_files] in Hrun.
      destruct (zip.IsDir g); [apply (IH post file a w w' Hrun Hdir Ha Hlater)|].
      unfold bind, lift in Hrun. destruct (zip.Open g) as [rc|]; [|discriminate].
      destruct (MkdirAll env _ w) as [[[]|] w1]; [|discriminate].
      destruct (WriteFile env _ _ w1) as [[[]|] w2]; [|discriminate].
      apply (IH post file a w2 w' Hrun Hdir Ha Hlater).
Qed.

Lemma extractZip_files_contents_witness :
  fs (snd (extractZip_files sample_env
             [zip.mkFile "a/b.txt" false "text" false; zip.mkFile "c/" false "" false]
             "/cache/new" sample_world)) !! "/cache/new/a/b.txt"
  = Some (File (Bytes "text")).
Proof.
  destruct (extractZip_files_contents sample_env "/cache/new") as [_ H].
  destruct (extractZip_files sample_env
              [zip.mkFile "a/b.txt" false "text" false; zip.mkFile "c/" false "" false]
              "/cache/new" sample_world) as [r w'] eqn:Hrun.
  assert (Hr : r = Ok tt) by (apply (f_equal fst) in Hrun; vm_compute in Hrun; congruence).
  subst r. cbn [snd].
  apply (H [] [zip.mkFile "c/" false "" false] (zip.mkFile "a/b.txt" false "text" false)
           "/cache/new/a/b.txt" sample_world w').
  - exact Hrun.
  - vm_compute. reflexivity.
  - vm_compute. reflexivity.
  - intros g [<-|[]] Hg. vm_compute in Hg. discriminate Hg.
Defined.

(** ** What fetching never does *)

(** X10.  Fetching, resolving one dependency and resolving a batch
    never remove a path that was on disk: files may be overwritten and
    new ones appear, but what was there is still there, whether the
    operation succeeds or fails. *)
Theorem fetching_never_removes
  (env : Env) (url_Parse : string -> result url.URL) (w : World) (p : string)
  (Hp : is_Some (fs w !! p)) :
  (forall f : Fetcher.t, is_Some (fs (snd (Fetch env url_Parse f w)) !! p)) /\
  (forall (dc : Resolver.t) (dep : Config.t),
      is_Some (fs (snd (resolveDependency env url_Parse dc dep w)) !! p)) /\
  (forall (dc : Resolver.t) (deps : list Config.t),
      is_Some (fs (snd (ResolveDependencies env url_Parse dc deps w)) !! p)).
Proof.
  split; [|split].
  - intros f. apply (Fetch_grows env url_Parse f w p Hp).
  - intros dc dep. apply (resolveDependency_grows env url_Parse dc dep w p Hp).
  - intros dc deps. apply (ResolveDependencies_grows env url_Parse dc deps w p Hp).
Qed.

Lemma fetching_never_removes_witness :
  is_Some (fs (snd (Fetch sample_env url.Parse
                      (Fetcher.mk SourceGitHub "acme/schemas" "v1" "/cache/dep") sample_world))
              !! "/cache/dep/x.proto").
Proof.
  assert (Hp : is_Some (fs sample_world !! "/cache/dep/x.proto"))
    by (vm_compute; eexists; reflexivity).
  destruct (fetching_never_removes sample_env url.Parse sample_world "/cache/dep/x.proto" Hp)
    as [H _].
  apply H.
Defined.

(** X11.  A local fetch that has made its link cannot be repeated: the
    link is at the destination, and fetching again with the same
    fetcher fails on creating it and changes nothing. *)
Theorem localFetch_twice_fails
  (env : Env) (f : Fetcher.t) (w w' : World) (a d : string)
  (Ha : Abs env (Fetcher.Source f) = Ok a)
  (Hd : Abs env (Fetcher.Dest f) = Ok d)
  (Hne : a <> d)
  (Hfirst : localFetch env f w = (Ok tt, w')) :
  fs w' !! d = Some (Symlink a) /\
  exists e : error,
    localFetch env f w'
    = (Err (Wrap ("failed to create symlink from " +:+ a +:+ " to " +:+ Fetcher.Dest f) e),
       w').
Proof.
  revert Hfirst. unfold localFetch. rewrite Ha, Hd.
  destruct (Stat env a w) as [n|] eqn:Hs; [|discriminate].
  destruct (String.eqb_spec a d) as [|_]; [contradiction|].
  unfold wrap, os_Symlink. rewrite Hd.
  destruct (fs w !! d) eqn:Hfree; [discriminate|].
  destruct (fs w !! filepath.Dir d) as [[]|]; try discriminate.
  intros [= <-]. cbn [set_fs fs]. split; [apply lookup_insert_eq|].
  assert (Hs' : exists n', Stat env a (set_fs w (<[d := Symlink a]> (fs w))) = Found n').
  { revert Hs. unfold Stat. destruct (Abs env a) as [a2|]; [|discriminate].
    cbn [set_fs fs]. destruct (fs w !! a2) as [n0|] eqn:Hn; [|discriminate]. intros _.
    destruct (decide (d = a2)) as [->|Hda].
    - rewrite lookup_insert_eq. eauto.
    - rewrite lookup_insert_ne by exact Hda. rewrite Hn. eauto. }
  destruct Hs' as [n' ->]. rewrite lookup_insert_eq. eexists. reflexivity.
Qed.

Lemma localFetch_twice_fails_witness :
  exists e : error,
    localFetch sample_env (Fetcher.mk SourceLocal "/src" "" "/cache/link")
      (set_fs sample_world (<["/cache/link" := Symlink "/src"]> (fs sample_world)))
    = (Err (Wrap "failed to create symlink from /src to /cache/link" e),
       set_fs sample_world (<["/cache/link" := Symlink "/src"]> (fs sample_world))).
Proof.
  assert (Ha : Abs sample_env "/src" = Ok "/src") by (vm_compute; reflexivity).
  assert (Hd : Abs sample_env "/cache/link" = Ok "/cache/link") by (vm_compute; reflexivity).
  assert (Hne : "/src" <> "/cache/link") by discriminate.
  assert (Hfirst : localFetch sample_env (Fetcher.mk SourceLocal "/src" "" "/cache/link")
                     sample_world
                   = (Ok tt, set_fs sample_world
                               (<["/cache/link" := Symlink "/src"]> (fs sample_world))))
    by (vm_compute; reflexivity).
  destruct (localFetch_twice_fails sample_env (Fetcher.mk SourceLocal "/src" "" "/cache/link")
              sample_world _ "/src" "/cache/link" Ha Hd Hne Hfirst) as [_ H].
  exact H.
Defined.

(** ** Batches *)

(** X12.  Resolving a batch made of two lists is resolving the first
    and, if that succeeded, the second in the world the first left; the
    error of the first is the error of the whole. *)
Theorem ResolveDependencies_app
  (env : Env) (url_Parse : string -> result url.URL) (dc : Resolver.t)
  (deps1 deps2 : list Config.t) (w : World) :
  ResolveDependencies env url_Parse dc (deps1 ++ deps2) w
  = match ResolveDependencies env url_Parse dc deps1 w with
    | (Ok _, w1) => ResolveDependencies env url_Parse dc deps2 w1
    | (Err e, w1) => (Err e, w1)
    end.
Proof.
  revert w. induction deps1 as [|dep rest IH]; intros w.
  - reflexivity.
  - cbn [app ResolveDependencies]. unfold bind, wrap.
    destruct (resolveDependency env url_Parse dc dep w) as [[[]|e] w1]; [apply IH | reflexivity].
Qed.

(** ** Plugins and the compiler *)



Lemma lower_ascii_idem (c : ascii) : strings.lower_ascii (strings.lower_ascii c) = strings.lower_ascii c.
Proof.
  destruct c as [[] [] [] [] [] [] [] []]; vm_compute; reflexivity.
Qed.

Lemma ToLower_idem (s : string) : strings.ToLower (strings.ToLower s) = strings.ToLower s.
Proof.
  induction s as [|c s IH]; [reflexivity|].
  cbn [strings.ToLower]. rewrite lower_ascii_idem, IH. reflexivity.
Qed.

(** X14.  Which base plugin a language needs depends on the language
    name in lower case only; a language that is none of [go], [dart],
    [rust], [swift], [ts], [js] needs none, and ensuring its plugins
    does nothing. *)
Theorem ensureLanguagePlugins_by_lowercase_name (env : Env) (language : string) :
  ensureLanguagePlugins env language = ensureLanguagePlugins env (strings.ToLower language) /\
  (~ In (strings.ToLower language) ["go"; "dart"; "rust"; "swift"; "ts"; "js"] ->
   forall w, ensureLanguagePlugins env language w = (Ok tt, w)).
Proof.
  split.
  - unfold ensureLanguagePlugins. rewrite ToLower_idem. reflexivity.
  - intros Hnot w. unfold ensureLanguagePlugins. cbn zeta.
    repeat (match goal with |- context [String.eqb ?a ?b] =>
              destruct (String.eqb_spec a b) as [E|_];
              [exfalso; apply Hnot; rewrite E; cbn; tauto|] end).
    reflexivity.
Qed.

Lemma ensureLanguagePlugins_by_lowercase_name_witness :
  ensureLanguagePlugins sample_env "Python" sample_world = (Ok tt, sample_world).
Proof.
  destruct (ensureLanguagePlugins_by_lowercase_name sample_env "Python") as [_ H].
  apply H. vm_compute. intros [H1|[H1|[H1|[H1|[H1|[H1|[]]]]]]]; discriminate H1.
Defined.

(** X15.  Every platform identifier [getCurrentPlatform] gives has a
    binary name, so [downloadProtoc] never fails for want of one; and a
    platform is identified exactly for Linux and macOS on amd64 and
    arm64 and for Windows on amd64. *)
Theorem getCurrentPlatform_has_binary_name (env : Env) :
  (getCurrentPlatform env = "" \/ getBinaryName (getCurrentPlatform env) <> "") /\
  (getCurrentPlatform env <> "" <->
   ((GOARCH env = "amd64" \/ GOARCH env = "arm64") /\
    (GOOS env = "linux" \/ GOOS env = "darwin"))
   \/ (GOARCH env = "amd64" /\ GOOS env = "windows")).
Proof.
  unfold getCurrentPlatform. cbn zeta.
  destruct (String.eqb_spec (GOARCH env) "amd64") as [Ha|Ha];
    destruct (String.eqb_spec (GOARCH env) "arm64") as [Hb|Hb];
    destruct (String.eqb_spec (GOOS env) "linux") as [Hl|Hl];
    destruct (String.eqb_spec (GOOS env) "darwin") as [Hd|Hd];
    destruct (String.eqb_spec (GOOS env) "windows") as [Hw|Hw];
    cbn [orb];
    (split;
     [ first [ left; reflexivity | right; vm_compute; discriminate ]
     | split;
       [ intros H; first [ exfalso; apply H; reflexivity | tauto ]
       | intros H; first [ discriminate
                         | exfalso; clear -H Ha Hb Hl Hd Hw; intuition congruence ] ] ]).
Qed.

Lemma getCurrentPlatform_has_binary_name_witness : getCurrentPlatform sample_env <> "".
Proof.
  apply (proj2 (proj2 (getCurrentPlatform_has_binary_name sample_env))).
  left. split; left; vm_compute; reflexivity.
Defined.

(** X16.  Without a compiler path nothing is attempted; a compiler that
    is found is left alone; and whenever [ensureProtoc] reports
    success, the compiler is found afterwards. *)
Theorem ensureProtoc_outcomes (env : Env) (e : Executor.t) (w : World) :
  (Executor.protocPath e = "" ->
   ensureProtoc env e w = (Err (New "protoc binary path is not set"), w) /\
   forall language protoFiles outputDir options,
     GenerateCode env e language protoFiles outputDir options w
     = (Err (New "protoc binary path is not set"), w)) /\
  (Executor.protocPath e <> "" -> LookPath (Executor.protocPath e) w = true ->
   ensureProtoc env e w = (Ok tt, w)) /\
  (forall w', ensureProtoc env e w = (Ok tt, w') ->
              LookPath (Executor.protocPath e) w' = true).
Proof.
  split; [|split].
  - intros Hp.
    assert (He : ensureProtoc env e w = (Err (New "protoc binary path is not set"), w))
      by (unfold ensureProtoc; rewrite Hp; reflexivity).
    split; [exact He|]. intros. rewrite GenerateCode_steps, He. reflexivity.
  - intros Hp Hon. unfold ensureProtoc.
    destruct (String.eqb_spec (Executor.protocPath e) ""); [contradiction|].
    rewrite Hon. reflexivity.
  - intros w'. unfold ensureProtoc.
    destruct (String.eqb (Executor.protocPath e) ""); [discriminate|].
    destruct (LookPath (Executor.protocPath e) w) eqn:Hon; [intros [= <-]; exact Hon|].
    unfold bind. destruct (Printf _ w) as [[[]|] w0]; [|discriminate].
    destruct (wrap _ _ w0) as [[[]|] w1]; [|discriminate].
    destruct (LookPath (Executor.protocPath e) w1) eqn:Hon1; [|discriminate].
    intros [= <-]. exact Hon1.
Qed.

Lemma ensureProtoc_outcomes_witness :
  ensureProtoc sample_env sample_executor sample_world = (Ok tt, sample_world) /\
  LookPath (Executor.protocPath sample_executor) sample_world = true.
Proof.
  destruct (ensureProtoc_outcomes sample_env sample_executor sample_world) as (_ & H2 & H3).
  assert (H : ensureProtoc sample_env sample_executor sample_world = (Ok tt, sample_world)).
  { apply H2; [discriminate | vm_compute; reflexivity]. }
  split; [exact H | apply (H3 sample_world H)].
Defined.

(** X17.  A generation call whose plugins cannot be processed returns
    that error, wrapped, in the world the plugin processing left, and
    a failure of the compiler check comes back as it is: in both cases
    the compiler is not run. *)
Theorem GenerateCode_failures
  (env : Env) (e : Executor.t) (language : string) (protoFiles : list string)
  (outputDir : string) (options : GenerateOptions.t) (w : World) :
  (forall err w1,
      ensureProtoc env e w = (Err err, w1) ->
      GenerateCode env e language protoFiles outputDir options w = (Err err, w1)) /\
  (forall w1 err w2,
      ensureProtoc env e w = (Ok tt, w1) ->
      Process env language outputDir (GenerateOptions.CustomPlugins options) w1
      = (Err err, w2) ->
      GenerateCode env e language protoFiles outputDir options w
      = (Err (Wrap "failed to process plugins" err), w2)) /\
  (forall w1 pluginArgs w2 err w3,
      ensureProtoc env e w = (Ok tt, w1) ->
      Process env language outputDir (GenerateOptions.CustomPlugins options) w1
      = (Ok pluginArgs, w2) ->
      ensureProtoc env e w2 = (Err err, w3) ->
      GenerateCode env e language protoFiles outputDir options w = (Err err, w3)).
Proof.
  split; [|split].
  - intros err w1 H. rewrite GenerateCode_steps, H. reflexivity.
  - intros w1 err w2 H1 H2. rewrite GenerateCode_steps, H1, H2. reflexivity.
  - intros w1 pluginArgs w2 err w3 H1 H2 H3. rewrite GenerateCode_steps, H1, H2, H3.
    reflexivity.
Qed.

Lemma GenerateCode_failures_witness :
  exists err w2,
    GenerateCode sample_env sample_executor "rust" ["a.proto"] "./gen/rs" sample_options
                 sample_world
    = (Err (Wrap "failed to process plugins" err), w2) /\
    execs w2 = [["cargo"; "install"; "protobuf-codegen"]].
Proof.
  destruct (GenerateCode_failures sample_env sample_executor "rust" ["a.proto"] "./gen/rs"
              sample_options sample_world) as (_ & H & _).
  destruct (Process sample_env "rust" "./gen/rs" (GenerateOptions.CustomPlugins sample_options)
              sample_world) as [r w2] eqn:Hp.
  assert (Hr : exists err, r = Err err).
  { apply (f_equal fst) in Hp. vm_compute in Hp. rewrite <- Hp. eexists. reflexivity. }
  destruct Hr as [err ->]. exists err, w2. split.
  - apply (H sample_world err w2); [vm_compute; reflexivity | exact Hp].
  - apply (f_equal (fun x => execs (snd x))) in Hp. vm_compute in Hp. cbn [snd] in Hp.
    symmetry. exact Hp.
Defined.

(** ** The project manager *)

(** X18.  The plugins handed over with a generation request have no
    effect: the call behaves the same whatever plugin list the request
    carries, the plugins used being those of the project
    configuration. *)
Theorem Generate_ignores_request_plugins
  (env : Env) (m : Manager.t) (protoFiles : list string) (options : LanguageConfig.t)
  (plugins : list PluginConfig.t) :
  Generate env m protoFiles options
  = Generate env m protoFiles
      (LanguageConfig.mk (LanguageConfig.Name options) (LanguageConfig.OutputDir options)
                         (LanguageConfig.Options options) plugins).
Proof.
  unfold Generate. destruct protoFiles as [|file rest]; [reflexivity|].
  cbn [LanguageConfig.Name LanguageConfig.OutputDir LanguageConfig.Options
       LanguageConfig.Plugins].
  destruct (GetLanguage (Manager.config m) (LanguageConfig.Name options)); reflexivity.
Qed.

(** X19.  A generation request is refused, with nothing done, when
    there are no proto files, when the project has no configuration for
    the language, and when neither the request nor the configuration
    names an output directory. *)
Theorem Generate_refusals
  (env : Env) (m : Manager.t) (protoFiles : list string) (options : LanguageConfig.t)
  (w : World) :
  (protoFiles = [] ->
   Generate env m protoFiles options w = (Err (New "no proto files to generate"), w)) /\
  (protoFiles <> [] ->
   GetLanguage (Manager.config m) (LanguageConfig.Name options) = None ->
   Generate env m protoFiles options w = (Err (New "no language configured"), w)) /\
  (forall opt0 : LanguageConfig.t,
      protoFiles <> [] ->
      GetLanguage (Manager.config m) (LanguageConfig.Name options) = Some opt0 ->
      LanguageConfig.OutputDir options = "" -> LanguageConfig.OutputDir opt0 = "" ->
      Generate env m protoFiles options w
      = (Err (New ("output directory is required for language " +:+ LanguageConfig.Name opt0)),
         w)).
Proof.
  split; [|split].
  - intros ->. reflexivity.
  - intros Hne Hlang. unfold Generate. destruct protoFiles; [contradiction|].
    rewrite Hlang. reflexivity.
  - intros opt0 Hne Hlang Ho Hc. unfold Generate. destruct protoFiles; [contradiction|].
    rewrite Hlang. cbn [LanguageConfig.OutputDir LanguageConfig.Name]. rewrite Ho, Hc.
    reflexivity.
Qed.

Lemma Generate_refusals_witness :
  Generate sample_env
    (Manager.mk "/proj" "/proj/protodex.yaml" sample_project sample_executor
                (Resolver.mk "/cache"))
    ["a.proto"] (LanguageConfig.mk "rust" "" [] []) sample_world
  = (Err (New "no language configured"), sample_world).
Proof.
  destruct (Generate_refusals sample_env
              (Manager.mk "/proj" "/proj/protodex.yaml" sample_project sample_executor
                          (Resolver.mk "/cache"))
              ["a.proto"] (LanguageConfig.mk "rust" "" [] []) sample_world) as (_ & H & _).
  apply H; [discriminate | vm_compute; reflexivity].
Defined.



Lemma find_dependency_None (deps : list Config.t) (name : string) :
  find_dependency deps name = None -> name ∉ map Config.Name deps.
Proof.
  induction deps as [|dep rest IH]; cbn [find_dependency map].
  - intros _ H. inversion H.
  - destruct (String.eqb_spec (Config.Name dep) name) as [|Hne]; [discriminate|].
    intros Hn H. apply elem_of_cons in H as [H|H]; [congruence | exact (IH Hn H)].
Qed.

(** X21.  Adding a dependency keeps the names of the project's
    dependencies distinct: a name that is already taken is refused with
    manager and world unchanged, and otherwise the new declaration,
    with the type, locator and version the parser gave, is appended to
    the list, whatever happens afterwards. *)
Theorem AddDependency_keeps_names_distinct
  (env : Env) (url_Parse : string -> result url.URL)
  (yaml_Marshal : ProjectConfig.t -> result string)
  (m : Manager.t) (name source : string) (resolve : bool) (w : World)
  (Hdistinct : NoDup (map Config.Name (ProjectConfig.Dependencies (Manager.config m)))) :
  let r := AddDependency env url_Parse yaml_Marshal m name source resolve w in
  let deps := ProjectConfig.Dependencies (Manager.config m) in
  let deps' := ProjectConfig.Dependencies (Manager.config (snd (fst r))) in
  NoDup (map Config.Name deps') /\
  (forall dep, find_dependency deps name = Some dep ->
               forall info, ParseSource url_Parse source = Ok info ->
               r = (Err (New ("dependency " +:+ Config.Name dep +:+ " already exists")), m, w)) /\
  (forall info, find_dependency deps name = None ->
                ParseSource url_Parse source = Ok info ->
                deps' = deps ++ [Config.mk name (Typ info) (Source info) (Version info) ""]) /\
  (forall e, ParseSource url_Parse source = Err e ->
             r = (Err (Wrap "failed to parse dependency source" e), m, w)).
Proof.
  cbn zeta. unfold AddDependency.
  destruct (ParseSource url_Parse source) as [info|e].
  - destruct (find_dependency (ProjectConfig.Dependencies (Manager.config m)) name)
      as [dep|] eqn:Hfind.
    + cbn [fst snd]. split; [exact Hdistinct|].
      split; [intros dep' [= <-] info' _; reflexivity|].
      split; [discriminate | discriminate].
    + assert (Hnew : NoDup (map Config.Name
                              (ProjectConfig.Dependencies (Manager.config m)
                               ++ [Config.mk name (Typ info) (Source info) (Version info) ""]))).
      { rewrite map_app. apply NoDup_app. split; [exact Hdistinct|].
        split; [|apply NoDup_singleton].
        intros x Hx Hin. cbn in Hin. apply list_elem_of_singleton in Hin as ->.
        exact (find_dependency_None _ _ Hfind Hx). }
      destruct (Save env yaml_Marshal _ _ w) as [[[]|e] w1].
      * destruct resolve.
        -- destruct (ResolveDependencies env url_Parse _ _ w1) as [[[]|e] w2];
             cbn [fst snd with_dependencies Manager.config ProjectConfig.Dependencies];
             (split; [exact Hnew|]; split; [discriminate|];
              split; [intros info' _ [= <-]; reflexivity | discriminate]).
        -- cbn [fst snd with_dependencies Manager.config ProjectConfig.Dependencies].
           split; [exact Hnew|]. split; [discriminate|].
           split; [intros info' _ [= <-]; reflexivity | discriminate].
      * cbn [fst snd with_dependencies Manager.config ProjectConfig.Dependencies].
        split; [exact Hnew|]. split; [discriminate|].
        split; [intros info' _ [= <-]; reflexivity | discriminate].
  - cbn [fst snd]. split; [exact Hdistinct|]. split; [discriminate|].
    split; [discriminate|]. intros e' [= <-]. reflexivity.
Qed.

Lemma AddDependency_keeps_names_distinct_witness :
  NoDup (map Config.Name
           (ProjectConfig.Dependencies
              (Manager.config
                 (snd (fst (AddDependency sample_env url.Parse (fun _ => Ok "yaml")
                              (Manager.mk "/src" "/src/protodex.yaml" sample_project
                                          sample_executor (Resolver.mk "/cache"))
                              "schemas" "github://acme/schemas@v1" false sample_world)))))).
Proof.
  assert (Hd : NoDup (map Config.Name
                        (ProjectConfig.Dependencies
                           (Manager.config
                              (Manager.mk "/src" "/src/protodex.yaml" sample_project
                                          sample_executor (Resolver.mk "/cache"))))))
    by (vm_compute; constructor).
  destruct (AddDependency_keeps_names_distinct sample_env url.Parse (fun _ => Ok "yaml")
              (Manager.mk "/src" "/src/protodex.yaml" sample_project sample_executor
                          (Resolver.mk "/cache"))
              "schemas" "github://acme/schemas@v1" false sample_world Hd) as [H _].
  exact H.
Defined.

(** ** Clearing the cache *)



(** ** Package references *)

Lemma Split_nonempty (s : string) (c : ascii) : strings.Split s c <> [].
Proof.
  destruct s as [|c0 s]; cbn [strings.Split]; [discriminate|].
  destruct (Ascii.eqb c0 c); [discriminate|].
  destruct (strings.Split s c); discriminate.
Qed.

Lemma Index_byte_cons (c0 c : ascii) (s : string) :
  strings.Index (String c0 s) (String c "") = -1 <->
  c0 <> c /\ strings.Index s (String c "") = -1.
Proof.
  cbn [strings.Index]. unfold strings.HasPrefix. cbn [strings.strip].
  pose proof (Index_ge s (String c "")) as Hge.
  destruct (Ascii.eqb_spec c c0) as [->|Hne].
  - destruct s; cbn [strings.strip]; split; try discriminate; intros [H _]; congruence.
  - destruct (Z.eqb_spec (strings.Index s (String c "")) (-1)) as [Hi|Hi].
    + split; [intros _; split; [congruence | exact Hi] | reflexivity].
    + split; [lia | intros [_ H]; contradiction].
Qed.

Lemma Split_Join (s : string) (c : ascii) :
  strings.Join (strings.Split s c) (String c "") = s.
Proof.
  induction s as [|c0 s IH]; [reflexivity|].
  cbn [strings.Split]. pose proof (Split_nonempty s c) as Hne.
  destruct (strings.Split s c) as [|h t]; [contradiction|].
  destruct (Ascii.eqb_spec c0 c) as [->|_].
  - change (strings.Join ("" :: h :: t) (String c ""))
      with (String c (strings.Join (h :: t) (String c ""))).
    rewrite IH. reflexivity.
  - destruct t as [|h2 t2].
    + cbn [strings.Join] in *. rewrite IH. reflexivity.
    + change (strings.Join (String c0 h :: h2 :: t2) (String c ""))
        with (String c0 (strings.Join (h :: h2 :: t2) (String c ""))).
      rewrite IH. reflexivity.
Qed.

Lemma Split_parts_free (s : string) (c : ascii) (x : string) :
  In x (strings.Split s c) -> strings.Index x (String c "") = -1.
Proof.
  revert x. induction s as [|c0 s IH]; intros x.
  - intros [<-|[]]. reflexivity.
  - cbn [strings.Split]. destruct (Ascii.eqb_spec c0 c) as [->|Hne].
    + intros [<-|Hin]; [reflexivity | exact (IH x Hin)].
    + pose proof (Split_nonempty s c) as Hnil.
      destruct (strings.Split s c) as [|h t]; [contradiction|].
      intros [<-|Hin].
      * apply Index_byte_cons. split; [exact Hne|]. apply IH. left. reflexivity.
      * apply IH. right. exact Hin.
Qed.

Lemma Split_free (s : string) (c : ascii) :
  strings.Index s (String c "") = -1 -> strings.Split s c = [s].
Proof.
  induction s as [|c0 s IH]; intros Hno; [reflexivity|].
  apply Index_byte_cons in Hno as [Hne Hs].
  cbn [strings.Split]. destruct (Ascii.eqb_spec c0 c) as [|_]; [contradiction|].
  rewrite (IH Hs). reflexivity.
Qed.

Lemma Split_at_first (c : ascii) (root rest : string) :
  strings.Index root (String c "") = -1 ->
  strings.Split (root +:+ String c rest) c = root :: strings.Split rest c.
Proof.
  induction root as [|c0 r IH]; intros Hno.
  - change ("" +:+ String c rest) with (String c rest). cbn [strings.Split].
    rewrite Ascii.eqb_refl. reflexivity.
  - apply Index_byte_cons in Hno as [Hne Hr].
    change (String c0 r +:+ String c rest) with (String c0 (r +:+ String c rest)).
    cbn [strings.Split]. destruct (Ascii.eqb_spec c0 c) as [|_]; [contradiction|].
    rewrite (IH Hr). reflexivity.
Qed.

(** X23.  A package reference is accepted exactly when it is a name, a
    colon and a version with no further colon, and then it is taken
    apart at that colon; anything else is refused, so the parts put
    together with a colon give the reference back. *)
Theorem ParsePackageRef_round_trip (ref pkg version : string) :
  ParsePackageRef ref = Ok (pkg, version) <->
  ref = pkg +:+ ":" +:+ version /\
  strings.Contains pkg ":" = false /\ strings.Contains version ":" = false.
Proof.
  unfold ParsePackageRef, strings.Contains. split.
  - intros Hok.
    pose proof (Split_Join ref ":") as Hjoin.
    pose proof (Split_parts_free ref ":") as Hfree.
    destruct (strings.Split ref ":") as [|p [|v [|x more]]]; try discriminate Hok.
    injection Hok as -> ->. cbn [strings.Join] in Hjoin.
    split; [symmetry; exact Hjoin|].
    split.
    + rewrite (Hfree pkg); [reflexivity | left; reflexivity].
    + rewrite (Hfree version); [reflexivity | right; left; reflexivity].
  - intros (-> & Hp & Hv).
    apply negb_false_iff, Z.eqb_eq in Hp. apply negb_false_iff, Z.eqb_eq in Hv.
    change (pkg +:+ ":" +:+ version) with (pkg +:+ String ":" version).
    rewrite (Split_at_first ":" pkg version Hp), (Split_free version ":" Hv). reflexivity.
Qed.

Lemma ParsePackageRef_round_trip_witness :
  ParsePackageRef "acme/users:v1.2.0" = Ok ("acme/users", "v1.2.0").
Proof.
  apply (proj2 (ParsePackageRef_round_trip "acme/users:v1.2.0" "acme/users" "v1.2.0")).
  split; [vm_compute; reflexivity|]. split; vm_compute; reflexivity.
Defined.

(** ** The well-known protos *)

(** X24.  A dependency on the well-known protos whose directory in the
    cache has content is left alone, whatever version is asked for.
    Otherwise the archive asked for is always the one for Linux on
    x86-64 of the version named, or of v32.0 when none is named; when
    the request is not answered, or answered with a status other than
    200, resolving fails having logged that one request and written
    nothing. *)
Theorem resolve_well_known_protos_outcomes
  (env : Env) (url_Parse : string -> result url.URL) (dc : Resolver.t) (dep : Config.t)
  (w : World)
  (Htyp : Config.Typ dep = SourceGoogleWellKnown) :
  let targetDir := filepath.Join (Resolver.outputPath dc) (Config.Name dep) in
  let version := if String.eqb (Config.Version dep) "" then "v32.0" else Config.Version dep in
  let u := "https://github.com/protocolbuffers/protobuf/releases/download/"
           +:+ version +:+ "/protoc-" +:+ strings.TrimPrefix version "v"
           +:+ "-linux-x86_64.zip" in
  let r := resolveDependency env url_Parse dc dep w in
  (isCached env targetDir w = true -> r = (Ok tt, w)) /\
  (isCached env targetDir w = false -> http_Get env u = None ->
   (exists e, fst r = Err (Wrap "failed to download includes" e)) /\
   fs (snd r) = fs w /\ requests (snd r) = requests w ++ [u]) /\
  (forall resp : Response,
      isCached env targetDir w = false -> http_Get env u = Some resp ->
      StatusCode resp <> 200 ->
      fst r = Err (New ("failed to download includes: HTTP " +:+ pretty (StatusCode resp))) /\
      fs (snd r) = fs w /\ requests (snd r) = requests w ++ [u]).
Proof.
  cbn zeta. unfold resolveDependency. rewrite Htyp, String.eqb_refl.
  unfold resolveGoogleWellKnownProtos. cbn zeta. unfold googleProtocVersion.
  split; [|split].
  - intros ->. reflexivity.
  - intros -> Hget. unfold bind, Printf, wrap, Get. cbn [fs requests stdout execs executables].
    rewrite Hget. cbn [fst snd fs requests]. split; [eexists; reflexivity|]. split; reflexivity.
  - intros resp -> Hget Hst. unfold bind, Printf, wrap, Get.
    cbn [fs requests stdout execs executables]. rewrite Hget.
    destruct (Z.eqb_spec (StatusCode resp) 200) as [|_]; [contradiction|].
    cbn [negb]. unfold throw. cbn [fst snd fs requests]. split; [reflexivity|].
    split; reflexivity.
Qed.

Lemma resolve_well_known_protos_outcomes_witness :
  fst (resolveDependency sample_env url.Parse (Resolver.mk "/cache")
         (Config.mk "wkt" SourceGoogleWellKnown "" "v31.0" "") sample_world)
  = Err (New "failed to download includes: HTTP 404").
Proof.
  destruct (resolve_well_known_protos_outcomes sample_env url.Parse (Resolver.mk "/cache")
              (Config.mk "wkt" SourceGoogleWellKnown "" "v31.0" "") sample_world eq_refl)
    as (_ & _ & H).
  destruct (H (mkResponse 404 "" "" (Bytes "") false)) as [Hr _].
  - vm_compute. reflexivity.
  - vm_compute. reflexivity.
  - discriminate.
  - exact Hr.
Defined.

(** X25.  Of an archive of the well-known protos only the members under
    [include/] that are not directory entries are of any effect, and
    the number reported is the number of those members.  A member under
    [include/google/protobuf/] is written directly into the target
    directory, under the rest of its name. *)
Theorem extractIncludes_files_selects (env : Env) (targetDir : string) :
  let wanted := fun file : zip.File =>
                  strings.HasPrefix (zip.Name file) "include/" && negb (zip.IsDir file) in
  (forall (files : list zip.File) (extracted : Z),
      extractIncludes_files env files targetDir extracted
      = extractIncludes_files env (List.filter wanted files) targetDir extracted) /\
  (forall (files : list zip.File) (extracted n : Z) (w w' : World),
      extractIncludes_files env files targetDir extracted w = (Ok n, w') ->
      n = extracted + Z.of_nat (length (List.filter wanted files))) /\
  (forall (file : zip.File) (rest a : string) (extracted n : Z) (w w' : World),
      zip.Name file = "include/google/protobuf/" +:+ rest ->
      zip.IsDir file = false ->
      extractIncludes_files env [file] targetDir extracted w = (Ok n, w') ->
      Abs env (filepath.Join targetDir rest) = Ok a ->
      fs w' !! a = Some (File (Bytes (zip.Content file)))).
Proof.
  cbn zeta. split; [|split].
  - induction files as [|file files IH]; intros extracted; [reflexivity|].
    cbn [extractIncludes_files List.filter].
    destruct (strings.HasPrefix (zip.Name file) "include/") eqn:Hp; cbn [negb andb];
      [|apply IH].
    destruct (zip.IsDir file) eqn:Hd; cbn [negb]; [apply IH|].
    cbn [extractIncludes_files]. rewrite Hp, Hd. cbn [negb].
    rewrite (IH (extracted + 1)). reflexivity.
  - induction files as [|file files IH]; intros extracted n w w' Hrun.
    + injection Hrun as <- _. cbn [List.filter length]. lia.
    + cbn [extractIncludes_files List.filter] in *.
      destruct (strings.HasPrefix (zip.Name file) "include/"); cbn [negb andb] in *;
        [|exact (IH _ _ _ _ Hrun)].
      destruct (zip.IsDir file); cbn [negb] in *; [exact (IH _ _ _ _ Hrun)|].
      unfold bind in Hrun.
      destruct (MkdirAll env _ w) as [[[]|] w1]; [|discriminate].
      destruct (extractFile_includes env file _ w1) as [[[]|] w2]; [|discriminate].
      apply IH in Hrun. cbn [length]. lia.
  - intros file rest a extracted n w w' Hname Hdir Hrun Ha.
    cbn [extractIncludes_files] in Hrun. rewrite Hdir, Hname in Hrun.
    change ("include/google/protobuf/" +:+ rest)
      with ("include/" +:+ ("google/protobuf/" +:+ rest)) in Hrun.
    unfold strings.HasPrefix in Hrun. rewrite strip_app in Hrun. cbn [negb] in Hrun.
    rewrite !TrimPrefix_app in Hrun.
    unfold bind, extractFile_includes, lift, ret in Hrun.
    destruct (MkdirAll env _ w) as [[[]|] w1]; [|discriminate].
    destruct (zip.Open file) as [rc|] eqn:Hopen; [|discriminate].
    unfold bind in Hrun.
    destruct (WriteFile env _ _ w1) as [[[]|] w2] eqn:Hw; [|discriminate].
    injection Hrun as _ <-.
    apply WriteFile_ok in Hw as (k & Hk & ->).
    assert (k = a) as -> by congruence.
    unfold zip.Open in Hopen. destruct (zip.Corrupt file); [discriminate|].
    injection Hopen as <-. cbn [set_fs fs]. apply lookup_insert_eq.
Qed.

Lemma extractIncludes_files_selects_witness :
  fs (snd (extractIncludes_files sample_env
             [zip.mkFile "include/google/protobuf/any.proto" false "any" false]
             "/cache/wkt" 0 sample_world)) !! "/cache/wkt/any.proto"
  = Some (File (Bytes "any")).
Proof.
  destruct (extractIncludes_files_selects sample_env "/cache/wkt") as (_ & _ & H).
  destruct (extractIncludes_files sample_env
              [zip.mkFile "include/google/protobuf/any.proto" false "any" false]
              "/cache/wkt" 0 sample_world) as [r w'] eqn:Hrun.
  assert (Hr : r = Ok 1) by (apply (f_equal fst) in Hrun; vm_compute in Hrun; congruence).
  subst r. cbn [snd].
  apply (H (zip.mkFile "include/google/protobuf/any.proto" false "any" false) "any.proto"
           "/cache/wkt/any.proto" 0 1 sample_world w').
  - vm_compute. reflexivity.
  - vm_compute. reflexivity.
  - exact Hrun.
  - vm_compute. reflexivity.
Defined.

(** ** The project configuration *)

(** X26.  When several languages of the configuration carry the same
    name, the first one is the one used; the plugins of a language are
    the plugins of the project followed by those of that first entry,
    and for a name that no language carries they are the plugins of
    the project alone. *)
Theorem GetAllPlugins_first_language_wins (pc : ProjectConfig.t) (lang : string) :
  (forall (pre post : list LanguageConfig.t) (l : LanguageConfig.t),
      ProjectConfig.Languages pc = pre ++ l :: post ->
      LanguageConfig.Name l = lang ->
      (forall l0, In l0 pre -> LanguageConfig.Name l0 <> lang) ->
      GetLanguage pc lang = Some l /\
      GetAllPlugins pc lang = ProjectConfig.Plugins pc ++ LanguageConfig.Plugins l) /\
  ((forall l0, In l0 (ProjectConfig.Languages pc) -> LanguageConfig.Name l0 <> lang) ->
   GetLanguage pc lang = None /\ GetAllPlugins pc lang = ProjectConfig.Plugins pc).
Proof.
  assert (Hskip : forall pre rest,
             (forall l0, In l0 pre -> LanguageConfig.Name l0 <> lang) ->
             GetLanguage_in (pre ++ rest) lang = GetLanguage_in rest lang).
  { induction pre as [|l0 pre IH]; intros rest Hpre; [reflexivity|].
    cbn [app GetLanguage_in].
    destruct (String.eqb_spec (LanguageConfig.Name l0) lang) as [E|_].
    - destruct (Hpre l0 (or_introl eq_refl) E).
    - apply IH. intros l1 Hl1. apply Hpre. right. exact Hl1. }
  unfold GetAllPlugins, GetLanguage. cbn zeta. split.
  - intros pre post l -> Hname Hpre. rewrite (Hskip pre (l :: post) Hpre).
    cbn [GetLanguage_in]. rewrite Hname, String.eqb_refl. split; reflexivity.
  - intros Hnone. rewrite <- (app_nil_r (ProjectConfig.Languages pc)).
    rewrite (Hskip _ [] Hnone). cbn [GetLanguage_in]. split; reflexivity.
Qed.

Lemma GetAllPlugins_first_language_wins_witness :
  GetAllPlugins
    (ProjectConfig.mk
       [ LanguageConfig.mk "python" "./gen/py" [] [];
         LanguageConfig.mk "go" "./gen/go" []
           [ PluginConfig.mk "gw" "protoc-gen-gw" [] "./gen/gw" false ];
         LanguageConfig.mk "go" "./gen/other" [] [] ]
       []
       [ PluginConfig.mk "twirp" "protoc-gen-twirp" [] "" false ])
    "go"
  = [ PluginConfig.mk "twirp" "protoc-gen-twirp" [] "" false;
      PluginConfig.mk "gw" "protoc-gen-gw" [] "./gen/gw" false ].
Proof.
  destruct (GetAllPlugins_first_language_wins
              (ProjectConfig.mk
                 [ LanguageConfig.mk "python" "./gen/py" [] [];
                   LanguageConfig.mk "go" "./gen/go" []
                     [ PluginConfig.mk "gw" "protoc-gen-gw" [] "./gen/gw" false ];
                   LanguageConfig.mk "go" "./gen/other" [] [] ]
                 []
                 [ PluginConfig.mk "twirp" "protoc-gen-twirp" [] "" false ])
              "go") as [H _].
  destruct (H [LanguageConfig.mk "python" "./gen/py" [] []]
              [LanguageConfig.mk "go" "./gen/other" [] []]
              (LanguageConfig.mk "go" "./gen/go" []
                 [ PluginConfig.mk "gw" "protoc-gen-gw" [] "./gen/gw" false ]))
    as [_ Hall].
  - reflexivity.
  - reflexivity.
  - intros l0 [<-|[]]. cbn [LanguageConfig.Name]. discriminate.
  - exact Hall.
Defined.
